(** * BACnet/IP server simulator: object store, frame codec and dispatcher

    A shallow embedding of the Go packages [internal/model] (objects.go)
    and [internal/protocol] (npdu.go, apdu.go, server.go), followed by the
    properties of the specification that were checked against it.

    Conventions of the embedding.
    - A Go [byte], [uint8], [uint16], [uint32] is a [Z]; every truncating
      conversion of the source ([byte(x)], [uint32(x)], ...) is written
      out with [mod].
    - A Go [interface{}] holding a property value is an [option Value]:
      [None] is the untyped [nil].
    - A Go map is a [gmap]; a map field that may be the [nil] map is an
      [option (gmap _ _)].
    - A slice is a [list]; [s[a:b]] is [take]/[drop], and a slice
      expression or index that would panic is made explicit.
    - [time.Now()] is an argument [now : Z] of the functions that read the
      clock. *)

From Stdlib Require Import ZArith List Bool Lia.
From stdpp Require Import gmap strings list fin_maps.

Local Open Scope Z_scope.

(** ** Machine integers *)

Definition byte (x : Z) : Z := x mod 256.
Definition uint16 (x : Z) : Z := x mod 65536.
Definition uint32 (x : Z) : Z := x mod 4294967296.

Definition is_byte (x : Z) : Prop := 0 <= x < 256.

(** [len(s)] as a Go [int]. *)
Definition len {A} (s : list A) : Z := Z.of_nat (length s).

(** [s[i]] on a byte slice, used only under the length checks of the
    source. *)
Definition at_ (s : list Z) (i : Z) : Z := nth (Z.to_nat i) s 0.

(** [s[a:b]] and [s[a:]] for in-range bounds. *)
Definition slice (s : list Z) (a b : Z) : list Z :=
  take (Z.to_nat (b - a)) (drop (Z.to_nat a) s).
Definition slice_from (s : list Z) (a : Z) : list Z := drop (Z.to_nat a) s.

(** [make([]byte, n)]. *)
Definition make (n : Z) : list Z := replicate (Z.to_nat n) 0.

(** The builtin [copy(dst, src)]: the first [min(len(dst), len(src))]
    elements of [dst] are overwritten; the result is the new contents of
    [dst]. *)
Definition copy (dst src : list Z) : list Z :=
  take (length dst) src ++ drop (length src) dst.

(** Results of fallible functions: the Go pair [(value, error)]. *)
Inductive Res (A : Type) : Type :=
| Ok (a : A)
| Err (msg : string).
Arguments Ok {A} a.
Arguments Err {A} msg.

(** ** Package model (objects.go) *)

Module model.

(** [ObjectType] constants ([iota + 1]). *)
Definition ObjectTypeAnalogInput : Z := 1.
Definition ObjectTypeAnalogOutput : Z := 2.
Definition ObjectTypeAnalogValue : Z := 3.
Definition ObjectTypeBinaryInput : Z := 4.
Definition ObjectTypeBinaryOutput : Z := 5.
Definition ObjectTypeBinaryValue : Z := 6.
Definition ObjectTypeDevice : Z := 7.
Definition ObjectTypeTrendLog : Z := 8.
Definition ObjectTypeSchedule : Z := 9.
Definition ObjectTypeMultiStateInput : Z := 10.
Definition ObjectTypeMultiStateOutput : Z := 11.
Definition ObjectTypeFile : Z := 12.
Definition ObjectTypeNotificationClass : Z := 13.
Definition ObjectTypeEventLog : Z := 14.
Definition ObjectTypeEventEnrollment : Z := 15.

(** [PropertyIdentifier] constants used below ([iota + 1]). *)
Definition PropertyIdentifierPresentValue : Z := 4.
Definition PropertyIdentifierDescription : Z := 5.
Definition PropertyIdentifierDeviceType : Z := 6.
Definition PropertyIdentifierManufacturerName : Z := 7.
Definition PropertyIdentifierModelName : Z := 8.
Definition PropertyIdentifierFirmwareRevision : Z := 9.
Definition PropertyIdentifierApplicationSoftwareVersion : Z := 10.
Definition PropertyIdentifierLocation : Z := 11.
Definition PropertyIdentifierFileSize : Z := 27.
Definition PropertyIdentifierFileAccessMethod : Z := 28.
Definition PropertyIdentifierFileOpeningTag : Z := 29.
Definition PropertyIdentifierFileClosingTag : Z := 30.

Definition FileAccessMethodStream : Z := 0.
Definition FileAccessMethodRecord : Z := 1.

(** The dynamic values stored in the property maps: every dynamic type
    the source writes (constants of the sample objects, values decoded
    from the wire, the typed fields of files and alarms).  A [float32]
    and a [float64] are carried as their IEEE-754 bit patterns. *)
Inductive Value : Type :=
| VBool (b : bool)
| VUint8 (n : Z)
| VUint16 (n : Z)
| VUint32 (n : Z)
| VInt (n : Z)
| VFloat32 (bits : Z)
| VFloat64 (bits : Z)
| VString (s : string)
| VEventState (n : Z)
| VFileAccessMethod (n : Z).

#[export] Instance Value_eq_dec : EqDecision Value.
Proof. solve_decision. Defined.

(** Not-a-number bit patterns: all exponent bits set and a non-zero
    fraction. *)
Definition float32NaN (bits : Z) : bool :=
  (Z.land (Z.shiftr bits 23) 255 =? 255) && negb (Z.land bits 8388607 =? 0).

Definition float64NaN (bits : Z) : bool :=
  (Z.land (Z.shiftr bits 52) 2047 =? 2047)
  && negb (Z.land bits 4503599627370495 =? 0).

(** Positive and negative zero: every bit but the sign is clear. *)
Definition float32Zero (bits : Z) : bool := Z.land bits 2147483647 =? 0.
Definition float64Zero (bits : Z) : bool :=
  Z.land bits 9223372036854775807 =? 0.

(** [a == b] on floating-point numbers: a NaN equals nothing, the two
    zeros are equal, any other number equals only itself. *)
Definition float32Eq (a b : Z) : bool :=
  negb (float32NaN a) && negb (float32NaN b)
  && ((a =? b) || (float32Zero a && float32Zero b)).

Definition float64Eq (a b : Z) : bool :=
  negb (float64NaN a) && negb (float64NaN b)
  && ((a =? b) || (float64Zero a && float64Zero b)).

(** [a == b] on two non-nil interface values: the dynamic types are
    identical and the values are equal; every dynamic type of [Value] is
    comparable, so the comparison does not panic. *)
Definition interfaceEq (a b : Value) : bool :=
  match a, b with
  | VFloat32 x, VFloat32 y => float32Eq x y
  | VFloat64 x, VFloat64 y => float64Eq x y
  | _, _ => bool_decide (a = b)
  end.

Record ObjectIdentifier : Type := mkObjectIdentifier {
  Type_ : Z;
  Instance_ : Z
}.

#[export] Instance ObjectIdentifier_eq_dec : EqDecision ObjectIdentifier.
Proof. solve_decision. Defined.

Record BACnetEvent : Type := mkBACnetEvent {
  EventType : Z;
  EventState : Z;
  TimeStamp : Z;
  MessageText : string;
  EventNotificationClass : Z
}.

Record COVSubscription : Type := mkCOVSubscription {
  SubscriptionID : Z;
  DeviceID : Z;
  SubObjectIdentifier : ObjectIdentifier;
  Lifetime : Z;
  IssueConfirmedCOVNotifications : bool;
  MonitoredProperties : list Z;
  Timestamp : Z;
  ClientAddress : string
}.

(** One call of [NotificationSender.SendCOVNotification]: the arguments
    handed to the sender. *)
Record COVNotification : Type := mkCOVNotification {
  covClientAddr : string;
  covSubscriptionID : Z;
  covObjectID : Z;
  covPropertyID : Z;
  covNewValue : option Value
}.

(** [Notifier] records whether a [NotificationSender] is installed (the
    field is [nil] otherwise); what the sender is asked to send is the
    list of [COVNotification]s returned by the write path. *)
Record BACnetObject : Type := mkBACnetObject {
  Identifier : ObjectIdentifier;
  Name : string;
  Properties : option (gmap Z (option Value));
  PrioritizedProperties : option (gmap Z (gmap Z (option Value)));
  Events : list BACnetEvent;
  Subscriptions : list COVSubscription;
  Notifier : bool
}.

Definition NewBACnetObject (objType instance : Z) (name : string) : BACnetObject :=
  {| Identifier := {| Type_ := objType; Instance_ := instance |};
     Name := name;
     Properties := Some ∅;
     PrioritizedProperties := Some ∅;
     Events := [];
     Subscriptions := [];
     Notifier := false |}.

(** The [for priority := 0; priority < 16; priority++] loop of
    [ReadProperty], over the priorities still to visit: the first entry
    that exists and is not [nil] is returned. *)
Fixpoint scanPriorities (priProps : gmap Z (option Value)) (priorities : list Z)
  : option Value :=
  match priorities with
  | [] => None
  | priority :: rest =>
      match priProps !! priority with
      | Some (Some value) => Some value
      | _ => scanPriorities priProps rest
      end
  end.

(** [ReadProperty]; the [error] of the source is always [nil] and is left
    out. *)
Definition ReadProperty (o : BACnetObject) (prop : Z) : option Value :=
  let fromPriorities :=
    match PrioritizedProperties o with
    | Some pp =>
        match pp !! prop with
        | Some priProps => scanPriorities priProps (seqZ 0 16)
        | None => None
        end
    | None => None
    end in
  match fromPriorities with
  | Some value => Some value
  | None =>
      match Properties o with
      | Some props =>
          match props !! prop with
          | Some value => value
          | None => None
          end
      | None => None
      end
  end.

Definition set_maps (o : BACnetObject)
    (props : option (gmap Z (option Value)))
    (pri : option (gmap Z (gmap Z (option Value)))) : BACnetObject :=
  {| Identifier := Identifier o; Name := Name o;
     Properties := props; PrioritizedProperties := pri;
     Events := Events o; Subscriptions := Subscriptions o;
     Notifier := Notifier o |}.

Definition set_Subscriptions (o : BACnetObject) (subs : list COVSubscription)
  : BACnetObject :=
  {| Identifier := Identifier o; Name := Name o;
     Properties := Properties o;
     PrioritizedProperties := PrioritizedProperties o;
     Events := Events o; Subscriptions := subs;
     Notifier := Notifier o |}.

Definition set_Timestamp (sub : COVSubscription) (t : Z) : COVSubscription :=
  {| SubscriptionID := SubscriptionID sub; DeviceID := DeviceID sub;
     SubObjectIdentifier := SubObjectIdentifier sub; Lifetime := Lifetime sub;
     IssueConfirmedCOVNotifications := IssueConfirmedCOVNotifications sub;
     MonitoredProperties := MonitoredProperties sub;
     Timestamp := t; ClientAddress := ClientAddress sub |}.

(** The [monitorThisProperty] flag computed for one subscription. *)
Definition monitorThisProperty (sub : COVSubscription) (propertyIdentifier : Z) : bool :=
  if (length (MonitoredProperties sub) =? 0)%nat then true
  else existsb (fun prop => prop =? propertyIdentifier) (MonitoredProperties sub).

(** The guard of the notification branch. *)
Definition notifies (sub : COVSubscription) (propertyIdentifier : Z) : bool :=
  monitorThisProperty sub propertyIdentifier
  && negb (String.eqb (ClientAddress sub) "").

(** The body of the [range o.Subscriptions] loop for one subscription:
    the subscription as left in the slice, and the calls made to the
    notifier. *)
Definition notifyOne (o : BACnetObject) (propertyIdentifier : Z)
    (newValue : option Value) (currentTime : Z) (sub : COVSubscription)
  : COVSubscription * list COVNotification :=
  if notifies sub propertyIdentifier then
    (set_Timestamp sub currentTime,
     if Notifier o then
       [ {| covClientAddr := ClientAddress sub;
            covSubscriptionID := SubscriptionID sub;
            covObjectID := uint32 (Instance_ (Identifier o));
            covPropertyID := uint32 propertyIdentifier;
            covNewValue := newValue |} ]
     else [])
  else (sub, []).

Fixpoint notifyLoop (o : BACnetObject) (propertyIdentifier : Z)
    (newValue : option Value) (currentTime : Z) (subs : list COVSubscription)
  : list COVSubscription * list COVNotification :=
  match subs with
  | [] => ([], [])
  | sub :: rest =>
      let '(sub', sent) := notifyOne o propertyIdentifier newValue currentTime sub in
      let '(rest', sent') := notifyLoop o propertyIdentifier newValue currentTime rest in
      (sub' :: rest', sent ++ sent')
  end.

Definition NotifySubscribers (o : BACnetObject) (propertyIdentifier : Z)
    (oldValue newValue : option Value) (now : Z)
  : BACnetObject * list COVNotification :=
  let '(subs, sent) :=
    notifyLoop o propertyIdentifier newValue now (Subscriptions o) in
  (set_Subscriptions o subs, sent).

(** What a write returns: the object afterwards, the notifications handed
    to the notifier, and the [error]. *)
Record WriteResult : Type := mkWriteResult {
  wrObject : BACnetObject;
  wrSent : list COVNotification;
  wrError : option string
}.

Definition WritePropertyWithPriority (o : BACnetObject) (prop : Z)
    (value : option Value) (priority : Z) (now : Z) : WriteResult :=
  let props := default ∅ (Properties o) in
  let pri := default ∅ (PrioritizedProperties o) in
  let o0 := set_maps o (Some props) (Some pri) in
  let oldValue := ReadProperty o0 prop in
  let stored :=
    if priority =? 16 then
      Some (set_maps o0 (Some (<[prop := value]> props)) (Some (delete prop pri)))
    else if (0 <=? priority) && (priority <=? 15) then
      let priProps := default ∅ (pri !! prop) in
      Some (set_maps o0 (Some props)
              (Some (<[prop := <[priority := value]> priProps]> pri)))
    else None in
  match stored with
  | None =>
      {| wrObject := o0; wrSent := [];
         wrError := Some "invalid priority value, must be between 0-16"%string |}
  | Some o1 =>
      let newValue := ReadProperty o1 prop in
      match oldValue, newValue with
      | Some old, Some new =>
          if negb (interfaceEq old new) then
            let '(o2, sent) := NotifySubscribers o1 prop oldValue newValue now in
            {| wrObject := o2; wrSent := sent; wrError := None |}
          else {| wrObject := o1; wrSent := []; wrError := None |}
      | _, _ => {| wrObject := o1; wrSent := []; wrError := None |}
      end
  end.

(** [WriteProperty]: the default priority 16. *)
Definition WriteProperty (o : BACnetObject) (prop : Z) (value : option Value)
    (now : Z) : WriteResult :=
  WritePropertyWithPriority o prop value 16 now.

(** *** File objects *)

(** [BACnetFile] embeds a [*BACnetObject]; the base object is carried in
    the record. *)
Record BACnetFile : Type := mkBACnetFile {
  fileBase : BACnetObject;
  FileData : list Z;
  AccessMethod : Z;
  OpeningTag : string;
  ClosingTag : string
}.

Definition set_file (f : BACnetFile) (base : BACnetObject) (data : list Z)
  : BACnetFile :=
  {| fileBase := base; FileData := data; AccessMethod := AccessMethod f;
     OpeningTag := OpeningTag f; ClosingTag := ClosingTag f |}.

Definition NewBACnetFile (instance : Z) (name : string) (accessMethod : Z)
    (now : Z) : BACnetFile :=
  let o0 := NewBACnetObject ObjectTypeFile instance name in
  let o1 := wrObject (WriteProperty o0 PropertyIdentifierFileSize
                        (Some (VUint32 (uint32 0))) now) in
  let o2 := wrObject (WriteProperty o1 PropertyIdentifierFileAccessMethod
                        (Some (VFileAccessMethod accessMethod)) now) in
  let o3 := wrObject (WriteProperty o2 PropertyIdentifierFileOpeningTag
                        (Some (VString "")) now) in
  let o4 := wrObject (WriteProperty o3 PropertyIdentifierFileClosingTag
                        (Some (VString "")) now) in
  {| fileBase := o4; FileData := []; AccessMethod := accessMethod;
     OpeningTag := ""; ClosingTag := "" |}.

(** [ReadFile]; [None] is the run-time panic of the slice expression
    [f.FileData[start:end]] when the [uint32] sum [start + count] wraps
    below [start]. *)
Definition ReadFile (f : BACnetFile) (start count : Z) : option (list Z) :=
  let n := uint32 (len (FileData f)) in
  if start >=? n then Some []
  else
    let end0 := uint32 (start + count) in
    let end_ := if end0 >? n then n else end0 in
    if start >? end_ then None
    else Some (slice (FileData f) start end_).

(** [WriteFile].  The result carries the file afterwards and the
    notifications sent by the [FileSize] write; [None] is the run-time
    panic of [f.FileData[start:]] when [start] lies beyond the buffer
    allocated from the wrapped [uint32] sum. *)
Definition WriteFile (f : BACnetFile) (start : Z) (data : list Z) (now : Z)
  : option (BACnetFile * list COVNotification) :=
  let n := uint32 (len (FileData f)) in
  let grown :=
    if start >? n then
      copy (make (uint32 (start + uint32 (len data)))) (FileData f)
    else if uint32 (start + uint32 (len data)) >? n then
      copy (make (uint32 (start + uint32 (len data))))
           (slice (FileData f) 0 start)
    else FileData f in
  if start >? len grown then None
  else
    let written :=
      take (Z.to_nat start) grown ++ copy (slice_from grown start) data in
    let r := WriteProperty (fileBase f) PropertyIdentifierFileSize
               (Some (VUint32 (uint32 (len written)))) now in
    Some (set_file f (wrObject r) written, wrSent r).

Definition DeleteFile (f : BACnetFile) (now : Z)
  : BACnetFile * list COVNotification :=
  let r := WriteProperty (fileBase f) PropertyIdentifierFileSize
             (Some (VUint32 (uint32 0))) now in
  (set_file f (wrObject r) [], wrSent r).

(** *** The device and its object list *)

(** The dynamic types behind the [Object] interface that are stored in a
    device's list: a plain [*BACnetObject] or a [*BACnetFile]. *)
Inductive Object : Type :=
| ObjBase (o : BACnetObject)
| ObjFile (f : BACnetFile).

Definition GetObjectIdentifier (obj : Object) : ObjectIdentifier :=
  match obj with
  | ObjBase o => Identifier o
  | ObjFile f => Identifier (fileBase f)
  end.

Record Device : Type := mkDevice {
  devBase : BACnetObject;
  Objects : list Object
}.

Definition NewDevice (instance : Z) (name location : string) (now : Z)
  : Device :=
  let o := NewBACnetObject ObjectTypeDevice instance name in
  let o := wrObject (WriteProperty o PropertyIdentifierLocation
                       (Some (VString location)) now) in
  let o := wrObject (WriteProperty o PropertyIdentifierDeviceType
                       (Some (VString "Go BACnet Server")) now) in
  let o := wrObject (WriteProperty o PropertyIdentifierManufacturerName
                       (Some (VString "Go BACnet Simulator")) now) in
  let o := wrObject (WriteProperty o PropertyIdentifierModelName
                       (Some (VString "Simulator v1.0")) now) in
  let o := wrObject (WriteProperty o PropertyIdentifierFirmwareRevision
                       (Some (VString "1.0")) now) in
  let o := wrObject (WriteProperty o PropertyIdentifierApplicationSoftwareVersion
                       (Some (VString "1.0")) now) in
  {| devBase := o; Objects := [] |}.

Definition AddObject (d : Device) (obj : Object) : Device :=
  {| devBase := devBase d; Objects := Objects d ++ [obj] |}.

(** [FindObject]: the first object of the list with the identifier, or
    [nil]. *)
Fixpoint findIn (objs : list Object) (identifier : ObjectIdentifier)
  : option Object :=
  match objs with
  | [] => None
  | obj :: rest =>
      if bool_decide (GetObjectIdentifier obj = identifier) then Some obj
      else findIn rest identifier
  end.

Definition FindObject (d : Device) (identifier : ObjectIdentifier)
  : option Object :=
  findIn (Objects d) identifier.

(** *** Getters of the base object *)

Definition GetObjectName (o : BACnetObject) : string := Name o.
Definition GetObjectType (o : BACnetObject) : Z := Type_ (Identifier o).

(** *** Alarm state *)

Definition PropertyIdentifierEventState : Z := 15.
Definition PropertyIdentifierNotificationClass : Z := 17.
Definition PropertyIdentifierStatusFlags : Z := 26.

Definition EventStateNormal : Z := 0.
Definition EventStateFault : Z := 1.
Definition EventStateOffNormal : Z := 2.
Definition EventStateHighLimit : Z := 3.
Definition EventStateLowLimit : Z := 4.

Definition StatusFlagInAlarm : Z := 1.
Definition StatusFlagFault : Z := 2.
Definition StatusFlagOverridden : Z := 4.
Definition StatusFlagOutOfService : Z := 8.

(** [o.Properties[prop]] with its [exists] flag; a [nil] map has no
    entry. *)
Definition propertyEntry (o : BACnetObject) (prop : Z) : option (option Value) :=
  match Properties o with
  | Some props => props !! prop
  | None => None
  end.

(** [o.Properties[prop] = value]; assigning to an entry of the [nil] map
    panics ([None]). *)
Definition setPropertyEntry (o : BACnetObject) (prop : Z) (value : option Value)
  : option BACnetObject :=
  match Properties o with
  | Some props =>
      Some (set_maps o (Some (<[prop := value]> props)) (PrioritizedProperties o))
  | None => None
  end.

(** [GetEventState]: the stored value when its dynamic type is
    [EventState], [EventStateNormal] otherwise. *)
Definition GetEventState (o : BACnetObject) : Z :=
  match propertyEntry o PropertyIdentifierEventState with
  | Some (Some (VEventState s)) => s
  | _ => EventStateNormal
  end.

Definition SetEventState (o : BACnetObject) (state : Z) : option BACnetObject :=
  setPropertyEntry o PropertyIdentifierEventState (Some (VEventState state)).

Definition GetNotificationClass (o : BACnetObject) : Z :=
  match propertyEntry o PropertyIdentifierNotificationClass with
  | Some (Some (VUint32 c)) => c
  | _ => 0
  end.

Definition SetNotificationClass (o : BACnetObject) (class : Z)
  : option BACnetObject :=
  setPropertyEntry o PropertyIdentifierNotificationClass (Some (VUint32 class)).

Definition GetStatusFlags (o : BACnetObject) : Z :=
  match propertyEntry o PropertyIdentifierStatusFlags with
  | Some (Some (VUint8 f)) => f
  | _ => 0
  end.

Definition SetStatusFlags (o : BACnetObject) (flags : Z) : option BACnetObject :=
  setPropertyEntry o PropertyIdentifierStatusFlags (Some (VUint8 flags)).

Definition set_Events (o : BACnetObject) (events : list BACnetEvent)
  : BACnetObject :=
  {| Identifier := Identifier o; Name := Name o;
     Properties := Properties o;
     PrioritizedProperties := PrioritizedProperties o;
     Events := events; Subscriptions := Subscriptions o;
     Notifier := Notifier o |}.

(** [GenerateEvent]; [flags |= StatusFlagInAlarm] and
    [flags &^= StatusFlagInAlarm] on a [uint8]. *)
Definition GenerateEvent (o : BACnetObject) (state : Z) (message : string)
    (now : Z) : option BACnetObject :=
  let event :=
    {| EventType := GetObjectType o; EventState := state; TimeStamp := now;
       MessageText := message;
       EventNotificationClass := GetNotificationClass o |} in
  let o := set_Events o (Events o ++ [event]) in
  o ← SetEventState o state;
  let flags := GetStatusFlags o in
  let flags :=
    if negb (state =? EventStateNormal) then Z.lor flags StatusFlagInAlarm
    else Z.ldiff flags StatusFlagInAlarm in
  SetStatusFlags o flags.

(** *** Subscriptions *)

Definition AddCOVSubscription (o : BACnetObject) (subscription : COVSubscription)
  : BACnetObject :=
  set_Subscriptions o (Subscriptions o ++ [subscription]).

(** The [range] loop of [RemoveCOVSubscription]: the slice without the
    first subscription carrying the id, or [None] when the loop ends
    without a match. *)
Fixpoint removeFirst (subs : list COVSubscription) (subscriptionID : Z)
  : option (list COVSubscription) :=
  match subs with
  | [] => None
  | sub :: rest =>
      if SubscriptionID sub =? subscriptionID then Some rest
      else
        match removeFirst rest subscriptionID with
        | Some rest' => Some (sub :: rest')
        | None => None
        end
  end.

Definition RemoveCOVSubscription (o : BACnetObject) (subscriptionID : Z)
  : BACnetObject * bool :=
  match removeFirst (Subscriptions o) subscriptionID with
  | Some subs => (set_Subscriptions o subs, true)
  | None => (o, false)
  end.

(** *** The [Object] interface on the stored dynamic types *)

(** The embedded base object, on which the promoted methods act. *)
Definition baseOf (obj : Object) : BACnetObject :=
  match obj with
  | ObjBase o => o
  | ObjFile f => fileBase f
  end.

Definition withBase (obj : Object) (o : BACnetObject) : Object :=
  match obj with
  | ObjBase _ => ObjBase o
  | ObjFile f => ObjFile (set_file f o (FileData f))
  end.

End model.

(** ** Package protocol (npdu.go, apdu.go, server.go) *)

Module protocol.
Import model.

#[export] Instance Res_ret : MRet Res := fun _ a => Ok a.
#[export] Instance Res_bind : MBind Res := fun _ _ f m =>
  match m with
  | Ok a => f a
  | Err msg => Err msg
  end.

(** [binary.BigEndian.Uint16(b)]. *)
Definition BigEndianUint16 (b : list Z) : Z :=
  Z.lor (at_ b 1) (Z.shiftl (at_ b 0) 8).

(** *** npdu.go *)

Record ControlInfo : Type := mkControlInfo {
  NetworkMessageFlag : bool;
  DestinationSpecified : bool;
  SourceSpecified : bool;
  ExpectingReply : bool;
  Priority : Z
}.

Record NPDU : Type := mkNPDU {
  Version : Z;
  Control : ControlInfo;
  DestinationNetwork : option Z;
  DestinationMAC : list Z;
  SourceNetwork : option Z;
  SourceMAC : list Z;
  HopCount : option Z
}.

Definition ParsePriority (data : Z) : Z := Z.land data 3.

Definition ParseControl (data : Z) : ControlInfo :=
  {| NetworkMessageFlag := negb (Z.land data 128 =? 0);
     DestinationSpecified := negb (Z.land data 32 =? 0);
     SourceSpecified := negb (Z.land data 8 =? 0);
     ExpectingReply := negb (Z.land data 4 =? 0);
     Priority := ParsePriority data |}.

(** The destination block of [ParseNPDU]: DNET, DLEN and DMAC read at
    [offset]; the result is the two fields and the offset reached. *)
Definition parseDestination (data : list Z) (offset : Z)
  : Res (option Z * list Z * Z) :=
  if offset + 3 >? len data then
    Err "NPDU too short for destination fields"
  else
    let dnet := BigEndianUint16 (slice data offset (offset + 2)) in
    let offset := offset + 2 in
    let dlen := at_ data offset in
    let offset := offset + 1 in
    if offset + dlen >? len data then
      Err "NPDU too short for destination MAC"
    else
      let dmac := copy (make dlen) (slice data offset (offset + dlen)) in
      Ok (Some dnet, dmac, offset + dlen).

(** The source block, entered when the source bit is set and at least
    three bytes remain. *)
Definition parseSource (data : list Z) (offset : Z)
  : Res (option Z * list Z * Z) :=
  let snet := BigEndianUint16 (slice data offset (offset + 2)) in
  let offset := offset + 2 in
  let slen := at_ data offset in
  let offset := offset + 1 in
  if offset + slen >? len data then
    Err "NPDU too short for source MAC"
  else
    let smac := copy (make slen) (slice data offset (offset + slen)) in
    Ok (Some snet, smac, offset + slen).

(** [ParseNPDU]: the header and the offset at which the APDU starts. *)
Definition ParseNPDU (data : list Z) : Res (NPDU * Z) :=
  if len data <? 2 then Err "NPDU too short"
  else
    let version := at_ data 0 in
    let control := ParseControl (at_ data 1) in
    if negb (version =? 1) then Err "unsupported NPDU version"
    else
      let offset := 2 in
      '(dnet, dmac, offset) ←
        (if DestinationSpecified control then parseDestination data offset
         else Ok (None, [], offset));
      '(snet, smac, offset) ←
        (if SourceSpecified control && (len data - offset >=? 3)
         then parseSource data offset
         else Ok (None, [], offset));
      let '(hop, offset) :=
        if DestinationSpecified control && (offset <? len data)
        then (Some (at_ data offset), offset + 1)
        else (None, offset) in
      if offset >? len data then Err "NPDU parsing overflow"
      else
        Ok ({| Version := version; Control := control;
               DestinationNetwork := dnet; DestinationMAC := dmac;
               SourceNetwork := snet; SourceMAC := smac;
               HopCount := hop |}, offset).

(** [NPDU.Encode]. *)
Definition Encode (n : NPDU) : list Z :=
  let out := [Version n] in
  let out :=
    match DestinationNetwork n with
    | Some dnet =>
        let out := out ++ [byte (Z.shiftr dnet 8); byte dnet] in
        if len (DestinationMAC n) >? 255 then
          (out ++ [255]) ++ take 255 (DestinationMAC n)
        else
          (out ++ [byte (len (DestinationMAC n))]) ++ DestinationMAC n
    | None => out
    end in
  let out :=
    match SourceNetwork n with
    | Some snet =>
        let out := out ++ [byte (Z.shiftr snet 8); byte snet] in
        if len (SourceMAC n) >? 255 then
          (out ++ [255]) ++ take 255 (SourceMAC n)
        else
          (out ++ [byte (len (SourceMAC n))]) ++ SourceMAC n
    | None => out
    end in
  match HopCount n with
  | Some h => out ++ [h]
  | None => out
  end.

(** *** apdu.go *)

Definition BACnetAPDUTypeConfirmedServiceRequest : Z := 0.
Definition BACnetAPDUTypeUnconfirmedServiceRequest : Z := 1.
Definition BACnetAPDUTypeSimpleAck : Z := 2.
Definition BACnetAPDUTypeComplexAck : Z := 3.
Definition BACnetAPDUTypeSegmentAck : Z := 4.
Definition BACnetAPDUTypeError : Z := 5.
Definition BACnetAPDUTypeReject : Z := 6.
Definition BACnetAPDUTypeAbort : Z := 7.

Definition BACnetServiceUnconfirmedWhoIs : Z := 8.
Definition BACnetServiceConfirmedReadProperty : Z := 12.
Definition BACnetServiceConfirmedWriteProperty : Z := 13.
Definition BACnetServiceConfirmedReadPropertyMultiple : Z := 16.
Definition BACnetServiceConfirmedWritePropertyMultiple : Z := 17.
Definition BACnetServiceConfirmedAcknowledgeAlarm : Z := 15.
Definition BACnetServiceConfirmedAtomicReadFile : Z := 20.
Definition BACnetServiceConfirmedAtomicWriteFile : Z := 21.
Definition BACnetServiceConfirmedDeleteFile : Z := 22.
Definition BACnetServiceConfirmedSubscribeCOV : Z := 14.
Definition BACnetServiceConfirmedSubscribeCOVProperty : Z := 72.
Definition BACnetServiceConfirmedCancelCOVSubscription : Z := 37.

Record APDU : Type := mkAPDU {
  PDUType : Z;
  ControlFlags : Z;
  InvokeID : option Z;
  ServiceChoice : option Z;
  SequenceNumber : option Z;
  ProposedWindowSize : option Z;
  Payload : list Z;
  Raw : list Z
}.

(** [ParseAPDU].  A [nil] payload and an empty one are the same list. *)
Definition ParseAPDU (data : list Z) : Res APDU :=
  if len data <? 1 then Err "empty APDU"
  else
    let first := at_ data 0 in
    let pduType := Z.shiftr first 4 in
    let control := Z.land first 15 in
    let result invoke sc payload :=
      {| PDUType := pduType; ControlFlags := control;
         InvokeID := invoke; ServiceChoice := sc;
         SequenceNumber := None; ProposedWindowSize := None;
         Payload := payload; Raw := data |} in
    if pduType =? BACnetAPDUTypeConfirmedServiceRequest then
      if len data <? 4 then Err "confirmed service request too short"
      else Ok (result (Some (at_ data 2)) (Some (at_ data 3))
                 (if len data >? 4 then slice_from data 4 else []))
    else if pduType =? BACnetAPDUTypeUnconfirmedServiceRequest then
      if len data <? 2 then Err "unconfirmed service too short"
      else Ok (result None (Some (at_ data 1))
                 (if len data >? 2 then slice_from data 2 else []))
    else if pduType =? BACnetAPDUTypeSimpleAck then
      if len data <? 4 then Err "simple ack too short"
      else Ok (result (Some (at_ data 2)) (Some (at_ data 3))
                 (if len data >? 4 then slice_from data 4 else []))
    else if pduType =? BACnetAPDUTypeComplexAck then
      if len data <? 5 then Err "complex ack too short"
      else Ok (result (Some (at_ data 2)) (Some (at_ data 4))
                 (if len data >? 5 then slice_from data 5 else []))
    else if pduType =? BACnetAPDUTypeError then
      if len data <? 5 then Err "error PDU too short"
      else Ok (result (Some (at_ data 2)) (Some (at_ data 4))
                 (if len data >? 5 then slice_from data 5 else []))
    else
      Ok (result None None (if len data >? 1 then slice_from data 1 else [])).

(** *** server.go *)

Record BACnetServer : Type := mkBACnetServer {
  device : option Device;
  Running : bool;
  currentClientAddr : string
}.

(** What a handler leaves behind: the Go pair [(response, error)], where
    a [nil] response is the empty list, or a run-time panic. *)
Inductive Outcome : Type :=
| Response (bytes : list Z)
| Failure (msg : string)
| Panicked.

Definition ErrorClassDevice : Z := 1.
Definition ErrorClassObject : Z := 2.
Definition ErrorClassProperty : Z := 3.
Definition ErrorClassService : Z := 4.
Definition ErrorClassCov : Z := 9.
Definition ErrorCodeObjectNotExist : Z := 1.
Definition ErrorCodePropertyNotExist : Z := 2.
Definition ErrorCodePropertyNotReadable : Z := 3.
Definition ErrorCodePropertyNotWritable : Z := 4.
Definition ErrorCodeValueOutOfRange : Z := 5.
Definition ErrorCodeInvalidParameterDataType : Z := 7.
Definition ErrorCodeObjectNotOfRequiredType : Z := 6.
Definition ErrorCodeInvalidDataType : Z := 2.
Definition ErrorClassFile : Z := 6.
Definition ErrorCodeFileAccessDenied : Z := 1.

(** The inline expression [uint32(b0)<<24 | uint32(b1)<<16 | uint32(b2)<<8
    | uint32(b3)] of the parsers. *)
Definition be32 (b0 b1 b2 b3 : Z) : Z :=
  Z.lor (Z.lor (Z.lor (uint32 (Z.shiftl b0 24)) (uint32 (Z.shiftl b1 16)))
               (uint32 (Z.shiftl b2 8))) b3.

(** [parseObjectIdentifier]; [ObjectType] is a [uint8], so the ten type
    bits are truncated to eight. *)
Definition parseObjectIdentifier (data : list Z) : Res (ObjectIdentifier * Z) :=
  if len data <? 4 then Err "object identifier too short"
  else
    let typeAndInstance :=
      be32 (at_ data 0) (at_ data 1) (at_ data 2) (at_ data 3) in
    let objectType := byte (Z.shiftr typeAndInstance 22) in
    let instance := Z.land typeAndInstance 4194303 in
    Ok ({| Type_ := objectType; Instance_ := instance |}, 4).

Definition encodeObjectIdentifier (oid : ObjectIdentifier) : list Z :=
  let typeAndInstance :=
    Z.lor (uint32 (Z.shiftl (Type_ oid) 22)) (Z.land (Instance_ oid) 4194303) in
  [ byte (Z.shiftr typeAndInstance 24); byte (Z.shiftr typeAndInstance 16);
    byte (Z.shiftr typeAndInstance 8); byte typeAndInstance ].

Definition createErrorResponse (invokeID serviceType errorClass errorCode : Z)
  : list Z :=
  [ Z.lor BACnetAPDUTypeError 1; 0; invokeID; 3; serviceType;
    errorClass; errorCode ].

Record FileReadRequest : Type := mkFileReadRequest {
  FileID : ObjectIdentifier;
  StartOffset : Z;
  ReadCount : Z
}.

Definition parseFileReadRequest (data : list Z) : Res FileReadRequest :=
  if len data <? 12 then Err "file read request too short"
  else
    '(fileID, offset) ← parseObjectIdentifier data;
    let startOffset :=
      be32 (at_ data offset) (at_ data (offset + 1))
           (at_ data (offset + 2)) (at_ data (offset + 3)) in
    let readCount :=
      be32 (at_ data (offset + 4)) (at_ data (offset + 5))
           (at_ data (offset + 6)) (at_ data (offset + 7)) in
    Ok {| FileID := fileID; StartOffset := startOffset;
          ReadCount := readCount |}.

(** [handleAtomicReadFile].  A [nil] device makes [FindObject] panic on
    the dereference. *)
Definition handleAtomicReadFile (s : BACnetServer) (data : list Z)
    (invokeID : Z) : Outcome :=
  match parseFileReadRequest data with
  | Err _ =>
      Response (createErrorResponse invokeID BACnetServiceConfirmedAtomicReadFile
                  ErrorClassService ErrorCodeValueOutOfRange)
  | Ok request =>
      match device s with
      | None => Panicked
      | Some dev =>
          match FindObject dev (FileID request) with
          | None =>
              Response (createErrorResponse invokeID
                          BACnetServiceConfirmedAtomicReadFile
                          ErrorClassObject ErrorCodeObjectNotExist)
          | Some (ObjBase _) =>
              Response (createErrorResponse invokeID
                          BACnetServiceConfirmedAtomicReadFile
                          ErrorClassObject ErrorCodeInvalidDataType)
          | Some (ObjFile bacFile) =>
              match ReadFile bacFile (StartOffset request) (ReadCount request) with
              | None => Panicked
              | Some fileData =>
                  Response
                    ([ Z.lor BACnetAPDUTypeComplexAck 1; 0; invokeID;
                       byte (len fileData + 9);
                       BACnetServiceConfirmedAtomicReadFile; 2; 4;
                       byte (Z.shiftr (StartOffset request) 24);
                       byte (Z.shiftr (StartOffset request) 16);
                       byte (Z.shiftr (StartOffset request) 8);
                       byte (StartOffset request);
                       4;
                       byte (Z.shiftr (len fileData) 24);
                       byte (Z.shiftr (len fileData) 16);
                       byte (Z.shiftr (len fileData) 8);
                       byte (len fileData) ] ++ fileData)
              end
          end
      end
  end.

(** [generateSubscriptionID]: [nanos] is [time.Now().UnixNano()] and
    [counter] the value of the global [subscriptionCounter] before the
    atomic increment; the result is the id and the counter afterwards. *)
Definition generateSubscriptionID (nanos counter : Z) : Z * Z :=
  let timestamp := uint32 (Z.shiftr nanos 32) in
  let counter := uint32 (counter + 1) in
  (Z.lor (Z.land timestamp 4294901760) (Z.land counter 65535), counter).

(** The ids handed out by successive calls, given the clock value read by
    each call and the counter at the start. *)
Fixpoint generatedIDs (clock : list Z) (counter : Z) : list Z :=
  match clock with
  | [] => []
  | nanos :: rest =>
      let '(id, counter) := generateSubscriptionID nanos counter in
      id :: generatedIDs rest counter
  end.

(** [createIAmResponse]; the local constants of the source are inlined
    with their names in the comments of each line. *)
Definition createIAmResponse (s : BACnetServer) : list Z :=
  match device s with
  | None => []
  | Some dev =>
      let deviceID := Instance_ (Identifier (devBase dev)) in
      let totalLength := 26 in
      [ 129;                                  (* BVLCTypeOriginalUnicast *)
        10;                                   (* BVLCOriginalUnicastNPDU *)
        byte (Z.shiftr (totalLength - 4) 8);
        byte (Z.land (totalLength - 4) 255);
        1;                                    (* NPDUVersion1 *)
        4;                                    (* NPDUControlUnsegmented *)
        0; 0;
        0;
        0; 0;
        0;
        255;
        0;                                    (* APDUTypeUnconfirmedService *)
        byte (totalLength - 11);
        0;
        8;                                    (* BACnetServiceUnconfirmedIAm *)
        12; 0;
        byte (Z.shiftl ObjectTypeDevice 4);
        0;
        byte (Z.shiftr deviceID 16);
        byte (Z.shiftr deviceID 8);
        byte (Z.land deviceID 255);
        33; 4; 0; 4;                          (* MaxAPDUSize1024Bytes *)
        36; 1; 0;                             (* SegmentationNo *)
        37; 2; 0; 0 ]                         (* VendorIDDefault *)
  end.

Section Dispatch.

(** The handlers of the confirmed services whose bodies are not embedded
    here (ReadProperty, WriteProperty, ReadPropertyMultiple,
    WritePropertyMultiple, AcknowledgeAlarm, AtomicWriteFile, DeleteFile,
    SubscribeCOV, SubscribeCOVProperty, CancelCOVSubscription), indexed by
    service choice: from the server, the payload and the invoke id to the
    server afterwards and the outcome. *)
Variable otherConfirmed :
  Z -> BACnetServer -> list Z -> Z -> BACnetServer * Outcome.

Definition otherConfirmedServices : list Z :=
  [ BACnetServiceConfirmedReadProperty;
    BACnetServiceConfirmedWriteProperty;
    BACnetServiceConfirmedReadPropertyMultiple;
    BACnetServiceConfirmedWritePropertyMultiple;
    BACnetServiceConfirmedAcknowledgeAlarm;
    BACnetServiceConfirmedAtomicWriteFile;
    BACnetServiceConfirmedDeleteFile;
    BACnetServiceConfirmedSubscribeCOV;
    BACnetServiceConfirmedSubscribeCOVProperty;
    BACnetServiceConfirmedCancelCOVSubscription ].

Definition handleBACnetAPDU (s : BACnetServer) (data : list Z)
  : BACnetServer * Outcome :=
  if len data <? 2 then (s, Failure "APDU too short")
  else
    match ParseAPDU data with
    | Err msg => (s, Failure msg)
    | Ok apdu =>
        if PDUType apdu =? BACnetAPDUTypeConfirmedServiceRequest then
          match InvokeID apdu, ServiceChoice apdu with
          | Some invokeID, Some serviceChoice =>
              if serviceChoice =? BACnetServiceConfirmedAtomicReadFile then
                (s, handleAtomicReadFile s (Payload apdu) invokeID)
              else if existsb (Z.eqb serviceChoice) otherConfirmedServices then
                otherConfirmed serviceChoice s (Payload apdu) invokeID
              else (s, Response [])
          | _, _ =>
              (s, Failure "confirmed service request missing invokeID or serviceChoice")
          end
        else if PDUType apdu =? BACnetAPDUTypeUnconfirmedServiceRequest then
          match ServiceChoice apdu with
          | None => (s, Failure "unconfirmed service request missing serviceChoice")
          | Some serviceChoice =>
              if serviceChoice =? BACnetServiceUnconfirmedWhoIs then
                (s, Response (createIAmResponse s))
              else (s, Failure "Unsupported unconfirmed service type")
          end
        else if (PDUType apdu =? BACnetAPDUTypeSimpleAck)
             || (PDUType apdu =? BACnetAPDUTypeComplexAck)
             || (PDUType apdu =? BACnetAPDUTypeSegmentAck)
             || (PDUType apdu =? BACnetAPDUTypeError)
             || (PDUType apdu =? BACnetAPDUTypeReject)
             || (PDUType apdu =? BACnetAPDUTypeAbort) then
          (s, Response [])
        else (s, Failure "Unhandled APDU")
    end.

Definition handleOriginalUDPMessage (s : BACnetServer) (data : list Z)
  : BACnetServer * Outcome :=
  match ParseNPDU data with
  | Err msg => (s, Failure msg)
  | Ok (_, offset) => handleBACnetAPDU s (slice_from data offset)
  end.

Definition handleBroadcastMessage (s : BACnetServer) (data : list Z)
  : BACnetServer * Outcome :=
  match ParseNPDU data with
  | Err msg => (s, Failure msg)
  | Ok (_, offset) => handleBACnetAPDU s (slice_from data offset)
  end.

Definition processBACnetMessage (s : BACnetServer) (data : list Z)
  : BACnetServer * Outcome :=
  if len data <? 4 then (s, Failure "BACnet message too short")
  else
    let bvlc := at_ data 0 in
    let bvlcFunction := at_ data 1 in
    let bvlcLength := BigEndianUint16 (slice data 2 4) in
    if negb (bvlc =? 129) then (s, Failure "unknown BVLC type")
    else if negb (bvlcLength =? len data) then
      (s, Failure "BVLC length mismatch")
    else if bvlcFunction =? 10 then handleOriginalUDPMessage s (slice_from data 4)
    else if bvlcFunction =? 11 then handleBroadcastMessage s (slice_from data 4)
    else (s, Response []).

(** One iteration of the [handleRequests] loop for a datagram [data]
    received from [addr]: the server afterwards and the datagrams written
    to the socket, or [None] when a handler panicked. *)
Definition handleDatagram (s : BACnetServer) (data : list Z) (addr : string)
  : option (BACnetServer * list (string * list Z)) :=
  if len data >? 0 then
    let s := {| device := device s; Running := Running s;
                currentClientAddr := addr |} in
    match processBACnetMessage s data with
    | (s', Failure _) => Some (s', [])
    | (s', Response response) =>
        if len response >? 0 then Some (s', [(addr, response)])
        else Some (s', [])
    | (_, Panicked) => None
    end
  else Some (s, []).

End Dispatch.

(** *** Identifiers on the wire *)

(** [parsePropertyIdentifier]: two bytes, big-endian. *)
Definition parsePropertyIdentifier (data : list Z) : Res (Z * Z) :=
  if len data <? 2 then Err "property identifier too short"
  else Ok (Z.lor (Z.shiftl (at_ data 0) 8) (at_ data 1), 2).

(** [encodePropertyIdentifier]: identifiers above [0xFFFF] are emitted
    as [FF FF]. *)
Definition encodePropertyIdentifier (propID : Z) : list Z :=
  if uint32 propID >? 65535 then [byte 255; byte 255]
  else [byte (Z.shiftr (uint32 propID) 8); byte (Z.land propID 255)].

(** *** The value codec *)

(** The dynamic types that the value codec tells apart; a [float32] is
    carried as its IEEE-754 bit pattern, which is all that
    [math.Float32bits] and [math.Float32frombits] look at; [DOther]
    stands for every other dynamic type. *)
Inductive Dynamic : Type :=
| DBool (b : bool)
| DUint8 (n : Z)
| DUint16 (n : Z)
| DUint32 (n : Z)
| DFloat32 (bits : Z)
| DString (s : string)
| DOther.

(** [[]byte(v)] for a string and [string(b)] for a byte slice. *)
Definition bytesOfString (s : string) : list Z :=
  map (fun a => Z.of_N (Ascii.N_of_ascii a)) (String.list_ascii_of_string s).

Definition stringOfBytes (b : list Z) : string :=
  String.string_of_list_ascii (map (fun x => Ascii.ascii_of_N (Z.to_N x)) b).

(** The dynamic type of a stored property value: [int], [float64],
    [EventState] and [FileAccessMethod] values match no case of the
    codec's type switch. *)
Definition dynamicOf (v : Value) : Dynamic :=
  match v with
  | VBool b => DBool b
  | VUint8 n => DUint8 n
  | VUint16 n => DUint16 n
  | VUint32 n => DUint32 n
  | VFloat32 bits => DFloat32 bits
  | VString s => DString s
  | VInt _ | VFloat64 _ | VEventState _ | VFileAccessMethod _ => DOther
  end.

Definition encodeBACnetValue (value : Dynamic) : list Z :=
  match value with
  | DBool v => [17] ++ (if v then [1] else [0])
  | DUint8 v => [33] ++ [v]
  | DUint16 v => [34] ++ [byte (Z.shiftr v 8); byte v]
  | DUint32 v =>
      [35] ++ [byte (Z.shiftr v 24); byte (Z.shiftr v 16);
               byte (Z.shiftr v 8); byte v]
  | DFloat32 uintBits =>
      [57] ++ [byte (Z.shiftr uintBits 24); byte (Z.shiftr uintBits 16);
               byte (Z.shiftr uintBits 8); byte uintBits]
  | DString v => ([65] ++ [byte (len (bytesOfString v))]) ++ bytesOfString v
  | DOther => [0]
  end.

(** [decodeBACnetValue]: the value and the number of bytes consumed. *)
Definition decodeBACnetValue (data : list Z) : Res (Dynamic * Z) :=
  if len data <? 1 then Err "value too short"
  else if at_ data 0 =? 17 then
    if len data <? 2 then Err "BOOLEAN too short"
    else Ok (DBool (negb (at_ data 1 =? 0)), 2)
  else if at_ data 0 =? 33 then
    if len data <? 2 then Err "UNSIGNED INTEGER 8 too short"
    else Ok (DUint8 (at_ data 1), 2)
  else if at_ data 0 =? 34 then
    if len data <? 3 then Err "UNSIGNED INTEGER 16 too short"
    else Ok (DUint16 (Z.lor (uint16 (Z.shiftl (at_ data 1) 8)) (at_ data 2)), 3)
  else if at_ data 0 =? 35 then
    if len data <? 5 then Err "UNSIGNED INTEGER 32 too short"
    else Ok (DUint32 (be32 (at_ data 1) (at_ data 2) (at_ data 3) (at_ data 4)), 5)
  else if at_ data 0 =? 57 then
    if len data <? 5 then Err "REAL too short"
    else Ok (DFloat32 (be32 (at_ data 1) (at_ data 2) (at_ data 3) (at_ data 4)), 5)
  else if at_ data 0 =? 65 then
    if len data <? 2 then Err "CHARACTER STRING too short"
    else
      let strLen := at_ data 1 in
      if len data <? 2 + strLen then Err "CHARACTER STRING length mismatch"
      else Ok (DString (stringOfBytes (slice data 2 (2 + strLen))), 2 + strLen)
  else Err "unsupported data type".

(** *** Service handlers *)

Definition ErrorCodeCovObject : Z := 1.
Definition ErrorCodeCovProperty : Z := 2.
Definition ErrorCodeCovInvalidTime : Z := 3.

(** The object a request addresses: the device itself or an object of
    its list. *)
Inductive Target : Type :=
| TargetDevice
| TargetObject (obj : Object).

(** The lookup written out in [handleReadProperty] and
    [handleAcknowledgeAlarm]: the device itself under
    [(ObjectTypeDevice, instance)], otherwise [FindObject]. *)
Definition findTarget (dev : Device) (objectID : ObjectIdentifier)
  : option Target :=
  if (Type_ objectID =? ObjectTypeDevice)
     && (Instance_ objectID =? Instance_ (Identifier (devBase dev)))
  then Some TargetDevice
  else
    match FindObject dev objectID with
    | Some obj => Some (TargetObject obj)
    | None => None
    end.

Definition targetBase (dev : Device) (target : Target) : BACnetObject :=
  match target with
  | TargetDevice => devBase dev
  | TargetObject obj => baseOf obj
  end.

(** The device after a method has mutated, through its pointer, the
    object that [FindObject] returned for [identifier]: the first object
    of the list with that identifier is the mutated one.  The entries of
    the list are taken to be distinct objects. *)
Fixpoint replaceIn (objs : list Object) (identifier : ObjectIdentifier)
    (new : Object) : list Object :=
  match objs with
  | [] => []
  | obj :: rest =>
      if bool_decide (GetObjectIdentifier obj = identifier) then new :: rest
      else obj :: replaceIn rest identifier new
  end.

Definition withObject (dev : Device) (identifier : ObjectIdentifier)
    (new : Object) : Device :=
  {| devBase := devBase dev; Objects := replaceIn (Objects dev) identifier new |}.

Definition withDevice (s : BACnetServer) (dev : Device) : BACnetServer :=
  {| device := Some dev; Running := Running s;
     currentClientAddr := currentClientAddr s |}.

(** [handleReadProperty]. *)
Definition handleReadProperty (s : BACnetServer) (data : list Z)
    (invokeID : Z) : Outcome :=
  match parseObjectIdentifier data with
  | Err _ =>
      Response (createErrorResponse invokeID BACnetServiceConfirmedReadProperty
                  ErrorClassService ErrorCodeValueOutOfRange)
  | Ok (objectID, offset) =>
      match parsePropertyIdentifier (slice_from data offset) with
      | Err _ =>
          Response (createErrorResponse invokeID
                      BACnetServiceConfirmedReadProperty
                      ErrorClassService ErrorCodeValueOutOfRange)
      | Ok (propertyID, _) =>
          match device s with
          | None => Panicked
          | Some dev =>
              match findTarget dev objectID with
              | None =>
                  Response (createErrorResponse invokeID
                              BACnetServiceConfirmedReadProperty
                              ErrorClassObject ErrorCodeObjectNotExist)
              | Some targetObj =>
                  match ReadProperty (targetBase dev targetObj) propertyID with
                  | None =>
                      Response (createErrorResponse invokeID
                                  BACnetServiceConfirmedReadProperty
                                  ErrorClassProperty ErrorCodePropertyNotExist)
                  | Some value =>
                      let encodedValue := encodeBACnetValue (dynamicOf value) in
                      let header :=
                        [ Z.lor BACnetAPDUTypeComplexAck 1; 0; invokeID;
                          byte (len encodedValue + 4);
                          BACnetServiceConfirmedReadProperty ] in
                      Response ((header ++ [12]) ++ encodedValue)
                  end
              end
          end
      end
  end.

Record FileWriteRequest : Type := mkFileWriteRequest {
  wFileID : ObjectIdentifier;
  wStartOffset : Z;
  WriteData : list Z
}.

Definition parseFileWriteRequest (data : list Z) : Res FileWriteRequest :=
  if len data <? 16 then Err "file write request too short"
  else
    '(fileID, offset) ← parseObjectIdentifier data;
    let startOffset :=
      be32 (at_ data offset) (at_ data (offset + 1))
           (at_ data (offset + 2)) (at_ data (offset + 3)) in
    let dataLength :=
      be32 (at_ data (offset + 4)) (at_ data (offset + 5))
           (at_ data (offset + 6)) (at_ data (offset + 7)) in
    if offset + 8 + dataLength >? len data then
      Err "write data length exceeds the request"
    else
      Ok {| wFileID := fileID; wStartOffset := startOffset;
            WriteData := slice data (offset + 8) (offset + 8 + dataLength) |}.

(** [handleAtomicWriteFile]: the server afterwards, the notifications
    handed to the notifier by the [FileSize] write, and the outcome. *)
Definition handleAtomicWriteFile (s : BACnetServer) (data : list Z)
    (invokeID : Z) (now : Z) : BACnetServer * list COVNotification * Outcome :=
  match parseFileWriteRequest data with
  | Err _ =>
      (s, [], Response (createErrorResponse invokeID
                          BACnetServiceConfirmedAtomicWriteFile
                          ErrorClassService ErrorCodeValueOutOfRange))
  | Ok request =>
      match device s with
      | None => (s, [], Panicked)
      | Some dev =>
          match FindObject dev (wFileID request) with
          | None =>
              (s, [], Response (createErrorResponse invokeID
                                  BACnetServiceConfirmedAtomicWriteFile
                                  ErrorClassObject ErrorCodeObjectNotExist))
          | Some (ObjBase _) =>
              (s, [], Response (createErrorResponse invokeID
                                  BACnetServiceConfirmedAtomicWriteFile
                                  ErrorClassObject ErrorCodeInvalidDataType))
          | Some (ObjFile bacFile) =>
              match WriteFile bacFile (wStartOffset request)
                      (WriteData request) now with
              | None => (s, [], Panicked)
              | Some (bacFile', sent) =>
                  (withDevice s (withObject dev (wFileID request)
                                   (ObjFile bacFile')),
                   sent,
                   Response [ Z.lor BACnetAPDUTypeSimpleAck 1; 0; invokeID; 4;
                              BACnetServiceConfirmedAtomicWriteFile; 0; 0; 0 ])
              end
          end
      end
  end.

Definition parseFileDeleteRequest (data : list Z) : Res ObjectIdentifier :=
  if len data <? 4 then Err "file delete request too short"
  else '(fileID, _) ← parseObjectIdentifier data; Ok fileID.

Definition handleDeleteFile (s : BACnetServer) (data : list Z)
    (invokeID : Z) (now : Z) : BACnetServer * list COVNotification * Outcome :=
  match parseFileDeleteRequest data with
  | Err _ =>
      (s, [], Response (createErrorResponse invokeID
                          BACnetServiceConfirmedDeleteFile
                          ErrorClassService ErrorCodeValueOutOfRange))
  | Ok fileID =>
      match device s with
      | None => (s, [], Panicked)
      | Some dev =>
          match FindObject dev fileID with
          | None =>
              (s, [], Response (createErrorResponse invokeID
                                  BACnetServiceConfirmedDeleteFile
                                  ErrorClassObject ErrorCodeObjectNotExist))
          | Some (ObjBase _) =>
              (s, [], Response (createErrorResponse invokeID
                                  BACnetServiceConfirmedDeleteFile
                                  ErrorClassObject ErrorCodeInvalidDataType))
          | Some (ObjFile bacFile) =>
              let '(bacFile', sent) := DeleteFile bacFile now in
              (withDevice s (withObject dev fileID (ObjFile bacFile')),
               sent,
               Response [ Z.lor BACnetAPDUTypeSimpleAck 1; 0; invokeID; 4;
                          BACnetServiceConfirmedDeleteFile; 0; 0; 0 ])
          end
      end
  end.

(** *** Subscription services *)

Record SubscribeCOVRequest : Type := mkSubscribeCOVRequest {
  reqObjectID : ObjectIdentifier;
  reqSubscribeToAll : bool;
  reqLifetime : Z;
  reqIssueConfirmedNotif : bool;
  reqSubscriberProcessID : Z;
  reqSubscriberDeviceID : ObjectIdentifier;
  reqInitiatingDeviceID : ObjectIdentifier
}.

Definition parseSubscribeCOVRequest (data : list Z) : Res SubscribeCOVRequest :=
  if len data <? 16 then Err "SubscribeCOV request too short"
  else
    '(objectID, offset) ← parseObjectIdentifier data;
    let subscribeToAll := Z.land (at_ data offset) 1 =? 1 in
    let offset := offset + 1 in
    let lifetime :=
      be32 (at_ data offset) (at_ data (offset + 1))
           (at_ data (offset + 2)) (at_ data (offset + 3)) in
    let offset := offset + 4 in
    let issueConfirmedNotif :=
      if len data >? offset then Z.land (at_ data offset) 1 =? 1 else false in
    Ok {| reqObjectID := objectID;
          reqSubscribeToAll := subscribeToAll;
          reqLifetime := lifetime;
          reqIssueConfirmedNotif := issueConfirmedNotif;
          reqSubscriberProcessID := 1;
          reqSubscriberDeviceID :=
            {| Type_ := ObjectTypeDevice; Instance_ := 1 |};
          reqInitiatingDeviceID :=
            {| Type_ := ObjectTypeDevice; Instance_ := 1 |} |}.

(** [handleSubscribeCOV]: [nanos] and [now] are the two clock readings
    (for the id and for the subscription timestamp), [counter] the global
    subscription counter before the call; the result carries the server
    and the counter afterwards. *)
Definition handleSubscribeCOV (s : BACnetServer) (data : list Z)
    (invokeID : Z) (nanos now counter : Z) : BACnetServer * Z * Outcome :=
  match parseSubscribeCOVRequest data with
  | Err _ =>
      (s, counter, Response (createErrorResponse invokeID
                               BACnetServiceConfirmedSubscribeCOV
                               ErrorClassService ErrorCodeValueOutOfRange))
  | Ok request =>
      match device s with
      | None => (s, counter, Panicked)
      | Some dev =>
          match FindObject dev (reqObjectID request) with
          | None =>
              (s, counter, Response (createErrorResponse invokeID
                                       BACnetServiceConfirmedSubscribeCOV
                                       ErrorClassObject ErrorCodeObjectNotExist))
          | Some (ObjFile _) =>
              (s, counter, Response (createErrorResponse invokeID
                                       BACnetServiceConfirmedSubscribeCOV
                                       ErrorClassCov ErrorCodeCovObject))
          | Some (ObjBase bacObj) =>
              let '(subscriptionID, counter) :=
                generateSubscriptionID nanos counter in
              let subscription :=
                {| SubscriptionID := subscriptionID;
                   DeviceID := Instance_ (Identifier (devBase dev));
                   SubObjectIdentifier := reqObjectID request;
                   Lifetime := reqLifetime request;
                   IssueConfirmedCOVNotifications :=
                     reqIssueConfirmedNotif request;
                   MonitoredProperties := [];
                   Timestamp := now;
                   ClientAddress := currentClientAddr s |} in
              (withDevice s (withObject dev (reqObjectID request)
                               (ObjBase (AddCOVSubscription bacObj subscription))),
               counter,
               Response [ Z.lor BACnetAPDUTypeComplexAck 1; 0; invokeID; 8;
                          BACnetServiceConfirmedSubscribeCOV; 4;
                          byte (Z.shiftr subscriptionID 24);
                          byte (Z.shiftr subscriptionID 16);
                          byte (Z.shiftr subscriptionID 8);
                          byte subscriptionID ])
          end
      end
  end.

Record CancelCOVSubscriptionRequest : Type := mkCancelCOVSubscriptionRequest {
  cancelSubscriberProcessID : Z;
  cancelSubscriberDeviceID : ObjectIdentifier;
  cancelInitiatingDeviceID : ObjectIdentifier;
  cancelSubscriptionID : Z
}.

(** [parseCancelCOVSubscriptionRequest].  The three optional blocks are
    embedded as written, including the second block's assignment of the
    consumed count of [parseObjectIdentifier] to [offset]. *)
Definition parseCancelCOVSubscriptionRequest (data : list Z)
  : Res CancelCOVSubscriptionRequest :=
  if len data <? 4 then Err "CancelCOVSubscription request too short"
  else
    let zero := {| Type_ := 0; Instance_ := 0 |} in
    let default := {| Type_ := ObjectTypeDevice; Instance_ := 1 |} in
    let subscriptionID :=
      be32 (at_ data 0) (at_ data 1) (at_ data 2) (at_ data 3) in
    let offset := 4 in
    let '(subscriberProcessID, offset) :=
      if (offset <? len data) && (Z.land (at_ data offset) 224 =? 160) then
        let offset := offset + 1 in
        if offset + 4 <=? len data then
          (be32 (at_ data offset) (at_ data (offset + 1))
                (at_ data (offset + 2)) (at_ data (offset + 3)), offset + 4)
        else (0, offset)
      else (0, offset) in
    let '(subscriberDeviceID, offset) :=
      if (offset <? len data) && (Z.land (at_ data offset) 224 =? 160) then
        let offset := offset + 1 in
        if offset + 3 <=? len data then
          match parseObjectIdentifier (slice_from data offset) with
          | Ok (oid, consumed) => (oid, consumed)
          | Err _ => (default, 0)
          end
        else (zero, offset)
      else (zero, offset) in
    let initiatingDeviceID :=
      if (offset <? len data) && (Z.land (at_ data offset) 224 =? 160) then
        let offset := offset + 1 in
        if offset + 3 <=? len data then
          match parseObjectIdentifier (slice_from data offset) with
          | Ok (oid, _) => oid
          | Err _ => default
          end
        else zero
      else zero in
    Ok {| cancelSubscriberProcessID := subscriberProcessID;
          cancelSubscriberDeviceID := subscriberDeviceID;
          cancelInitiatingDeviceID := initiatingDeviceID;
          cancelSubscriptionID := subscriptionID |}.

(** The loop of [handleCancelCOVSubscription] over the object list: the
    list after the first plain object that held the subscription has
    dropped it, or [None] when no plain object holds it. *)
Fixpoint cancelIn (objs : list Object) (subscriptionID : Z)
  : option (list Object) :=
  match objs with
  | [] => None
  | ObjBase bacnetObj :: rest =>
      match RemoveCOVSubscription bacnetObj subscriptionID with
      | (bacnetObj', true) => Some (ObjBase bacnetObj' :: rest)
      | (_, false) =>
          match cancelIn rest subscriptionID with
          | Some rest' => Some (ObjBase bacnetObj :: rest')
          | None => None
          end
      end
  | ObjFile f :: rest =>
      match cancelIn rest subscriptionID with
      | Some rest' => Some (ObjFile f :: rest')
      | None => None
      end
  end.

Definition handleCancelCOVSubscription (s : BACnetServer) (data : list Z)
    (invokeID : Z) : BACnetServer * Outcome :=
  match parseCancelCOVSubscriptionRequest data with
  | Err _ =>
      (s, Response (createErrorResponse invokeID
                      BACnetServiceConfirmedCancelCOVSubscription
                      ErrorClassService ErrorCodeValueOutOfRange))
  | Ok request =>
      match device s with
      | None => (s, Panicked)
      | Some dev =>
          match cancelIn (Objects dev) (cancelSubscriptionID request) with
          | None =>
              (s, Response (createErrorResponse invokeID
                              BACnetServiceConfirmedCancelCOVSubscription
                              ErrorClassCov ErrorCodeCovObject))
          | Some objs =>
              (withDevice s {| devBase := devBase dev; Objects := objs |},
               Response [ Z.lor BACnetAPDUTypeSimpleAck 1; 0; invokeID; 4;
                          BACnetServiceConfirmedCancelCOVSubscription;
                          0; 0; 0 ])
          end
      end
  end.

(** *** AcknowledgeAlarm *)

(** The untyped constant [EventStateNormal = 0x00] of package protocol;
    passed as an [interface{}] it is an [int]. *)
Definition protocolEventStateNormal : Value := VInt 0.

Definition parseAcknowledgeAlarmData (data : list Z)
  : Res (ObjectIdentifier * Z * Z * Z) :=
  if len data <? 16 then Err "acknowledge alarm request too short"
  else
    '(objectID, _) ← parseObjectIdentifier data;
    let alarmCode := be32 (at_ data 4) (at_ data 5) (at_ data 6) (at_ data 7) in
    let alarmType := be32 (at_ data 8) (at_ data 9) (at_ data 10) (at_ data 11) in
    let timeStamp :=
      be32 (at_ data 12) (at_ data 13) (at_ data 14) (at_ data 15) in
    Ok (objectID, alarmCode, alarmType, timeStamp).

(** [handleAcknowledgeAlarm]: the event state is written through the
    [Object] interface; the status flags are touched only when the target
    is a plain [*BACnetObject]. *)
Definition handleAcknowledgeAlarm (s : BACnetServer) (data : list Z)
    (invokeID : Z) (now : Z) : BACnetServer * list COVNotification * Outcome :=
  let ack :=
    Response [ Z.lor BACnetAPDUTypeSimpleAck 1; 0; invokeID; 4;
               BACnetServiceConfirmedAcknowledgeAlarm; 0; 0; 0 ] in
  match parseAcknowledgeAlarmData data with
  | Err _ =>
      (s, [], Response (createErrorResponse invokeID
                          BACnetServiceConfirmedAcknowledgeAlarm
                          ErrorClassService ErrorCodeValueOutOfRange))
  | Ok (objectID, _, _, _) =>
      match device s with
      | None => (s, [], Panicked)
      | Some dev =>
          match findTarget dev objectID with
          | None =>
              (s, [], Response (createErrorResponse invokeID
                                  BACnetServiceConfirmedAcknowledgeAlarm
                                  ErrorClassObject ErrorCodeObjectNotExist))
          | Some TargetDevice =>
              let r := WriteProperty (devBase dev) PropertyIdentifierEventState
                         (Some protocolEventStateNormal) now in
              (withDevice s {| devBase := wrObject r; Objects := Objects dev |},
               wrSent r, ack)
          | Some (TargetObject (ObjFile f)) =>
              let r := WriteProperty (fileBase f) PropertyIdentifierEventState
                         (Some protocolEventStateNormal) now in
              (withDevice s (withObject dev objectID
                               (ObjFile (set_file f (wrObject r) (FileData f)))),
               wrSent r, ack)
          | Some (TargetObject (ObjBase obj)) =>
              let r := WriteProperty obj PropertyIdentifierEventState
                         (Some protocolEventStateNormal) now in
              let obj := wrObject r in
              let flags := GetStatusFlags obj in
              let flags := Z.ldiff flags StatusFlagInAlarm in
              match SetStatusFlags obj flags with
              | None => (s, wrSent r, Panicked)
              | Some obj =>
                  (withDevice s (withObject dev objectID (ObjBase obj)),
                   wrSent r, ack)
              end
          end
      end
  end.

End protocol.

Import model protocol.

(** ** Observations used in the statements *)

(** The raw entry of priority slot [priority] of property [prop]: [None]
    when the slot has no entry, [Some None] when it holds [nil]. *)
Definition prioritySlot (o : BACnetObject) (prop priority : Z)
  : option (option Value) :=
  pp ← PrioritizedProperties o; priProps ← pp !! prop; priProps !! priority.

(** The raw entry of the plain property mapping (slot 16). *)
Definition defaultSlot (o : BACnetObject) (prop : Z) : option (option Value) :=
  props ← Properties o; props !! prop.

(** The value held by an entry; an entry that is missing or [nil] holds
    nothing. *)
Definition held (entry : option (option Value)) : option Value :=
  match entry with
  | Some (Some v) => Some v
  | _ => None
  end.

(** The notification a subscription receives for a change of [prop] on
    [o]. *)
Definition notificationFor (o : BACnetObject) (prop : Z)
    (newValue : option Value) (sub : COVSubscription) : COVNotification :=
  {| covClientAddr := ClientAddress sub;
     covSubscriptionID := SubscriptionID sub;
     covObjectID := uint32 (Instance_ (Identifier o));
     covPropertyID := uint32 prop;
     covNewValue := newValue |}.



(** The object as the store leaves it before any notification: the maps
    after the slot update of a write at a valid priority. *)
Definition stored (o : BACnetObject) (prop : Z) (value : option Value)
    (priority : Z) : BACnetObject :=
  let props := default ∅ (Properties o) in
  let pri := default ∅ (PrioritizedProperties o) in
  if priority =? 16 then
    set_maps o (Some (<[prop := value]> props)) (Some (delete prop pri))
  else
    set_maps o (Some props)
      (Some (<[prop := <[priority := value]> (default ∅ (pri !! prop))]> pri)).

(** A mutation of a file object, and a run of mutations, each with the
    clock value it reads; [None] when a mutation panics. *)
Inductive FileOp : Type :=
| OpWriteFile (start : Z) (data : list Z)
| OpDeleteFile.

Fixpoint runFileOps (f : BACnetFile) (ops : list (FileOp * Z))
  : option BACnetFile :=
  match ops with
  | [] => Some f
  | (OpWriteFile start data, now) :: rest =>
      match WriteFile f start data now with
      | Some (f', _) => runFileOps f' rest
      | None => None
      end
  | (OpDeleteFile, now) :: rest => runFileOps (DeleteFile f now).1 rest
  end.

(** A write whose end offset fits in a [uint32]. *)
Definition fitsUint32 (op : FileOp * Z) : Prop :=
  match op.1 with
  | OpWriteFile start data => start + len data < 4294967296
  | OpDeleteFile => True
  end.

(** The buffer that [WriteFile] has assigned to [f.FileData] when it
    reaches [copy(f.FileData[start:], data)]: reallocated by one of the
    two growth branches, or the old buffer. *)
Definition grownBuffer (f : BACnetFile) (start : Z) (data : list Z) : list Z :=
  let n := uint32 (len (FileData f)) in
  if start >? n then
    copy (make (uint32 (start + uint32 (len data)))) (FileData f)
  else if uint32 (start + uint32 (len data)) >? n then
    copy (make (uint32 (start + uint32 (len data))))
         (slice (FileData f) 0 start)
  else FileData f.

(** What the file-size invariant says of one file object. *)
Definition sizeAgrees (f : BACnetFile) : Prop :=
  len (FileData f) < 4294967296
  /\ ReadProperty (fileBase f) PropertyIdentifierFileSize
     = Some (VUint32 (len (FileData f))).

(** The octets of one address block of an NPDU header: network number,
    MAC length and MAC address; nothing when the network is not given. *)
Definition addressBlock (net : option Z) (mac : list Z) : list Z :=
  match net with
  | Some n => [byte (Z.shiftr n 8); byte n; byte (len mac)] ++ mac
  | None => []
  end.

(** What the codec can carry of each dynamic type. *)
Definition encodable (value : Dynamic) : Prop :=
  match value with
  | DBool _ => True
  | DUint8 n => 0 <= n < 256
  | DUint16 n => 0 <= n < 65536
  | DUint32 n | DFloat32 n => 0 <= n < 4294967296
  | DString s => len (bytesOfString s) < 256
  | DOther => False
  end.

(** The offset at which the source block of a header starts: after the
    destination block when the destination bit is set. *)
Definition sourceOffset (data : list Z) : Z :=
  if DestinationSpecified (ParseControl (at_ data 1))
  then 5 + at_ data 4 else 2.

(** The headers [ParseNPDU] accepts. *)
Definition npduFramed (data : list Z) : Prop :=
  let control := ParseControl (at_ data 1) in
  let o1 := sourceOffset data in
  2 <= len data /\ at_ data 0 = 1
  /\ (DestinationSpecified control = true -> 5 + at_ data 4 <= len data)
  /\ (SourceSpecified control = true -> o1 + 3 <= len data ->
      o1 + 3 + at_ data (o1 + 2) <= len data).

(** Identifiers that fit their fields on the wire. *)
Definition wireIdentifier (oid : ObjectIdentifier) : Prop :=
  0 <= Type_ oid < 256 /\ 0 <= Instance_ oid < 4194304.

(** The four big-endian octets of a 32-bit word. *)
Definition word (x : Z) : list Z :=
  [byte (Z.shiftr x 24); byte (Z.shiftr x 16); byte (Z.shiftr x 8); byte x].

(** The payloads of the file services, as the parsers read them. *)
Definition atomicReadFileRequest (fileID : ObjectIdentifier)
    (start count : Z) : list Z :=
  encodeObjectIdentifier fileID ++ word start ++ word count.

Definition atomicWriteFileRequest (fileID : ObjectIdentifier) (start : Z)
    (data : list Z) : list Z :=
  encodeObjectIdentifier fileID ++ word start ++ word (len data) ++ data.

(** The payload of a ReadProperty request. *)
Definition readPropertyRequest (oid : ObjectIdentifier) (pid : Z)
    (rest : list Z) : list Z :=
  encodeObjectIdentifier oid ++ encodePropertyIdentifier pid ++ rest.

(** No plain object of the list holds a subscription with the id. *)
Definition unusedID (objs : list Object) (id : Z) : Prop :=
  forall o, ObjBase o ∈ objs ->
  forall sub, sub ∈ Subscriptions o -> SubscriptionID sub <> id.

(** A reply to the request with invoke id [invokeID]: a frame whose
    first byte is [0x03] (an acknowledgement) or [0x05] (an error), whose
    second byte is 0 and whose third byte is the invoke id.  A Go error
    and a panic are not replies. *)
Definition replyTo (invokeID : Z) (o : Outcome) : Prop :=
  match o with
  | Response resp =>
      (at_ resp 0 = 3 \/ at_ resp 0 = 5)
      /\ at_ resp 1 = 0 /\ at_ resp 2 = invokeID
  | Failure _ | Panicked => False
  end.

(** ** Sample data *)

(** An analog value with a relinquish default and one commanded
    priority. *)
Definition sampleAV : BACnetObject :=
  let o := NewBACnetObject ObjectTypeAnalogValue 1 "Temperature Setpoint" in
  let o := wrObject (WriteProperty o PropertyIdentifierPresentValue
                       (Some (VInt 23)) 0) in
  wrObject (WritePropertyWithPriority o PropertyIdentifierPresentValue
              (Some (VInt 21)) 8 0).

(** A subscription to every property, and one to the description only. *)
Definition sampleSubAll : COVSubscription :=
  {| SubscriptionID := 65537; DeviceID := 1001;
     SubObjectIdentifier := {| Type_ := ObjectTypeAnalogInput; Instance_ := 1 |};
     Lifetime := 60; IssueConfirmedCOVNotifications := false;
     MonitoredProperties := []; Timestamp := 100;
     ClientAddress := "192.168.1.20:47808" |}.

Definition sampleSubDescription : COVSubscription :=
  {| SubscriptionID := 65538; DeviceID := 1001;
     SubObjectIdentifier := {| Type_ := ObjectTypeAnalogInput; Instance_ := 1 |};
     Lifetime := 60; IssueConfirmedCOVNotifications := false;
     MonitoredProperties := [PropertyIdentifierDescription]; Timestamp := 100;
     ClientAddress := "192.168.1.21:47808" |}.

(** An analog input with a notifier and the two subscriptions, and no
    present value yet. *)
Definition sampleAIEmpty : BACnetObject :=
  {| Identifier := {| Type_ := ObjectTypeAnalogInput; Instance_ := 1 |};
     Name := "Temperature Sensor";
     Properties := Some ∅; PrioritizedProperties := Some ∅;
     Events := [];
     Subscriptions := [sampleSubAll; sampleSubDescription];
     Notifier := true |}.

(** The same input once a present value has been written. *)
Definition sampleAI : BACnetObject :=
  wrObject (WriteProperty sampleAIEmpty PropertyIdentifierPresentValue
              (Some (VInt 22)) 150).

(** The device of the command-line tool with its default instance 1001
    and three of its sample objects: the light switch, the configuration
    file - added to the list, as [addSampleObjects] does, through its
    embedded base object - and, for contrast, a second file added as a
    file object. *)
Definition sampleDevice : Device :=
  let d := NewDevice 1001 "Go BACnet Server" "Test Location" 0 in
  let lightSwitch :=
    let o := NewBACnetObject ObjectTypeBinaryOutput 1 "Light Switch" in
    let o := wrObject (WriteProperty o PropertyIdentifierDescription
                         (Some (VString "Main room light")) 0) in
    wrObject (WriteProperty o PropertyIdentifierPresentValue
                (Some (VBool false)) 0) in
  let configFile :=
    NewBACnetFile 1 "Configuration File" FileAccessMethodStream 0 in
  let logFile := NewBACnetFile 2 "Log File" FileAccessMethodStream 0 in
  let d := AddObject d (ObjBase lightSwitch) in
  let d := AddObject d (ObjBase (fileBase configFile)) in
  AddObject d (ObjFile logFile).

Definition sampleServer : BACnetServer :=
  {| device := Some sampleDevice; Running := true; currentClientAddr := "" |}.

(** The broadcast Who-Is datagram [81 0B 00 08 01 00 10 08]. *)
Definition whoIsDatagram : list Z := [129; 11; 0; 8; 1; 0; 16; 8].

(** The payload of an AtomicReadFile request for (File, 1), start 0,
    count 4, and the unicast datagram carrying it with invoke id 7. *)
Definition readFile1Payload : list Z := [3; 0; 0; 1; 0; 0; 0; 0; 0; 0; 0; 4].

Definition readFile1Datagram : list Z :=
  [129; 10; 0; 22; 1; 4; 0; 5; 7; 20] ++ readFile1Payload.

(** An NPDU with a destination (network 0x1234, MAC AA BB) and a hop
    count, followed by a Who-Is APDU. *)
Definition routedNPDU : list Z := [1; 32; 18; 52; 2; 170; 187; 255; 16; 8].

(** * Properties *)

(** ** Reading through the priority array *)

Section ReadPath.

Implicit Types (o : BACnetObject) (m : gmap Z (option Value)).

Lemma scanPriorities_none m l :
  (forall j, j ∈ l -> held (m !! j) = None) ->
  scanPriorities m l = None.
Proof.
  induction l as [|k l IH]; intros H; simpl; [done|].
  pose proof (H k ltac:(left)) as Hk.
  destruct (m !! k) as [[v|]|]; simpl in Hk; try discriminate;
    apply IH; intros j Hj; apply H; by right.
Qed.

Lemma scanPriorities_first m l1 k l2 v :
  (forall j, j ∈ l1 -> held (m !! j) = None) ->
  held (m !! k) = Some v ->
  scanPriorities m (l1 ++ k :: l2) = Some v.
Proof.
  induction l1 as [|i l1 IH]; intros H Hk; simpl.
  - destruct (m !! k) as [[w|]|]; simpl in Hk; congruence.
  - pose proof (H i ltac:(left)) as Hi.
    destruct (m !! i) as [[w|]|]; simpl in Hi; try discriminate;
      apply IH; try done; intros j Hj; apply H; by right.
Qed.

Lemma seqZ_split (k : Z) :
  0 <= k < 16 -> seqZ 0 16 = seqZ 0 k ++ k :: seqZ (k + 1) (15 - k).
Proof.
  intros Hk. replace 16 with (k + (16 - k)) at 1 by lia.
  rewrite seqZ_app by lia. f_equal.
  rewrite seqZ_cons by lia. simpl. f_equal. f_equal; lia.
Qed.

Lemma scanPriorities_some_held m l v :
  scanPriorities m l = Some v -> exists k, k ∈ l /\ m !! k = Some (Some v).
Proof.
  induction l as [|k l IH]; simpl; [done|].
  destruct (m !! k) as [[w|]|] eqn:E; intros H.
  - injection H as ->. exists k. split; [by left|done].
  - destruct (IH H) as (j & ? & ?). exists j. split; [by right|done].
  - destruct (IH H) as (j & ? & ?). exists j. split; [by right|done].
Qed.

(** [ReadProperty] looks only at the two maps. *)
Lemma ReadProperty_maps o o' prop :
  Properties o = Properties o' ->
  PrioritizedProperties o = PrioritizedProperties o' ->
  ReadProperty o prop = ReadProperty o' prop.
Proof. unfold ReadProperty. by intros -> ->. Qed.

(** A [nil] map reads as the empty map. *)
Lemma ReadProperty_init o prop :
  ReadProperty
    (set_maps o (Some (default ∅ (Properties o)))
                (Some (default ∅ (PrioritizedProperties o)))) prop
  = ReadProperty o prop.
Proof.
  unfold ReadProperty, set_maps.
  cbn [Properties PrioritizedProperties].
  destruct (PrioritizedProperties o) as [pp|], (Properties o) as [ps|];
    cbn [default from_option id]; rewrite ?lookup_empty; reflexivity.
Qed.

(** C1. [ReadProperty] returns the value held by the lowest-numbered
    priority slot among 0-15 that holds one; when none of the slots 0-15
    holds a value it returns what the plain property mapping (slot 16)
    holds; and when that holds nothing the property reads as absent. *)
Theorem ReadProperty_priority_scan o prop :
  (forall k v,
      0 <= k < 16 ->
      held (prioritySlot o prop k) = Some v ->
      (forall j, 0 <= j < k -> held (prioritySlot o prop j) = None) ->
      ReadProperty o prop = Some v)
  /\ ((forall k, 0 <= k < 16 -> held (prioritySlot o prop k) = None) ->
      ReadProperty o prop = held (defaultSlot o prop))
  /\ ((forall k, 0 <= k < 16 -> held (prioritySlot o prop k) = None) ->
      held (defaultSlot o prop) = None ->
      ReadProperty o prop = None).
Proof.
  assert (Hdefault :
    (forall k, 0 <= k < 16 -> held (prioritySlot o prop k) = None) ->
    ReadProperty o prop = held (defaultSlot o prop)).
  { intros Hnone. unfold ReadProperty, prioritySlot, defaultSlot in *.
    destruct (PrioritizedProperties o) as [pp|]; cbn [mbind option_bind] in *.
    - destruct (pp !! prop) as [priProps|]; cbn [mbind option_bind] in *.
      + rewrite scanPriorities_none.
        * destruct (Properties o) as [ps|]; cbn [mbind option_bind]; [|done].
          by destruct (ps !! prop) as [[w|]|].
        * intros j Hj. apply Hnone. apply elem_of_seqZ in Hj. lia.
      + destruct (Properties o) as [ps|]; cbn [mbind option_bind]; [|done].
        by destruct (ps !! prop) as [[w|]|].
    - destruct (Properties o) as [ps|]; cbn [mbind option_bind]; [|done].
      by destruct (ps !! prop) as [[w|]|]. }
  split; [|split].
  - intros k v Hk Hv Hbelow.
    unfold ReadProperty, prioritySlot in *.
    destruct (PrioritizedProperties o) as [pp|]; cbn [mbind option_bind] in *;
      [|done].
    destruct (pp !! prop) as [priProps|]; cbn [mbind option_bind] in *; [|done].
    rewrite (seqZ_split k Hk).
    rewrite (scanPriorities_first priProps _ k _ v); [done| |done].
    intros j Hj. apply Hbelow. apply elem_of_seqZ in Hj. lia.
  - exact Hdefault.
  - intros Hnone Hd. by rewrite Hdefault.
Qed.

End ReadPath.

(** ** The write path and change-of-value notification *)

Section WritePath.

Implicit Types (o : BACnetObject) (sub : COVSubscription).

Lemma notifyLoop_spec o prop newValue now subs :
  notifyLoop o prop newValue now subs
  = (map (fun sub => if notifies sub prop then set_Timestamp sub now else sub) subs,
     if Notifier o
     then map (notificationFor o prop newValue)
              (List.filter (fun sub => notifies sub prop) subs)
     else []).
Proof.
  induction subs as [|sub subs IH]; simpl.
  - by destruct (Notifier o).
  - rewrite IH. unfold notifyOne.
    destruct (notifies sub prop), (Notifier o); reflexivity.
Qed.

Lemma set_maps_twice o a b c d :
  set_maps (set_maps o a b) c d = set_maps o c d.
Proof. reflexivity. Qed.

Lemma NotifySubscribers_maps o prop old new now :
  Properties (NotifySubscribers o prop old new now).1 = Properties o
  /\ PrioritizedProperties (NotifySubscribers o prop old new now).1
     = PrioritizedProperties o.
Proof.
  unfold NotifySubscribers.
  by destruct (notifyLoop o prop new now (Subscriptions o)).
Qed.

(** A write at a valid priority: the maps are those of [stored], and the
    notifier is called exactly when both effective values are present and
    differ. *)
Lemma WritePropertyWithPriority_valid o prop value priority now :
  0 <= priority <= 16 ->
  let r := WritePropertyWithPriority o prop value priority now in
  let o1 := stored o prop value priority in
  wrError r = None
  /\ Properties (wrObject r) = Properties o1
  /\ PrioritizedProperties (wrObject r) = PrioritizedProperties o1
  /\ (wrObject r, wrSent r)
     = match ReadProperty o prop, ReadProperty o1 prop with
       | Some old, Some new =>
           if negb (interfaceEq old new)
           then NotifySubscribers o1 prop (Some old) (Some new) now
           else (o1, [])
       | _, _ => (o1, [])
       end.
Proof.
  intros Hp. cbv zeta.
  unfold WritePropertyWithPriority, stored.
  rewrite ReadProperty_init.
  assert (Hin : (priority =? 16) = false ->
                (0 <=? priority) && (priority <=? 15) = true).
  { intros E. apply Z.eqb_neq in E. apply andb_true_iff. split; lia. }
  destruct (priority =? 16); [|rewrite (Hin eq_refl)]; cbv zeta;
    rewrite !set_maps_twice;
    (destruct (ReadProperty o prop) as [old|]; [|by simpl]);
    match goal with
    | |- context [ReadProperty ?o1 prop] =>
        destruct (ReadProperty o1 prop) as [new|]; [|by simpl];
        destruct (interfaceEq old new); cbn [negb]; [by simpl|];
        pose proof (NotifySubscribers_maps o1 prop (Some old) (Some new) now)
          as [H1 H2];
        destruct (NotifySubscribers o1 prop (Some old) (Some new) now)
          as [o2 sent];
        by simpl in *
    end.
Qed.

Lemma stored_default o prop value :
  defaultSlot (stored o prop value 16) prop = Some value
  /\ forall k, prioritySlot (stored o prop value 16) prop k = None.
Proof.
  unfold stored, defaultSlot, prioritySlot; simpl. split.
  - by rewrite lookup_insert_eq.
  - intros k. by rewrite lookup_delete_eq.
Qed.

Lemma stored_priority o prop value priority :
  priority <> 16 ->
  prioritySlot (stored o prop value priority) prop priority = Some value
  /\ (forall k, k <> priority ->
        prioritySlot (stored o prop value priority) prop k = prioritySlot o prop k)
  /\ defaultSlot (stored o prop value priority) prop = defaultSlot o prop.
Proof.
  intros Hne. unfold stored, defaultSlot, prioritySlot.
  apply Z.eqb_neq in Hne. rewrite Hne. simpl. repeat split.
  - rewrite lookup_insert_eq. simpl. by rewrite lookup_insert_eq.
  - intros k Hk. rewrite lookup_insert_eq. simpl.
    rewrite lookup_insert_ne by done.
    destruct (PrioritizedProperties o) as [pp|]; simpl.
    + destruct (pp !! prop) as [priProps|]; simpl; [done|].
      by rewrite lookup_empty.
    + by rewrite !lookup_empty.
  - destruct (Properties o) as [ps|]; simpl; [done|]. by rewrite lookup_empty.
Qed.

(** C2. A write of [(prop, value)] at priority 16 stores [value] in the
    plain property mapping and leaves no entry in any priority slot of
    [prop]; a write at a priority 0-15 sets that one slot, and every other
    priority slot of [prop] and its default entry are as before. *)
Theorem WritePropertyWithPriority_slots o prop value now :
  (let r := WritePropertyWithPriority o prop value 16 now in
   wrError r = None
   /\ defaultSlot (wrObject r) prop = Some value
   /\ forall k, prioritySlot (wrObject r) prop k = None)
  /\ (forall priority,
        0 <= priority <= 15 ->
        let r := WritePropertyWithPriority o prop value priority now in
        wrError r = None
        /\ prioritySlot (wrObject r) prop priority = Some value
        /\ (forall k, k <> priority ->
              prioritySlot (wrObject r) prop k = prioritySlot o prop k)
        /\ defaultSlot (wrObject r) prop = defaultSlot o prop).
Proof.
  split.
  - cbv zeta.
    destruct (WritePropertyWithPriority_valid o prop value 16 now ltac:(lia))
      as (He & Hps & Hpp & _).
    destruct (stored_default o prop value) as [Hd Hs].
    split; [done|]. unfold defaultSlot, prioritySlot in *.
    rewrite Hps, Hpp. done.
  - intros priority Hp. cbv zeta.
    destruct (WritePropertyWithPriority_valid o prop value priority now ltac:(lia))
      as (He & Hps & Hpp & _).
    destruct (stored_priority o prop value priority ltac:(lia)) as (H1 & H2 & H3).
    split; [done|]. unfold defaultSlot, prioritySlot in *.
    rewrite Hps, Hpp. done.
Qed.

End WritePath.

Section ChangeOfValue.

Implicit Types (o : BACnetObject) (sub : COVSubscription).





(** C10. When the property has no effective value before a write, the
    write sends no notification and refreshes no subscription, whatever
    value it establishes and whatever subscriptions the object has. *)
Theorem WritePropertyWithPriority_silent_without_old_value
    o prop value priority now :
  ReadProperty o prop = None ->
  wrSent (WritePropertyWithPriority o prop value priority now) = []
  /\ Subscriptions (wrObject (WritePropertyWithPriority o prop value priority now))
     = Subscriptions o.
Proof.
  intros Hold. unfold WritePropertyWithPriority.
  rewrite ReadProperty_init, Hold. cbv zeta.
  destruct (priority =? 16); [by simpl|].
  destruct ((0 <=? priority) && (priority <=? 15)); by simpl.
Qed.

End ChangeOfValue.

(** ** Instances on the sample data *)

Example sampleAV_reads_commanded :
  ReadProperty sampleAV PropertyIdentifierPresentValue = Some (VInt 21).
Proof. vm_compute. reflexivity. Qed.

Example sampleAV_relinquished :
  ReadProperty
    (wrObject (WriteProperty sampleAV PropertyIdentifierPresentValue
                 (Some (VInt 23)) 0))
    PropertyIdentifierPresentValue = Some (VInt 23).
Proof. vm_compute. reflexivity. Qed.

Lemma ReadProperty_priority_scan_witness :
  ReadProperty sampleAV PropertyIdentifierPresentValue = Some (VInt 21).
Proof.
  apply (proj1 (ReadProperty_priority_scan sampleAV PropertyIdentifierPresentValue)
           8 (VInt 21)).
  - lia.
  - vm_compute. reflexivity.
  - intros j Hj.
    assert (Hc : j = 0 \/ j = 1 \/ j = 2 \/ j = 3 \/ j = 4 \/ j = 5 \/ j = 6
                 \/ j = 7) by lia.
    repeat destruct Hc as [->|Hc]; try subst j; vm_compute; reflexivity.
Defined.

Lemma WritePropertyWithPriority_slots_witness :
  prioritySlot
    (wrObject (WritePropertyWithPriority sampleAV PropertyIdentifierPresentValue
                 (Some (VInt 19)) 3 0))
    PropertyIdentifierPresentValue 8
  = Some (Some (VInt 21)).
Proof.
  destruct (proj2 (WritePropertyWithPriority_slots sampleAV
                     PropertyIdentifierPresentValue (Some (VInt 19)) 0)
              3 ltac:(lia)) as (_ & _ & Hothers & _).
  rewrite (Hothers 8) by lia. vm_compute. reflexivity.
Defined.


Lemma WritePropertyWithPriority_silent_witness :
  wrSent (WriteProperty sampleAIEmpty PropertyIdentifierPresentValue
            (Some (VInt 22)) 150) = []
  /\ ReadProperty sampleAI PropertyIdentifierPresentValue = Some (VInt 22)
  /\ notifies sampleSubAll PropertyIdentifierPresentValue = true.
Proof.
  split; [|split].
  - apply (WritePropertyWithPriority_silent_without_old_value sampleAIEmpty
             PropertyIdentifierPresentValue (Some (VInt 22)) 16 150).
    vm_compute. reflexivity.
  - vm_compute. reflexivity.
  - vm_compute. reflexivity.
Defined.


(** ** File objects *)

Section Files.

Implicit Types (f : BACnetFile) (o : BACnetObject).

Lemma copy_length dst src : length (copy dst src) = length dst.
Proof. unfold copy. rewrite length_app, length_take, length_drop. lia. Qed.

Lemma make_length n : length (make n) = Z.to_nat n.
Proof. apply length_replicate. Qed.

Lemma uint32_range x : 0 <= uint32 x < 4294967296.
Proof. unfold uint32. apply Z.mod_pos_bound. lia. Qed.

Lemma uint32_small x : 0 <= x < 4294967296 -> uint32 x = x.
Proof. unfold uint32. apply Z.mod_small. Qed.

(** After a default-priority write the property reads as the value
    written. *)
Lemma WriteProperty_reads o prop v now :
  ReadProperty (wrObject (WriteProperty o prop (Some v) now)) prop = Some v.
Proof.
  unfold WriteProperty.
  destruct (WritePropertyWithPriority_valid o prop (Some v) 16 now ltac:(lia))
    as (_ & Hps & Hpp & _).
  rewrite (ReadProperty_maps _ (stored o prop (Some v) 16) prop Hps Hpp).
  unfold ReadProperty, stored.
  cbn [Z.eqb Pos.eqb set_maps Properties PrioritizedProperties].
  by rewrite lookup_delete_eq, lookup_insert_eq.
Qed.

Lemma NewBACnetFile_sizeAgrees instance name accessMethod now :
  sizeAgrees (NewBACnetFile instance name accessMethod now).
Proof. split; [done|]. vm_compute. reflexivity. Qed.

Lemma DeleteFile_sizeAgrees f now : sizeAgrees (DeleteFile f now).1.
Proof.
  split; [done|]. unfold DeleteFile. cbn [fst set_file fileBase FileData].
  by rewrite WriteProperty_reads.
Qed.

(** The buffer after the optional growth step of [WriteFile], and its
    length. *)
Lemma WriteFile_sizeAgrees f start data now f' sent :
  len (FileData f) < 4294967296 ->
  WriteFile f start data now = Some (f', sent) ->
  sizeAgrees f'.
Proof.
  intros Hlen. unfold WriteFile.
  set (n := uint32 (len (FileData f))).
  set (N := uint32 (start + uint32 (len data))).
  pose proof (uint32_range (start + uint32 (len data))) as HN. fold N in HN.
  assert (Hn : n = len (FileData f)).
  { apply uint32_small. unfold len in *. lia. }
  clearbody n N.
  set (grown := if start >? n then copy (make N) (FileData f)
                else if N >? n then copy (make N) (slice (FileData f) 0 start)
                else FileData f).
  assert (Hgrown : len grown < 4294967296).
  { unfold grown, len. destruct (start >? n); [|destruct (N >? n)];
      rewrite ?copy_length, ?make_length; unfold len in *; lia. }
  destruct (start >? len grown) eqn:Hs; [discriminate|].
  intros [= <- <-]. unfold sizeAgrees.
  cbn [set_file fileBase FileData].
  set (written := take (Z.to_nat start) grown ++ copy (slice_from grown start) data).
  assert (Hw : len written = len grown).
  { unfold written, len, slice_from.
    rewrite length_app, length_take, copy_length, length_drop. lia. }
  rewrite WriteProperty_reads. rewrite Hw.
  split; [done|]. rewrite uint32_small; [done|]. unfold len in *. lia.
Qed.

Lemma WriteFile_returns f start data now :
  len (FileData f) < 4294967296 ->
  start + len data < 4294967296 ->
  is_Some (WriteFile f start data now).
Proof.
  intros Hlen Hfit. unfold WriteFile.
  set (n := uint32 (len (FileData f))).
  set (N := uint32 (start + uint32 (len data))).
  assert (Hn : n = len (FileData f)).
  { apply uint32_small. unfold len in *. lia. }
  assert (HN : 0 <= N < 4294967296) by apply uint32_range.
  assert (HN' : start > n -> N = start + len data).
  { intros Hgt. unfold N. assert (0 <= len data) by (unfold len; lia).
    rewrite (uint32_small (len data)) by (unfold len in *; lia).
    apply uint32_small. unfold len in *. lia. }
  clearbody n N.
  set (grown := if start >? n then copy (make N) (FileData f)
                else if N >? n then copy (make N) (slice (FileData f) 0 start)
                else FileData f).
  assert (Hok : start <= len grown).
  { unfold grown. destruct (start >? n) eqn:E1.
    - unfold len at 1. rewrite copy_length, make_length, HN' by lia.
      unfold len. lia.
    - destruct (N >? n) eqn:E2.
      + unfold len at 1. rewrite copy_length, make_length.
        unfold len in *. lia.
      + unfold len in *. lia. }
  destruct (start >? len grown) eqn:Hs; [lia|]. eauto.
Qed.

(** Where the file-size invariant does hold: starting from a new file
    object, after any run of [WriteFile] and [DeleteFile] calls that
    completes, the [FileSize] property reads as the length of the byte
    buffer; and a run in which the end offset of every write fits in a
    [uint32] does complete. *)
Theorem FileSize_tracks_buffer instance name accessMethod now0 ops :
  (forall f',
      runFileOps (NewBACnetFile instance name accessMethod now0) ops = Some f' ->
      ReadProperty (fileBase f') PropertyIdentifierFileSize
      = Some (VUint32 (len (FileData f'))))
  /\ (Forall fitsUint32 ops ->
      is_Some (runFileOps (NewBACnetFile instance name accessMethod now0) ops)).
Proof.
  pose proof (NewBACnetFile_sizeAgrees instance name accessMethod now0) as H0.
  revert H0. generalize (NewBACnetFile instance name accessMethod now0).
  induction ops as [|[[start data|] now] ops IH]; intros f Hf.
  - split; [|by eauto]. intros f' [= <-]. apply Hf.
  - split.
    + intros f'. cbn [runFileOps].
      destruct (WriteFile f start data now) as [[f1 sent]|] eqn:E; [|done].
      apply IH. eapply WriteFile_sizeAgrees; [apply Hf|apply E].
    + intros Hfits. apply Forall_cons in Hfits as [Hfit Hfits].
      cbn [runFileOps].
      destruct (WriteFile_returns f start data now (proj1 Hf) Hfit)
        as [[f1 sent] E].
      rewrite E. apply IH; [|done].
      eapply WriteFile_sizeAgrees; [apply Hf|apply E].
  - split.
    + intros f'. cbn [runFileOps]. apply IH. apply DeleteFile_sizeAgrees.
    + intros Hfits. apply Forall_cons in Hfits as [_ Hfits].
      cbn [runFileOps]. apply IH; [|done]. apply DeleteFile_sizeAgrees.
Qed.

End Files.

Lemma FileSize_tracks_buffer_witness :
  exists f',
    runFileOps (NewBACnetFile 1 "Configuration File" FileAccessMethodStream 0)
      [ (OpWriteFile 0 [222; 173; 190; 239], 10);
        (OpWriteFile 6 [1; 2], 20);
        (OpDeleteFile, 30);
        (OpWriteFile 2 [9], 40) ] = Some f'
    /\ FileData f' = [0; 0; 9]
    /\ ReadProperty (fileBase f') PropertyIdentifierFileSize = Some (VUint32 3).
Proof.
  eexists. split; [vm_compute; reflexivity|]. split; [reflexivity|].
  apply (proj1 (FileSize_tracks_buffer 1 "Configuration File"
                  FileAccessMethodStream 0
                  [ (OpWriteFile 0 [222; 173; 190; 239], 10);
                    (OpWriteFile 6 [1; 2], 20);
                    (OpDeleteFile, 30);
                    (OpWriteFile 2 [9], 40) ])).
  vm_compute. reflexivity.
Defined.

(** A write whose end offset wraps around [uint32] allocates a buffer
    shorter than [start] and panics in the final slice expression. *)
Example WriteFile_wraps :
  WriteFile (NewBACnetFile 1 "Configuration File" FileAccessMethodStream 0)
    4294967295 [7] 10 = None.
Proof. vm_compute. reflexivity. Qed.

(** [WriteFile] panics exactly when [start] lies beyond the buffer it has
    just assigned. *)
Lemma WriteFile_grownBuffer f start data now :
  WriteFile f start data now = None
  <-> len (grownBuffer f start data) < start.
Proof.
  unfold WriteFile. fold (grownBuffer f start data).
  destruct (Z.gtb_spec start (len (grownBuffer f start data))) as [E|E].
  - split; [intros _; lia|done].
  - split; [discriminate|lia].
Qed.

(** C7. The invariant is broken by a write whose end offset does not fit
    in a [uint32].  On the empty log file of the sample device a write of
    four bytes at offset [0xFFFFFFFF], as carried by one AtomicWriteFile
    request, takes the first growth branch with the wrapped sum 3:
    [make(3)] is assigned to the buffer, which now has three bytes while
    [FileSize] still reads 0, and [f.FileData[start:]] panics. *)
Theorem WriteFile_wrapped_end_offset :
  let f := NewBACnetFile 2 "Log File" FileAccessMethodStream 0 in
  let fileID := {| Type_ := ObjectTypeFile; Instance_ := 2 |} in
  let request := atomicWriteFileRequest fileID 4294967295 [1; 2; 3; 4] in
  FindObject sampleDevice fileID = Some (ObjFile f)
  /\ request
     = [3; 0; 0; 2; 255; 255; 255; 255; 0; 0; 0; 4; 1; 2; 3; 4]
  /\ parseFileWriteRequest request
     = Ok {| wFileID := fileID; wStartOffset := 4294967295;
             WriteData := [1; 2; 3; 4] |}
  /\ ReadProperty (fileBase f) PropertyIdentifierFileSize = Some (VUint32 0)
  /\ grownBuffer f 4294967295 [1; 2; 3; 4] = [0; 0; 0]
  /\ WriteFile f 4294967295 [1; 2; 3; 4] 10 = None
  /\ handleAtomicWriteFile sampleServer request 7 10
     = (sampleServer, [], Panicked).
Proof. cbv zeta. repeat split; vm_compute; reflexivity. Qed.

(** ** The NPDU codec *)

Section NPDUCodec.

Implicit Types (s data : list Z).

Lemma take_add_app {A} (n m : nat) (l : list A) :
  take (n + m) l = take n l ++ take m (drop n l).
Proof.
  revert l. induction n as [|n IH]; intros [|x l]; simpl; try done.
  - by destruct m.
  - by rewrite IH.
Qed.

Lemma slice_nil s a : slice s a a = [].
Proof. unfold slice. by rewrite Z.sub_diag. Qed.

Lemma slice_cons s a b :
  0 <= a < b -> b <= len s -> slice s a b = at_ s a :: slice s (a + 1) b.
Proof.
  intros Ha Hb. unfold slice, at_, len in *.
  destruct (lookup_lt_is_Some_2 s (Z.to_nat a)) as [x Hx]; [lia|].
  rewrite (drop_S _ _ _ Hx), nth_lookup, Hx. simpl.
  replace (Z.to_nat (b - a)) with (S (Z.to_nat (b - (a + 1)))) by lia.
  simpl. do 2 f_equal. f_equal. lia.
Qed.

Lemma slice_app s a b c :
  0 <= a <= b -> b <= c -> slice s a c = slice s a b ++ slice s b c.
Proof.
  intros Hab Hbc. unfold slice.
  replace (Z.to_nat (c - a)) with (Z.to_nat (b - a) + Z.to_nat (c - b))%nat by lia.
  rewrite take_add_app, drop_drop. do 3 f_equal. lia.
Qed.

Lemma slice_length s a b :
  0 <= a <= b -> b <= len s -> len (slice s a b) = b - a.
Proof.
  intros Ha Hb. unfold slice, len in *. rewrite length_take, length_drop. lia.
Qed.

Lemma at_is_byte s i : Forall is_byte s -> is_byte (at_ s i).
Proof.
  intros Hs. unfold at_. rewrite nth_lookup.
  destruct (s !! Z.to_nat i) as [x|] eqn:E; simpl.
  - eapply Forall_lookup_1; eauto.
  - unfold is_byte. lia.
Qed.

(** Copying a slice into a fresh buffer of its length yields the slice. *)
Lemma copy_make src n : len src = n -> copy (make n) src = src.
Proof.
  intros Hn. unfold copy. rewrite make_length.
  unfold len in Hn. rewrite <- Hn, Nat2Z.id, firstn_all.
  rewrite drop_ge by (rewrite make_length; lia). apply app_nil_r.
Qed.

(** The two octets of a big-endian [uint16]. *)
Lemma BigEndianUint16_octets hi lo :
  is_byte hi -> is_byte lo ->
  let v := BigEndianUint16 [hi; lo] in
  byte (Z.shiftr v 8) = hi /\ byte v = lo.
Proof.
  intros Hhi Hlo. unfold BigEndianUint16, at_, byte, is_byte in *. simpl.
  assert (Hlo0 : Z.shiftr lo 8 = 0).
  { rewrite Z.shiftr_div_pow2 by lia. apply Z.div_small. simpl. lia. }
  assert (Hhi0 : Z.shiftl hi 8 mod 256 = 0).
  { rewrite Z.shiftl_mul_pow2 by lia. apply Z_mod_mult. }
  split.
  - rewrite Z.shiftr_lor, Hlo0, Z.shiftr_shiftl_l by lia.
    rewrite Z.sub_diag, Z.shiftl_0_r, Z.lor_0_l. apply Z.mod_small. lia.
  - change 256 with (2 ^ 8). rewrite <- Z.land_ones by lia.
    rewrite Z.land_lor_distr_l, !Z.land_ones by lia.
    change (2 ^ 8) with 256. rewrite Hhi0, Z.lor_0_r. apply Z.mod_small. lia.
Qed.

(** The network number, the length octet and the MAC address that
    [Encode] emits for an address block read at [offset]. *)
Lemma address_block data offset :
  Forall is_byte data ->
  0 <= offset -> offset + 3 <= len data ->
  let net := BigEndianUint16 (slice data offset (offset + 2)) in
  let alen := at_ data (offset + 2) in
  let mac := copy (make alen) (slice data (offset + 2 + 1) (offset + 2 + 1 + alen)) in
  offset + 2 + 1 + alen <= len data ->
  len mac <= 255
  /\ offset + 3 <= offset + 2 + 1 + alen
  /\ addressBlock (Some net) mac = slice data offset (offset + 2 + 1 + alen).
Proof.
  intros Hbytes Ho Hfit net alen mac Hmac.
  pose proof (at_is_byte data (offset + 2) Hbytes) as Halen. fold alen in Halen.
  unfold is_byte in Halen.
  assert (Hm : mac = slice data (offset + 3) (offset + 3 + alen)).
  { unfold mac. replace (offset + 2 + 1) with (offset + 3) by lia.
    apply copy_make. rewrite slice_length; lia. }
  clearbody mac. replace (offset + 2 + 1) with (offset + 3) in * by lia.
  assert (Hl : len mac = alen) by (rewrite Hm, slice_length; lia).
  split; [lia|]. split; [lia|]. unfold addressBlock. rewrite Hl.
  assert (Hnet : slice data offset (offset + 2)
                 = [at_ data offset; at_ data (offset + 1)]).
  { rewrite 2 slice_cons by lia.
    replace (offset + 1 + 1) with (offset + 2) by lia.
    by rewrite slice_nil. }
  destruct (BigEndianUint16_octets (at_ data offset) (at_ data (offset + 1)))
    as [H1 H2]; [by apply at_is_byte..|].
  unfold net. rewrite Hnet, H1, H2.
  unfold byte. rewrite (Z.mod_small alen) by lia.
  rewrite (slice_app data offset (offset + 3) (offset + 3 + alen)) by lia.
  rewrite <- Hm. f_equal.
  rewrite 3 slice_cons by lia.
  replace (offset + 1 + 1) with (offset + 2) by lia.
  replace (offset + 2 + 1) with (offset + 3) by lia.
  by rewrite slice_nil.
Qed.

Lemma parseDestination_ok data offset dnet dmac offset' :
  Forall is_byte data -> 0 <= offset ->
  parseDestination data offset = Ok (dnet, dmac, offset') ->
  len dmac <= 255 /\ offset <= offset' <= len data
  /\ addressBlock dnet dmac = slice data offset offset'.
Proof.
  intros Hbytes Ho. unfold parseDestination.
  destruct (offset + 3 >? len data) eqn:E1; [discriminate|].
  destruct (offset + 2 + 1 + at_ data (offset + 2) >? len data) eqn:E2;
    [discriminate|].
  intros [= <- <- <-].
  destruct (address_block data offset Hbytes Ho ltac:(lia) ltac:(lia))
    as (H1 & H2 & H3).
  split; [done|]. split; [lia|done].
Qed.

Lemma parseSource_ok data offset snet smac offset' :
  Forall is_byte data -> 0 <= offset -> offset + 3 <= len data ->
  parseSource data offset = Ok (snet, smac, offset') ->
  len smac <= 255 /\ offset <= offset' <= len data
  /\ addressBlock snet smac = slice data offset offset'.
Proof.
  intros Hbytes Ho Hfit. unfold parseSource.
  destruct (offset + 2 + 1 + at_ data (offset + 2) >? len data) eqn:E2;
    [discriminate|].
  intros [= <- <- <-].
  destruct (address_block data offset Hbytes Ho ltac:(lia) ltac:(lia))
    as (H1 & H2 & H3).
  split; [done|]. split; [lia|done].
Qed.

(** [Encode] as a concatenation of blocks, for MAC addresses that fit the
    length octet. *)
Lemma Encode_blocks n :
  len (DestinationMAC n) <= 255 -> len (SourceMAC n) <= 255 ->
  Encode n
  = [Version n]
    ++ addressBlock (DestinationNetwork n) (DestinationMAC n)
    ++ addressBlock (SourceNetwork n) (SourceMAC n)
    ++ from_option (fun h => [h]) [] (HopCount n).
Proof.
  intros Hd Hs. unfold Encode, addressBlock.
  assert (Hd' : (len (DestinationMAC n) >? 255) = false) by lia.
  assert (Hs' : (len (SourceMAC n) >? 255) = false) by lia.
  destruct (DestinationNetwork n), (SourceNetwork n), (HopCount n);
    rewrite ?Hd', ?Hs'; cbn [from_option]; by rewrite <- ?app_assoc, ?app_nil_r.
Qed.

(** C5 (what the code does). For every byte sequence that [ParseNPDU]
    accepts, [Encode] of the parsed header is the version octet followed
    by the consumed bytes from the third on: the destination, source and
    hop-count fields are reproduced, the control octet is not emitted, and
    the output is never the consumed bytes. *)
Theorem Encode_ParseNPDU_omits_control data npdu offset :
  Forall is_byte data ->
  ParseNPDU data = Ok (npdu, offset) ->
  2 <= offset <= len data
  /\ Encode npdu = at_ data 0 :: slice data 2 offset
  /\ slice data 0 offset = at_ data 0 :: at_ data 1 :: slice data 2 offset
  /\ Encode npdu <> slice data 0 offset.
Proof.
  intros Hbytes. unfold ParseNPDU.
  destruct (len data <? 2) eqn:Elen; [discriminate|].
  destruct (negb (at_ data 0 =? 1)); [discriminate|].
  set (control := ParseControl (at_ data 1)).
  assert (Hdest : exists dnet dmac o1,
    (if DestinationSpecified control then parseDestination data 2
     else Ok (None, [], 2)) = Ok (dnet, dmac, o1)
    /\ len dmac <= 255 /\ 2 <= o1 <= len data
    /\ addressBlock dnet dmac = slice data 2 o1
    \/ exists msg, (if DestinationSpecified control then parseDestination data 2
                    else Ok (None, [], 2)) = Err msg).
  { destruct (DestinationSpecified control).
    - destruct (parseDestination data 2) as [[[dnet dmac] o1]|msg] eqn:E.
      + exists dnet, dmac, o1. left. split; [done|].
        by apply parseDestination_ok.
      + exists None, [], 2. right. by exists msg.
    - exists None, [], 2. left. split; [done|]. rewrite slice_nil.
      repeat split; try done; lia. }
  destruct Hdest as (dnet & dmac & o1 & [(-> & Hdm & Ho1 & Hdb)|[msg ->]]);
    [|discriminate].
  cbn [mbind Res_bind].
  assert (Hsrc : exists snet smac o2,
    (if SourceSpecified control && (len data - o1 >=? 3)
     then parseSource data o1 else Ok (None, [], o1)) = Ok (snet, smac, o2)
    /\ len smac <= 255 /\ o1 <= o2 <= len data
    /\ addressBlock snet smac = slice data o1 o2
    \/ exists msg, (if SourceSpecified control && (len data - o1 >=? 3)
                    then parseSource data o1 else Ok (None, [], o1)) = Err msg).
  { destruct (SourceSpecified control && (len data - o1 >=? 3)) eqn:Es.
    - apply andb_true_iff in Es as [_ Es].
      destruct (parseSource data o1) as [[[snet smac] o2]|msg] eqn:E.
      + exists snet, smac, o2. left. split; [done|].
        apply parseSource_ok; [done|lia|lia|done].
      + exists None, [], o1. right. by exists msg.
    - exists None, [], o1. left. split; [done|]. rewrite slice_nil.
      repeat split; try done; lia. }
  destruct Hsrc as (snet & smac & o2 & [(-> & Hsm & Ho2 & Hsb)|[msg ->]]);
    [|discriminate].
  cbn [mbind Res_bind].
  set (hopstep := if DestinationSpecified control && (o2 <? len data)
                  then (Some (at_ data o2), o2 + 1) else (None, o2)).
  assert (Hhop : o2 <= hopstep.2 <= len data
                 /\ from_option (fun h => [h]) [] hopstep.1
                    = slice data o2 hopstep.2).
  { unfold hopstep.
    destruct (DestinationSpecified control && (o2 <? len data)) eqn:Eh;
      cbn [fst snd from_option].
    - apply andb_true_iff in Eh as [_ Eh].
      split; [lia|]. rewrite slice_cons, slice_nil by lia. done.
    - split; [lia|]. by rewrite slice_nil. }
  destruct hopstep as [hop o3]. cbn [fst snd] in Hhop.
  destruct Hhop as [Ho3 Hhb].
  destruct (o3 >? len data) eqn:Eo; [discriminate|].
  intros [= <- <-].
  assert (Henc : Encode
            {| Version := at_ data 0; Control := control;
               DestinationNetwork := dnet; DestinationMAC := dmac;
               SourceNetwork := snet; SourceMAC := smac; HopCount := hop |}
          = at_ data 0 :: slice data 2 o3).
  { rewrite Encode_blocks by done.
    cbn [Version DestinationNetwork DestinationMAC SourceNetwork SourceMAC
         HopCount].
    rewrite Hdb, Hsb, Hhb.
    rewrite (slice_app data 2 o1 o3), (slice_app data o1 o2 o3) by lia.
    reflexivity. }
  assert (Hcons : slice data 0 o3 = at_ data 0 :: at_ data 1 :: slice data 2 o3).
  { rewrite 2 slice_cons by lia. reflexivity. }
  split; [lia|]. split; [done|]. split; [done|].
  rewrite Henc, Hcons. intros Heq.
  apply (f_equal length) in Heq. simpl in Heq. lia.
Qed.

End NPDUCodec.

Lemma Encode_ParseNPDU_omits_control_witness :
  exists npdu,
    ParseNPDU routedNPDU = Ok (npdu, 8)
    /\ Encode npdu = [1; 18; 52; 2; 170; 187; 255]
    /\ slice routedNPDU 0 8 = [1; 32; 18; 52; 2; 170; 187; 255].
Proof.
  eexists. split; [vm_compute; reflexivity|].
  assert (Hbytes : Forall is_byte routedNPDU).
  { repeat constructor; unfold is_byte; lia. }
  destruct (Encode_ParseNPDU_omits_control routedNPDU _ 8 Hbytes eq_refl)
    as (_ & -> & _ & _).
  split; reflexivity.
Defined.

(** The shortest accepted header: version 1 and control 0 are consumed,
    only the version octet comes back. *)
Example Encode_ParseNPDU_minimal :
  exists npdu,
    ParseNPDU [1; 0; 16; 8] = Ok (npdu, 2) /\ Encode npdu = [1].
Proof. eexists. split; vm_compute; reflexivity. Qed.

(** ** BVLC framing *)

Section Framing.

Variable otherConfirmed :
  Z -> BACnetServer -> list Z -> Z -> BACnetServer * Outcome.

Implicit Types (s : BACnetServer) (data : list Z).

(** C6. A datagram whose first byte is not 0x81, or whose BVLC length
    field differs from its length, makes [processBACnetMessage] fail with
    an error and leave the server as it was; a datagram whose function
    code is neither 0x0A nor 0x0B is either rejected in the same way or,
    when its framing is sound, ignored with a [nil] response; in all
    these cases the receive loop writes nothing to the socket. *)
Theorem processBACnetMessage_framing s data :
  ((at_ data 0 <> 129 \/ BigEndianUint16 (slice data 2 4) <> len data) ->
     exists msg, processBACnetMessage otherConfirmed s data = (s, Failure msg))
  /\ (at_ data 1 <> 10 -> at_ data 1 <> 11 ->
      (4 <= len data -> at_ data 0 = 129 ->
       BigEndianUint16 (slice data 2 4) = len data ->
       processBACnetMessage otherConfirmed s data = (s, Response []))
      /\ (processBACnetMessage otherConfirmed s data = (s, Response [])
          \/ exists msg,
               processBACnetMessage otherConfirmed s data = (s, Failure msg)))
  /\ ((at_ data 0 <> 129 \/ BigEndianUint16 (slice data 2 4) <> len data
       \/ (at_ data 1 <> 10 /\ at_ data 1 <> 11)) ->
      forall addr, exists s',
        handleDatagram otherConfirmed s data addr = Some (s', [])
        /\ device s' = device s).
Proof.
  assert (Hbad : forall s,
    at_ data 0 <> 129 \/ BigEndianUint16 (slice data 2 4) <> len data ->
    exists msg, processBACnetMessage otherConfirmed s data = (s, Failure msg)).
  { intros s0 Hc. unfold processBACnetMessage.
    destruct (len data <? 4); [eauto|].
    destruct (at_ data 0 =? 129) eqn:E0; cbn [negb]; [|eauto].
    destruct (BigEndianUint16 (slice data 2 4) =? len data) eqn:E1;
      cbn [negb]; [|eauto].
    apply Z.eqb_eq in E0, E1. destruct Hc; contradiction. }
  assert (Hother : forall s,
    at_ data 1 <> 10 -> at_ data 1 <> 11 ->
    (4 <= len data -> at_ data 0 = 129 ->
     BigEndianUint16 (slice data 2 4) = len data ->
     processBACnetMessage otherConfirmed s data = (s, Response []))
    /\ (processBACnetMessage otherConfirmed s data = (s, Response [])
        \/ exists msg,
             processBACnetMessage otherConfirmed s data = (s, Failure msg))).
  { intros s0 Ha Hb. unfold processBACnetMessage.
    apply Z.eqb_neq in Ha, Hb. rewrite Ha, Hb. split.
    - intros Hlen H0 H1. apply Z.eqb_eq in H0, H1. rewrite H0, H1.
      assert (Hl : (len data <? 4) = false) by lia. by rewrite Hl.
    - destruct (len data <? 4); [eauto|].
      destruct (negb (at_ data 0 =? 129)); [eauto|].
      destruct (negb (BigEndianUint16 (slice data 2 4) =? len data)); eauto. }
  split; [apply Hbad|]. split; [apply Hother|].
  intros Hc addr. unfold handleDatagram.
  destruct (len data >? 0); [|by eauto].
  set (s1 := {| device := device s; Running := Running s;
                currentClientAddr := addr |}).
  assert (Hcases :
    processBACnetMessage otherConfirmed s1 data = (s1, Response [])
    \/ exists msg, processBACnetMessage otherConfirmed s1 data = (s1, Failure msg)).
  { destruct Hc as [Hc|[Hc|[Ha Hb]]].
    - right. apply Hbad. by left.
    - right. apply Hbad. by right.
    - by apply Hother. }
  destruct Hcases as [->|[msg ->]]; cbn [len length Z.of_nat Z.gtb Z.compare];
    by exists s1.
Qed.

End Framing.

Lemma processBACnetMessage_framing_witness :
  (exists msg,
     processBACnetMessage (fun _ s _ _ => (s, Response [])) sampleServer
       [129; 11; 0; 9; 1; 0; 16; 8]
     = (sampleServer, Failure msg))
  /\ processBACnetMessage (fun _ s _ _ => (s, Response [])) sampleServer
       [129; 4; 0; 8; 1; 0; 16; 8]
     = (sampleServer, Response []).
Proof.
  split.
  - apply (processBACnetMessage_framing (fun _ s _ _ => (s, Response []))
             sampleServer [129; 11; 0; 9; 1; 0; 16; 8]).
    right. vm_compute. discriminate.
  - apply (processBACnetMessage_framing (fun _ s _ _ => (s, Response []))
             sampleServer [129; 4; 0; 8; 1; 0; 16; 8]);
      vm_compute; (discriminate || reflexivity).
Defined.

(** ** Who-Is and I-Am *)

Section WhoIs.

Variable otherConfirmed :
  Z -> BACnetServer -> list Z -> Z -> BACnetServer * Outcome.

(** The reply to a Who-Is is [createIAmResponse], on the unicast and on
    the broadcast function alike. *)
Lemma whoIs_reply s function :
  function = 10 \/ function = 11 ->
  processBACnetMessage otherConfirmed s [129; function; 0; 8; 1; 0; 16; 8]
  = (s, Response (createIAmResponse s)).
Proof. intros [-> | ->]; reflexivity. Qed.

(** For every device the I-Am has 35 bytes and a BVLC length field of
    22, so that the server's own framing check rejects it. *)
Lemma createIAmResponse_length s dev :
  device s = Some dev ->
  len (createIAmResponse s) = 35
  /\ BigEndianUint16 (slice (createIAmResponse s) 2 4) = 22
  /\ processBACnetMessage otherConfirmed s (createIAmResponse s)
     = (s, Failure "BVLC length mismatch").
Proof.
  intros Hdev. unfold createIAmResponse. rewrite Hdev.
  split; [reflexivity|]. split; reflexivity.
Qed.

(** C4 (what the code emits).  The reply of the device with instance
    1001 to the broadcast Who-Is [81 0B 00 08 01 00 10 08]: 35 bytes
    whose BVLC length field is 22; an NPDU of nine bytes; an APDU whose
    second byte is 0x0F, the service choice 0x08 coming fourth; an object
    identifier field from which no four consecutive bytes decode to
    (8, 1001), the type octet being built from [ObjectTypeDevice] = 7;
    and a max-APDU field [21 04 00 04]. *)
Theorem whoIs_reply_bytes :
  let reply :=
    [ 129; 10; 0; 22;
      1; 4; 0; 0; 0; 0; 0; 0; 255;
      0; 15; 0;
      8;
      12; 0; 112; 0; 0; 3; 233;
      33; 4; 0; 4;
      36; 1; 0;
      37; 2; 0; 0 ] in
  processBACnetMessage otherConfirmed sampleServer whoIsDatagram
  = (sampleServer, Response reply)
  /\ len reply = 35
  /\ BigEndianUint16 (slice reply 2 4) = 22
  /\ slice reply 4 13 = [1; 4; 0; 0; 0; 0; 0; 0; 255]
  /\ at_ reply 13 = 0 /\ at_ reply 14 = 15 /\ at_ reply 16 = 8
  /\ ObjectTypeDevice = 7
  /\ (forall i,
        parseObjectIdentifier (slice_from reply i)
        <> Ok ({| Type_ := 8; Instance_ := 1001 |}, 4))
  /\ processBACnetMessage otherConfirmed sampleServer reply
     = (sampleServer, Failure "BVLC length mismatch").
Proof.
  cbv zeta. split; [reflexivity|]. do 7 (split; [reflexivity|]).
  split; [|reflexivity].
  intros i0.
  set (reply := [ 129; 10; 0; 22; 1; 4; 0; 0; 0; 0; 0; 0; 255; 0; 15; 0; 8;
                  12; 0; 112; 0; 0; 3; 233; 33; 4; 0; 4; 36; 1; 0;
                  37; 2; 0; 0 ]).
  assert (Hnat : slice_from reply i0 = slice_from reply (Z.of_nat (Z.to_nat i0))).
  { unfold slice_from. by rewrite Nat2Z.id. }
  rewrite Hnat. clear Hnat.
  assert (Hi : 0 <= Z.of_nat (Z.to_nat i0)) by lia.
  generalize dependent (Z.of_nat (Z.to_nat i0)). intros i Hi.
  destruct (Z_lt_le_dec i 32) as [Hlt|Hge].
  - pose (test := fun i =>
      match parseObjectIdentifier (slice_from reply i) with
      | Ok (oid, _) =>
          negb (bool_decide (oid = {| Type_ := 8; Instance_ := 1001 |}))
      | Err _ => true
      end).
    assert (Hall : forallb test (seqZ 0 32) = true) by (vm_compute; reflexivity).
    rewrite forallb_forall in Hall.
    specialize (Hall i). unfold test in Hall.
    intros Heq. rewrite Heq in Hall.
    rewrite bool_decide_eq_true_2 in Hall by done.
    assert (Hin : In i (seqZ 0 32)).
    { apply list_elem_of_In, elem_of_seqZ. lia. }
    specialize (Hall Hin). discriminate.
  - unfold parseObjectIdentifier.
    assert (Hshort : (len (slice_from reply i) <? 4) = true).
    { unfold slice_from, len, reply. rewrite length_drop. simpl length.
      apply Z.ltb_lt. lia. }
    rewrite Hshort. discriminate.
Qed.

End WhoIs.

(** ** AtomicReadFile on an object that is not a file *)

(** C8 (what the code returns). When the file identifier of an
    AtomicReadFile request names an object of the device's list that is a
    plain object and not a file object, the reply is the seven-byte error
    response [05 00 invoke-id 03 14 02 02]: the request's invoke id,
    error class Object (0x02) and error code 0x02, the constant
    [ErrorCodeInvalidDataType] of the source. *)
Theorem handleAtomicReadFile_not_a_file s dev data invokeID request base :
  device s = Some dev ->
  parseFileReadRequest data = Ok request ->
  FindObject dev (FileID request) = Some (ObjBase base) ->
  handleAtomicReadFile s data invokeID
  = Response (createErrorResponse invokeID BACnetServiceConfirmedAtomicReadFile
                ErrorClassObject ErrorCodeInvalidDataType)
  /\ createErrorResponse invokeID BACnetServiceConfirmedAtomicReadFile
       ErrorClassObject ErrorCodeInvalidDataType
     = [5; 0; invokeID; 3; 20; 2; 2].
Proof.
  intros Hdev Hreq Hfind. unfold handleAtomicReadFile.
  rewrite Hreq, Hdev, Hfind. split; reflexivity.
Qed.

Lemma handleAtomicReadFile_not_a_file_witness :
  handleAtomicReadFile sampleServer readFile1Payload 7
  = Response [5; 0; 7; 3; 20; 2; 2].
Proof.
  destruct (handleAtomicReadFile_not_a_file sampleServer sampleDevice
              readFile1Payload 7
              {| FileID := {| Type_ := ObjectTypeFile; Instance_ := 1 |};
                 StartOffset := 0; ReadCount := 4 |}
              (fileBase (NewBACnetFile 1 "Configuration File"
                           FileAccessMethodStream 0)))
    as [Hresp Hbytes].
  - reflexivity.
  - vm_compute. reflexivity.
  - vm_compute. reflexivity.
  - rewrite Hresp, Hbytes. reflexivity.
Defined.

(** C8 as stated fails: (File, 1) is in the object list as a plain
    object, and the error code of the reply is 0x02, not 0x06. *)
Lemma atomicReadFile_error_code :
  (exists base,
     FindObject sampleDevice {| Type_ := ObjectTypeFile; Instance_ := 1 |}
     = Some (ObjBase base))
  /\ handleAtomicReadFile sampleServer readFile1Payload 7
     = Response [5; 0; 7; 3; 20; 2; 2]
  /\ handleAtomicReadFile sampleServer readFile1Payload 7
     <> Response (createErrorResponse 7 BACnetServiceConfirmedAtomicReadFile
                    ErrorClassObject ErrorCodeObjectNotOfRequiredType).
Proof.
  split; [eexists; vm_compute; reflexivity|].
  split; [vm_compute; reflexivity|].
  vm_compute. discriminate.
Qed.

(** The same request as a datagram through the whole receive path. *)
Example atomicReadFile_datagram otherConfirmed :
  handleDatagram otherConfirmed sampleServer readFile1Datagram "10.0.0.9:47808"
  = Some ({| device := Some sampleDevice; Running := true;
             currentClientAddr := "10.0.0.9:47808" |},
          [("10.0.0.9:47808"%string, [5; 0; 7; 3; 20; 2; 2])]).
Proof. vm_compute. reflexivity. Qed.

(** A file object in the list is read. *)
Example atomicReadFile_file :
  handleAtomicReadFile sampleServer [3; 0; 0; 2; 0; 0; 0; 0; 0; 0; 0; 4] 7
  = Response [3; 0; 7; 9; 20; 2; 4; 0; 0; 0; 0; 4; 0; 0; 0; 0].
Proof. vm_compute. reflexivity. Qed.

(** ** Subscription identifiers *)

Section SubscriptionIDs.

Lemma uint32_succ k : uint32 (uint32 k + 1) = uint32 (k + 1).
Proof. unfold uint32. by rewrite Zplus_mod_idemp_l. Qed.

(** The id of the call at position [i] of a run. *)
Lemma generatedIDs_lookup clock counter (i : nat) nanos :
  clock !! i = Some nanos ->
  generatedIDs clock counter !! i
  = Some (Z.lor (Z.land (uint32 (Z.shiftr nanos 32)) 4294901760)
                (Z.land (uint32 (counter + Z.of_nat i + 1)) 65535)).
Proof.
  revert counter i. induction clock as [|t clock IH]; intros counter i Hi.
  - by rewrite lookup_nil in Hi.
  - destruct i as [|i]; cbn [generatedIDs generateSubscriptionID].
    + injection Hi as ->. cbn [lookup list_lookup].
      by rewrite Z.add_0_r.
    + cbn [lookup list_lookup] in *. fold (@lookup nat Z (list Z) _).
      rewrite (IH _ i Hi).
      assert (Hc : uint32 (uint32 (counter + 1) + Z.of_nat i + 1)
                   = uint32 (counter + Z.of_nat (S i) + 1)).
      { unfold uint32.
        replace ((counter + 1) mod 4294967296 + Z.of_nat i + 1)
          with ((counter + 1) mod 4294967296 + (Z.of_nat i + 1)) by lia.
        rewrite Zplus_mod_idemp_l. f_equal. lia. }
      by rewrite Hc.
Qed.

Lemma land_low16 k : Z.land (uint32 k) 65535 = k mod 65536.
Proof.
  change 65535 with (Z.ones 16). rewrite Z.land_ones by lia.
  unfold uint32. apply Z.mod_mod_divide. exists 65536. reflexivity.
Qed.

(** The two halves of an id. *)
Lemma id_halves t k :
  let id := Z.lor (Z.land t 4294901760) (Z.land (uint32 k) 65535) in
  Z.land id 4294901760 = Z.land t 4294901760
  /\ Z.land id 65535 = k mod 65536.
Proof.
  cbv zeta. split.
  - rewrite Z.land_lor_distr_l, <- !Z.land_assoc.
    change (Z.land 4294901760 4294901760) with 4294901760.
    change (Z.land 65535 4294901760) with 0.
    by rewrite Z.land_0_r, Z.lor_0_r.
  - rewrite Z.land_lor_distr_l, <- !Z.land_assoc.
    change (Z.land 4294901760 65535) with 0.
    change (Z.land 65535 65535) with 65535.
    rewrite Z.land_0_r, Z.lor_0_l.
    apply land_low16.
Qed.

(** How far the ids are distinct. In one run of calls, two calls return
    the same id exactly when their timestamps agree on the sixteen bits
    kept by the mask [0xFFFF0000] and their positions differ by a
    multiple of 65536; in particular two distinct calls fewer than 65536
    calls apart return distinct ids, whatever the clock and the counter. *)
Theorem generatedIDs_distinct clock counter (i j : nat) ti tj idi idj :
  clock !! i = Some ti -> clock !! j = Some tj ->
  generatedIDs clock counter !! i = Some idi ->
  generatedIDs clock counter !! j = Some idj ->
  (idi = idj <->
     Z.land (uint32 (Z.shiftr ti 32)) 4294901760
     = Z.land (uint32 (Z.shiftr tj 32)) 4294901760
     /\ (Z.of_nat j - Z.of_nat i) mod 65536 = 0)
  /\ (Z.of_nat i < Z.of_nat j < Z.of_nat i + 65536 -> idi <> idj).
Proof.
  intros Hti Htj Hi Hj.
  rewrite (generatedIDs_lookup _ _ _ _ Hti) in Hi.
  rewrite (generatedIDs_lookup _ _ _ _ Htj) in Hj.
  injection Hi as <-. injection Hj as <-.
  destruct (id_halves (uint32 (Z.shiftr ti 32)) (counter + Z.of_nat i + 1))
    as [Hhi Hlo].
  destruct (id_halves (uint32 (Z.shiftr tj 32)) (counter + Z.of_nat j + 1))
    as [Hhj Hlj].
  cbv zeta in *.
  assert (Hmod : (counter + Z.of_nat i + 1) mod 65536
                 = (counter + Z.of_nat j + 1) mod 65536
                 <-> (Z.of_nat j - Z.of_nat i) mod 65536 = 0).
  { split; intros H.
    - replace (Z.of_nat j - Z.of_nat i)
        with ((counter + Z.of_nat j + 1) - (counter + Z.of_nat i + 1)) by lia.
      rewrite (Zminus_mod (counter + Z.of_nat j + 1) (counter + Z.of_nat i + 1)).
      rewrite H, Z.sub_diag. reflexivity.
    - replace (counter + Z.of_nat j + 1)
        with ((counter + Z.of_nat i + 1) + (Z.of_nat j - Z.of_nat i)) by lia.
      rewrite (Zplus_mod (counter + Z.of_nat i + 1) (Z.of_nat j - Z.of_nat i)).
      rewrite H, Z.add_0_r, Zmod_mod. reflexivity. }
  assert (Hiff :
    Z.lor (Z.land (uint32 (Z.shiftr ti 32)) 4294901760)
          (Z.land (uint32 (counter + Z.of_nat i + 1)) 65535)
    = Z.lor (Z.land (uint32 (Z.shiftr tj 32)) 4294901760)
            (Z.land (uint32 (counter + Z.of_nat j + 1)) 65535)
    <-> Z.land (uint32 (Z.shiftr ti 32)) 4294901760
        = Z.land (uint32 (Z.shiftr tj 32)) 4294901760
        /\ (Z.of_nat j - Z.of_nat i) mod 65536 = 0).
  { split.
    - intros Heq. split.
      + rewrite <- Hhi, <- Hhj. by rewrite Heq.
      + apply Hmod. rewrite <- Hlo, <- Hlj. by rewrite Heq.
    - intros [Ht Hc]. apply Hmod in Hc. rewrite Ht. f_equal.
      by rewrite !land_low16. }
  split; [exact Hiff|].
  intros Hij Heq. apply Hiff in Heq as [_ Hc].
  rewrite Z.mod_small in Hc by lia. lia.
Qed.

End SubscriptionIDs.

Lemma generatedIDs_distinct_witness :
  generatedIDs [1700000000000000000; 1700000000000000000; 1700000000500000000] 41
    !! 0%nat
  <> generatedIDs [1700000000000000000; 1700000000000000000; 1700000000500000000] 41
       !! 2%nat.
Proof.
  intros Heq.
  destruct (generatedIDs_distinct
              [1700000000000000000; 1700000000000000000; 1700000000500000000]
              41 0 2 1700000000000000000 1700000000500000000
              395771946 395771948 eq_refl eq_refl eq_refl eq_refl)
    as [_ Hne].
  apply Hne; [lia|].
  revert Heq. vm_compute. discriminate.
Defined.

(** With the clock standing still, the first and the 65537th call of a
    run return the same id. *)
Lemma generatedIDs_collide :
  ~ NoDup (generatedIDs (replicate (Z.to_nat 65537) 1700000000000000000) 0).
Proof.
  intros Hnd. rewrite NoDup_alt in Hnd.
  assert (Hfirst :
    replicate (Z.to_nat 65537) 1700000000000000000 !! 0%nat
    = Some 1700000000000000000) by (apply lookup_replicate_2; lia).
  assert (Hlast :
    replicate (Z.to_nat 65537) 1700000000000000000 !! Z.to_nat 65536
    = Some 1700000000000000000) by (apply lookup_replicate_2; lia).
  apply (generatedIDs_lookup _ 0) in Hfirst, Hlast.
  rewrite Z2Nat.id in Hlast by lia.
  assert (H : 0%nat = Z.to_nat 65536).
  { apply (Hnd 0%nat (Z.to_nat 65536) 395771905).
    - rewrite Hfirst. vm_compute. reflexivity.
    - rewrite Hlast. vm_compute. reflexivity. }
  lia.
Qed.

(** C9. The generator repeats an id within one process.  In a run of
    65537 calls that starts with the counter at 0 and in which the clock
    advances by one millisecond from call to call, the first and the last
    call both return 395771905: the timestamp part changes only every
    2^48 ns and the counter part has wrapped. *)
Theorem generateSubscriptionID_repeats :
  let clock :=
    map (fun i => 1700000000000000000 + i * 1000000) (seqZ 0 65537) in
  generatedIDs clock 0 !! 0%nat = Some 395771905
  /\ generatedIDs clock 0 !! Z.to_nat 65536 = Some 395771905
  /\ ~ NoDup (generatedIDs clock 0).
Proof.
  cbv zeta.
  set (clock := map (fun i => 1700000000000000000 + i * 1000000)
                    (seqZ 0 65537)).
  assert (Hclock : forall i : nat,
            Z.of_nat i < 65537 ->
            clock !! i = Some (1700000000000000000 + Z.of_nat i * 1000000)).
  { intros i Hi. unfold clock.
    change (map ?f ?l) with (f <$> l). rewrite list_lookup_fmap.
    rewrite lookup_seqZ_lt by lia. cbn [fmap option_fmap option_map].
    do 2 f_equal. }
  assert (Hfirst : generatedIDs clock 0 !! 0%nat = Some 395771905).
  { rewrite (generatedIDs_lookup _ _ _ _ (Hclock 0%nat ltac:(lia))).
    vm_compute. reflexivity. }
  assert (Hlast : generatedIDs clock 0 !! Z.to_nat 65536 = Some 395771905).
  { rewrite (generatedIDs_lookup _ _ _ _ (Hclock (Z.to_nat 65536) ltac:(lia))).
    rewrite Z2Nat.id by lia. vm_compute. reflexivity. }
  split; [exact Hfirst|]. split; [exact Hlast|].
  intros Hnd. rewrite NoDup_alt in Hnd.
  pose proof (Hnd 0%nat (Z.to_nat 65536) 395771905 Hfirst Hlast). lia.
Qed.

(** * Further properties of the object store *)

(** Goals [(a >? b) = false] and the like, through the order on [Z]. *)
Ltac zcompare :=
  rewrite ?Z.gtb_ltb, ?Z.geb_leb;
  first [ apply Z.ltb_ge | apply Z.ltb_lt | apply Z.leb_le | apply Z.leb_gt ];
  lia.

(** ** Reading and writing file contents *)

Section FileContents.

Implicit Types (f : BACnetFile).

(** The three branches of [ReadFile] as one window, for offsets within
    [uint32] range. *)
Lemma ReadFile_take f start count :
  len (FileData f) < 4294967296 ->
  0 <= start -> 0 <= count -> start + count < 4294967296 ->
  ReadFile f start count
  = Some (take (Z.to_nat count) (drop (Z.to_nat start) (FileData f))).
Proof.
  intros Hlen Hs Hc Hfit. unfold ReadFile.
  rewrite (uint32_small (len (FileData f))) by (unfold len in *; lia).
  rewrite (uint32_small (start + count)) by lia.
  destruct (start >=? len (FileData f)) eqn:E1.
  - rewrite drop_ge by (unfold len in *; lia). by rewrite take_nil.
  - destruct (start + count >? len (FileData f)) eqn:E2.
    + assert (E3 : (start >? len (FileData f)) = false) by lia.
      rewrite E3. unfold slice. f_equal.
      rewrite !take_ge; try done; rewrite length_drop; unfold len in *; lia.
    + assert (E3 : (start >? start + count) = false) by lia.
      rewrite E3. unfold slice. do 2 f_equal. lia.
Qed.

(** X1. Within [uint32] range [ReadFile] is the window of [count] bytes at
    [start], cut at the end of the buffer; past the end it is empty. *)
Theorem ReadFile_window f start count :
  len (FileData f) < 4294967296 ->
  0 <= start -> 0 <= count -> start + count < 4294967296 ->
  ReadFile f start count
  = Some (take (Z.to_nat count) (drop (Z.to_nat start) (FileData f))).
Proof. apply ReadFile_take. Qed.

Lemma ReadFile_window_witness :
  ReadFile {| fileBase := NewBACnetObject ObjectTypeFile 1 "f";
              FileData := [222; 173; 190; 239]; AccessMethod := 0;
              OpeningTag := ""; ClosingTag := "" |} 2 10
  = Some [190; 239].
Proof.
  rewrite ReadFile_window; [reflexivity|reflexivity|lia|lia|lia].
Defined.

(** The buffer after a write, for offsets within [uint32] range. *)
Lemma WriteFile_data f start data now :
  len (FileData f) < 4294967296 ->
  0 <= start -> start + len data < 4294967296 ->
  exists f' sent,
    WriteFile f start data now = Some (f', sent)
    /\ AccessMethod f' = AccessMethod f
    /\ FileData f'
       = take (Z.to_nat start)
              (FileData f
               ++ replicate (Z.to_nat start - length (FileData f)) 0)
         ++ data
         ++ drop (Z.to_nat (start + len data)) (FileData f).
Proof.
  intros Hlen Hs Hfit. unfold WriteFile.
  assert (Hd : 0 <= len data) by (unfold len; lia).
  rewrite (uint32_small (len (FileData f))) by (unfold len in *; lia).
  rewrite (uint32_small (len data)) by lia.
  rewrite (uint32_small (start + len data)) by lia.
  destruct f as [base F am ot ct].
  cbn [FileData fileBase AccessMethod] in *.
  assert (Hcopy : forall src : list Z,
            (length src <= Z.to_nat (start + len data))%nat ->
            copy (make (start + len data)) src
            = src ++ replicate (Z.to_nat (start + len data) - length src) 0).
  { intros src Hsrc. unfold copy, make. rewrite length_replicate.
    rewrite take_ge by lia. by rewrite drop_replicate. }
  assert (Hover : forall a : list Z,
            length a = Z.to_nat start ->
            forall z : list Z, length z = length data ->
            take (Z.to_nat start) (a ++ z) ++ copy (slice_from (a ++ z) start) data
            = a ++ data).
  { intros a Ha z Hz. unfold slice_from, copy.
    rewrite take_app_length' by done. rewrite drop_app_length' by done.
    rewrite Hz, take_ge by lia. rewrite drop_ge by lia. by rewrite app_nil_r. }
  destruct (Z.gtb_spec start (len F)) as [E1|E1].
  - rewrite Hcopy by (unfold len in *; lia).
    assert (E : (start >? len (F ++ replicate
               (Z.to_nat (start + len data) - length F) 0)) = false).
    { unfold len. rewrite length_app, length_replicate. unfold len in *.
      zcompare. }
    rewrite E. eexists _, _. split; [reflexivity|]. split; [reflexivity|].
    cbn [set_file FileData].
    replace (Z.to_nat (start + len data) - length F)%nat
      with ((Z.to_nat start - length F) + length data)%nat
      by (unfold len in *; lia).
    rewrite replicate_add, app_assoc.
    rewrite Hover;
      [|rewrite length_app, length_replicate; unfold len in *; lia
       |by rewrite length_replicate].
    rewrite take_ge
      by (rewrite length_app, length_replicate; unfold len in *; lia).
    rewrite drop_ge by (unfold len in *; lia).
    by rewrite app_nil_r.
  - destruct (Z.gtb_spec (start + len data) (len F)) as [E2|E2].
    + assert (Hpre : slice F 0 start = take (Z.to_nat start) F).
      { unfold slice. by rewrite Z.sub_0_r. }
      rewrite Hpre.
      rewrite Hcopy by (rewrite length_take; lia).
      rewrite length_take.
      replace (Z.to_nat (start + len data) - Z.to_nat start `min` length F)%nat
        with (length data) by (unfold len in *; lia).
      assert (E : (start >? len (take (Z.to_nat start) F
                                 ++ replicate (length data) 0)) = false).
      { unfold len. rewrite length_app, length_take, length_replicate.
        unfold len in *. zcompare. }
      rewrite E. eexists _, _. split; [reflexivity|]. split; [reflexivity|].
      cbn [set_file FileData].
      rewrite Hover;
        [|rewrite length_take; unfold len in *; lia
         |by rewrite length_replicate].
      replace (Z.to_nat start - length F)%nat with 0%nat
        by (unfold len in *; lia).
      cbn [replicate]. rewrite app_nil_r.
      rewrite drop_ge by (unfold len in *; lia).
      by rewrite app_nil_r.
    + assert (E : (start >? len F) = false) by zcompare.
      rewrite E. eexists _, _. split; [reflexivity|]. split; [reflexivity|].
      cbn [set_file FileData].
      replace (Z.to_nat start - length F)%nat with 0%nat
        by (unfold len in *; lia).
      cbn [replicate]. rewrite app_nil_r.
      unfold slice_from, copy. rewrite length_drop.
      rewrite (take_ge data) by (unfold len in *; lia).
      rewrite drop_drop. do 3 f_equal. unfold len. lia.
Qed.

(** X2. [WriteFile] overwrites [len(data)] bytes at [start]: the bytes
    before [start] are kept (a gap beyond the old end is filled with
    zeros), [data] follows, and the old bytes after the written range are
    kept. *)
Theorem WriteFile_contents f start data now :
  len (FileData f) < 4294967296 ->
  0 <= start -> start + len data < 4294967296 ->
  exists f' sent,
    WriteFile f start data now = Some (f', sent)
    /\ AccessMethod f' = AccessMethod f
    /\ FileData f'
       = take (Z.to_nat start)
              (FileData f
               ++ replicate (Z.to_nat start - length (FileData f)) 0)
         ++ data
         ++ drop (Z.to_nat (start + len data)) (FileData f).
Proof. apply WriteFile_data. Qed.

Lemma WriteFile_contents_witness :
  exists f' sent,
    WriteFile (NewBACnetFile 1 "Configuration File" FileAccessMethodStream 0)
      2 [7; 8] 10 = Some (f', sent)
    /\ FileData f' = [0; 0; 7; 8].
Proof.
  destruct (WriteFile_contents
              (NewBACnetFile 1 "Configuration File" FileAccessMethodStream 0)
              2 [7; 8] 10)
    as (f' & sent & Hw & _ & Hd); [reflexivity|lia|reflexivity|].
  exists f', sent. split; [exact Hw|]. rewrite Hd. reflexivity.
Defined.

(** X3. What [WriteFile] wrote is what [ReadFile] returns for the same
    offset and length. *)
Theorem WriteFile_then_ReadFile f start data now :
  len (FileData f) < 4294967296 ->
  0 <= start -> start + len data < 4294967296 ->
  exists f' sent,
    WriteFile f start data now = Some (f', sent)
    /\ ReadFile f' start (len data) = Some data.
Proof.
  intros Hlen Hs Hfit.
  destruct (WriteFile_data f start data now Hlen Hs Hfit)
    as (f' & sent & Hw & _ & Hd).
  exists f', sent. split; [exact Hw|].
  pose proof (WriteFile_sizeAgrees f start data now f' sent Hlen Hw) as [Hl' _].
  rewrite ReadFile_take; [|done|done|unfold len; lia|done].
  rewrite Hd. f_equal.
  rewrite drop_app_length'.
  - unfold len. rewrite Nat2Z.id. by rewrite take_app_length.
  - rewrite length_take, length_app, length_replicate. unfold len in *. lia.
Qed.

Lemma WriteFile_then_ReadFile_witness :
  exists f' sent,
    WriteFile (NewBACnetFile 1 "Configuration File" FileAccessMethodStream 0)
      0 [222; 173; 190; 239] 10 = Some (f', sent)
    /\ ReadFile f' 0 4 = Some [222; 173; 190; 239].
Proof.
  apply (WriteFile_then_ReadFile
           (NewBACnetFile 1 "Configuration File" FileAccessMethodStream 0)
           0 [222; 173; 190; 239] 10); [reflexivity|lia|reflexivity].
Defined.

End FileContents.

(** ** Subscriptions *)

Section SubscriptionList.

Implicit Types (o : BACnetObject) (sub : COVSubscription).

Lemma removeFirst_none subs id :
  (forall sub, sub ∈ subs -> SubscriptionID sub <> id) ->
  removeFirst subs id = None.
Proof.
  induction subs as [|sub subs IH]; intros H; simpl; [done|].
  pose proof (H sub ltac:(left)) as Hne. apply Z.eqb_neq in Hne.
  rewrite Hne, IH; [done|]. intros x Hx. apply H. by right.
Qed.

Lemma removeFirst_first l1 sub l2 id :
  SubscriptionID sub = id ->
  (forall x, x ∈ l1 -> SubscriptionID x <> id) ->
  removeFirst (l1 ++ sub :: l2) id = Some (l1 ++ l2).
Proof.
  intros Hid. induction l1 as [|x l1 IH]; intros H; simpl.
  - apply Z.eqb_eq in Hid. by rewrite Hid.
  - pose proof (H x ltac:(left)) as Hne. apply Z.eqb_neq in Hne.
    rewrite Hne, IH; [done|]. intros y Hy. apply H. by right.
Qed.

(** X4. [RemoveCOVSubscription] reports [false] and changes nothing when
    no subscription carries the id; otherwise it reports [true] and drops
    the first subscription with that id, keeping all others in order -
    a later subscription with the same id stays. *)
Theorem RemoveCOVSubscription_first o id :
  ((forall sub, sub ∈ Subscriptions o -> SubscriptionID sub <> id) ->
   RemoveCOVSubscription o id = (o, false))
  /\ (forall l1 sub l2,
        Subscriptions o = l1 ++ sub :: l2 ->
        SubscriptionID sub = id ->
        (forall x, x ∈ l1 -> SubscriptionID x <> id) ->
        RemoveCOVSubscription o id = (set_Subscriptions o (l1 ++ l2), true)).
Proof.
  unfold RemoveCOVSubscription. split.
  - intros H. by rewrite removeFirst_none.
  - intros l1 sub l2 Hsubs Hid H.
    by rewrite Hsubs, (removeFirst_first l1 sub l2 id Hid H).
Qed.

Lemma RemoveCOVSubscription_first_witness :
  RemoveCOVSubscription sampleAIEmpty 65538
  = (set_Subscriptions sampleAIEmpty [sampleSubAll], true).
Proof.
  apply (proj2 (RemoveCOVSubscription_first sampleAIEmpty 65538)
           [sampleSubAll] sampleSubDescription []).
  - reflexivity.
  - reflexivity.
  - intros x Hx. apply list_elem_of_singleton in Hx as ->. vm_compute.
    discriminate.
Defined.

(** X5. Cancelling what was just subscribed restores the subscription
    list, provided the id was not in use on the object. *)
Theorem AddCOVSubscription_then_Remove o sub :
  (forall x, x ∈ Subscriptions o -> SubscriptionID x <> SubscriptionID sub) ->
  (RemoveCOVSubscription (AddCOVSubscription o sub) (SubscriptionID sub)).2 = true
  /\ Subscriptions
       (RemoveCOVSubscription (AddCOVSubscription o sub) (SubscriptionID sub)).1
     = Subscriptions o.
Proof.
  intros Hfresh. unfold RemoveCOVSubscription, AddCOVSubscription.
  cbn [set_Subscriptions Subscriptions].
  rewrite (removeFirst_first (Subscriptions o) sub [] _ eq_refl Hfresh).
  cbn [fst snd set_Subscriptions Subscriptions]. by rewrite app_nil_r.
Qed.

Lemma AddCOVSubscription_then_Remove_witness :
  Subscriptions
    (RemoveCOVSubscription
       (AddCOVSubscription (set_Subscriptions sampleAIEmpty [sampleSubAll])
          sampleSubDescription) 65538).1
  = [sampleSubAll].
Proof.
  apply (AddCOVSubscription_then_Remove
           (set_Subscriptions sampleAIEmpty [sampleSubAll]) sampleSubDescription).
  intros x Hx. apply list_elem_of_singleton in Hx as ->. vm_compute.
  discriminate.
Defined.

(** What a write may change in a subscription: its timestamp only. *)
Lemma notifyLoop_timestamps o prop newValue now subs :
  Forall2 (fun sub sub' => sub' = set_Timestamp sub (Timestamp sub'))
    subs (notifyLoop o prop newValue now subs).1.
Proof.
  rewrite notifyLoop_spec. cbn [fst].
  induction subs as [|sub subs IH]; simpl; constructor; [|exact IH].
  destruct (notifies sub prop); by destruct sub.
Qed.

Lemma filter_sublist {A} (f : A -> bool) (l : list A) :
  sublist (List.filter f l) l.
Proof.
  induction l as [|x l IH]; cbn [List.filter]; [constructor|].
  destruct (f x); by constructor.
Qed.

Lemma Forall2_timestamps (subs : list COVSubscription) :
  Forall2 (fun sub sub' => sub' = set_Timestamp sub (Timestamp sub')) subs subs.
Proof.
  apply Forall2_same_length_lookup_2; [done|].
  intros i x y Hx Hy. rewrite Hx in Hy. injection Hy as <-. by destruct x.
Qed.

(** X6. A write, at any priority and whether or not it notifies, never
    adds, drops or reorders subscriptions: each subscription afterwards is
    the one before with at most its timestamp changed.  What is sent is
    one notification, with that subscription's id and client address, for
    each subscription of a selection taken in order from the list: no
    subscription gets more than one notification, and none is sent to
    anything but a subscription of the object. *)
Theorem WritePropertyWithPriority_keeps_subscriptions
    o prop value priority now :
  let r := WritePropertyWithPriority o prop value priority now in
  Forall2 (fun sub sub' => sub' = set_Timestamp sub (Timestamp sub'))
    (Subscriptions o) (Subscriptions (wrObject r))
  /\ (exists notified,
        sublist notified (Subscriptions o)
        /\ wrSent r
           = map (notificationFor o prop (ReadProperty (wrObject r) prop))
               notified)
  /\ (length (wrSent r) <= length (Subscriptions o))%nat.
Proof.
  cbv zeta.
  assert (Hsilent : forall o1,
            Subscriptions o1 = Subscriptions o ->
            Forall2 (fun sub sub' => sub' = set_Timestamp sub (Timestamp sub'))
              (Subscriptions o) (Subscriptions o1)
            /\ (exists notified,
                  sublist notified (Subscriptions o)
                  /\ [] = map (notificationFor o prop (ReadProperty o1 prop))
                            notified)
            /\ (length (@nil COVNotification) <= length (Subscriptions o))%nat).
  { intros o1 ->. split; [apply Forall2_timestamps|]. split.
    - exists []. split; [apply sublist_nil_l|done].
    - cbn [length]. lia. }
  destruct (decide (0 <= priority <= 16)) as [Hp|Hp].
  - destruct (WritePropertyWithPriority_valid o prop value priority now Hp)
      as (_ & Hps & Hpp & Heq).
    rewrite (ReadProperty_maps _ (stored o prop value priority) prop Hps Hpp).
    set (o1 := stored o prop value priority) in *.
    assert (Hsubs : Subscriptions o1 = Subscriptions o).
    { unfold o1, stored. by destruct (priority =? 16). }
    assert (Hnot : Notifier o1 = Notifier o).
    { unfold o1, stored. by destruct (priority =? 16). }
    assert (Hfor : forall v, notificationFor o1 prop v = notificationFor o prop v).
    { intros v. unfold o1, stored. by destruct (priority =? 16). }
    assert (Hquiet : (wrObject (WritePropertyWithPriority o prop value priority now),
                      wrSent (WritePropertyWithPriority o prop value priority now))
                     = (o1, []) ->
            Forall2 (fun sub sub' => sub' = set_Timestamp sub (Timestamp sub'))
              (Subscriptions o)
              (Subscriptions
                 (wrObject (WritePropertyWithPriority o prop value priority now)))
            /\ (exists notified,
                  sublist notified (Subscriptions o)
                  /\ wrSent (WritePropertyWithPriority o prop value priority now)
                     = map (notificationFor o prop (ReadProperty o1 prop))
                         notified)
            /\ (length (wrSent
                          (WritePropertyWithPriority o prop value priority now))
                <= length (Subscriptions o))%nat).
    { intros [= -> ->]. by apply Hsilent. }
    destruct (ReadProperty o prop) as [old|]; [|by apply Hquiet].
    destruct (ReadProperty o1 prop) as [new|] eqn:Hnew; [|by apply Hquiet].
    destruct (interfaceEq old new); cbn [negb] in Heq; [by apply Hquiet|].
    unfold NotifySubscribers in Heq. rewrite notifyLoop_spec in Heq.
    rewrite Hsubs, Hnot, Hfor in Heq. injection Heq as -> ->.
    cbn [set_Subscriptions Subscriptions]. split; [|split].
    + pose proof (notifyLoop_timestamps o prop (Some new) now (Subscriptions o))
        as H.
      by rewrite notifyLoop_spec in H.
    + exists (if Notifier o
              then List.filter (fun sub => notifies sub prop) (Subscriptions o)
              else []).
      destruct (Notifier o); (split; [|done]);
        [apply filter_sublist|apply sublist_nil_l].
    + destruct (Notifier o); cbn [length]; [|lia].
      rewrite length_map. apply List.filter_length_le.
  - unfold WritePropertyWithPriority. cbv zeta.
    destruct (Z.eqb_spec priority 16) as [E|E]; [lia|].
    assert (E' : (0 <=? priority) && (priority <=? 15) = false).
    { apply andb_false_iff.
      destruct (Z.leb_spec 0 priority); [right|by left]. apply Z.leb_gt. lia. }
    rewrite E'. cbn [wrObject wrSent]. by apply Hsilent.
Qed.

End SubscriptionList.

(** ** Alarm state *)

Section Alarms.

Implicit Types (o : BACnetObject).

Lemma setPropertyEntry_entry o prop value o' q :
  setPropertyEntry o prop value = Some o' ->
  propertyEntry o' q = if decide (prop = q) then Some value else propertyEntry o q.
Proof.
  unfold setPropertyEntry, propertyEntry.
  destruct (Properties o) as [props|]; [|discriminate].
  intros [= <-]. cbn [set_maps Properties]. apply lookup_insert.
Qed.

(** X7. On an object with a property map, [GenerateEvent] appends the
    event, makes [GetEventState] return the new state, and leaves the
    [InAlarm] bit of the status flags set exactly when the state is not
    [Normal]; the other flag bits are as before.  On a [nil] property map
    it panics. *)
Theorem GenerateEvent_alarm_flag o state message now :
  (Properties o = None -> GenerateEvent o state message now = None)
  /\ (Properties o <> None ->
      exists o',
        GenerateEvent o state message now = Some o'
        /\ GetEventState o' = state
        /\ Z.testbit (GetStatusFlags o') 0 = negb (state =? EventStateNormal)
        /\ (forall i, 0 < i ->
              Z.testbit (GetStatusFlags o') i = Z.testbit (GetStatusFlags o) i)
        /\ Events o'
           = Events o
             ++ [ {| EventType := GetObjectType o; EventState := state;
                     TimeStamp := now; MessageText := message;
                     EventNotificationClass := GetNotificationClass o |} ]).
Proof.
  split.
  - intros Hnil. unfold GenerateEvent, SetEventState, setPropertyEntry.
    cbn [set_Events Properties]. by rewrite Hnil.
  - intros Hprops. destruct (Properties o) as [props|] eqn:Ep; [|done].
    unfold GenerateEvent. cbv zeta.
    set (o0 := set_Events o _).
    assert (Hp0 : Properties o0 = Some props) by exact Ep.
    destruct (SetEventState o0 state) as [o1|] eqn:E1;
      [|unfold SetEventState, setPropertyEntry in E1; by rewrite Hp0 in E1].
    cbn [mbind option_bind].
    set (flags := if negb (state =? EventStateNormal)
                  then Z.lor (GetStatusFlags o1) StatusFlagInAlarm
                  else Z.ldiff (GetStatusFlags o1) StatusFlagInAlarm).
    assert (Hp1 : Properties o1 <> None).
    { unfold SetEventState, setPropertyEntry in E1. rewrite Hp0 in E1.
      by injection E1 as <-. }
    destruct (SetStatusFlags o1 flags) as [o2|] eqn:E2;
      [|unfold SetStatusFlags, setPropertyEntry in E2;
        by destruct (Properties o1)].
    pose proof (setPropertyEntry_entry _ _ _ _ PropertyIdentifierEventState E2)
      as Hes.
    pose proof (setPropertyEntry_entry _ _ _ _ PropertyIdentifierStatusFlags E2)
      as Hsf.
    pose proof (setPropertyEntry_entry _ _ _ _ PropertyIdentifierEventState E1)
      as Hes1.
    pose proof (setPropertyEntry_entry _ _ _ _ PropertyIdentifierStatusFlags E1)
      as Hsf1.
    rewrite decide_False in Hes by done. rewrite decide_True in Hsf by done.
    rewrite decide_True in Hes1 by done. rewrite decide_False in Hsf1 by done.
    assert (Hf1 : GetStatusFlags o1 = GetStatusFlags o).
    { unfold GetStatusFlags. by rewrite Hsf1. }
    exists o2. split; [done|]. split.
    { unfold GetEventState. by rewrite Hes, Hes1. }
    assert (Hf2 : GetStatusFlags o2 = flags).
    { unfold GetStatusFlags. by rewrite Hsf. }
    assert (Hev : Events o2 = Events o0).
    { unfold SetStatusFlags, SetEventState, setPropertyEntry in E1, E2.
      rewrite Hp0 in E1. injection E1 as <-.
      cbn [set_maps Properties] in E2. by injection E2 as <-. }
    rewrite Hf2. unfold flags. rewrite Hf1. clear flags Hf2 Hsf E2.
    split; [|split].
    + destruct (negb (state =? EventStateNormal)).
      * rewrite Z.lor_spec. change (Z.testbit StatusFlagInAlarm 0) with true.
        apply orb_true_r.
      * rewrite Z.ldiff_spec. change (Z.testbit StatusFlagInAlarm 0) with true.
        apply andb_false_r.
    + intros i Hi.
      assert (Hbit : Z.testbit StatusFlagInAlarm i = false).
      { change StatusFlagInAlarm with (2 ^ 0).
        rewrite Z.pow2_bits_eqb by lia. apply Z.eqb_neq. lia. }
      destruct (negb (state =? EventStateNormal)).
      * by rewrite Z.lor_spec, Hbit, orb_false_r.
      * by rewrite Z.ldiff_spec, Hbit, andb_true_r.
    + exact Hev.
Qed.

Lemma GenerateEvent_alarm_flag_witness :
  exists o',
    GenerateEvent sampleAI EventStateHighLimit "pressure high" 300 = Some o'
    /\ GetEventState o' = EventStateHighLimit
    /\ Z.testbit (GetStatusFlags o') 0 = true.
Proof.
  destruct (proj2 (GenerateEvent_alarm_flag sampleAI EventStateHighLimit
                     "pressure high" 300))
    as (o' & H1 & H2 & H3 & _); [vm_compute; discriminate|].
  exists o'. split; [exact H1|]. split; [exact H2|]. rewrite H3. reflexivity.
Defined.

End Alarms.

(** ** More on the write path *)

Section WritePathMore.

Implicit Types (o : BACnetObject).

(** X8. A priority outside 0-16 is refused: the write returns the error,
    sends nothing, keeps the subscriptions, and every property reads as
    before. *)
Theorem WritePropertyWithPriority_rejects_priority o prop value priority now :
  priority < 0 \/ 16 < priority ->
  let r := WritePropertyWithPriority o prop value priority now in
  wrError r = Some "invalid priority value, must be between 0-16"%string
  /\ wrSent r = []
  /\ Subscriptions (wrObject r) = Subscriptions o
  /\ forall q, ReadProperty (wrObject r) q = ReadProperty o q.
Proof.
  intros Hp. cbv zeta. unfold WritePropertyWithPriority. cbv zeta.
  assert (E16 : (priority =? 16) = false) by (apply Z.eqb_neq; lia).
  assert (Ein : (0 <=? priority) && (priority <=? 15) = false).
  { apply andb_false_iff. destruct Hp; [left|right]; zcompare. }
  rewrite E16, Ein. cbn [wrError wrSent wrObject].
  repeat split. intros q. apply ReadProperty_init.
Qed.

Lemma WritePropertyWithPriority_rejects_priority_witness :
  ReadProperty
    (wrObject (WritePropertyWithPriority sampleAV PropertyIdentifierPresentValue
                 (Some (VInt 99)) 17 0))
    PropertyIdentifierPresentValue
  = Some (VInt 21).
Proof.
  destruct (WritePropertyWithPriority_rejects_priority sampleAV
              PropertyIdentifierPresentValue (Some (VInt 99)) 17 0
              ltac:(right; lia)) as (_ & _ & _ & Hread).
  rewrite Hread. vm_compute. reflexivity.
Defined.

Lemma stored_other o prop value priority q :
  q <> prop ->
  ReadProperty (stored o prop value priority) q = ReadProperty o q.
Proof.
  intros Hq. rewrite <- (ReadProperty_init o q).
  unfold stored, ReadProperty.
  destruct (priority =? 16); cbn [set_maps Properties PrioritizedProperties].
  - by rewrite lookup_delete_ne, lookup_insert_ne.
  - by rewrite lookup_insert_ne.
Qed.

(** X9. A write to one property leaves the effective value of every other
    property as it was. *)
Theorem WritePropertyWithPriority_other_properties
    o prop value priority now q :
  q <> prop ->
  ReadProperty (wrObject (WritePropertyWithPriority o prop value priority now)) q
  = ReadProperty o q.
Proof.
  intros Hq.
  destruct (decide (0 <= priority <= 16)) as [Hp|Hp].
  - destruct (WritePropertyWithPriority_valid o prop value priority now Hp)
      as (_ & Hps & Hpp & _).
    rewrite (ReadProperty_maps _ (stored o prop value priority) q Hps Hpp).
    by apply stored_other.
  - unfold WritePropertyWithPriority. cbv zeta.
    assert (E16 : (priority =? 16) = false) by (apply Z.eqb_neq; lia).
    assert (Ein : (0 <=? priority) && (priority <=? 15) = false).
    { apply andb_false_iff.
      destruct (Z_lt_le_dec priority 0); [left|right]; zcompare. }
    rewrite E16, Ein. cbn [wrObject]. apply ReadProperty_init.
Qed.

Lemma WritePropertyWithPriority_other_properties_witness :
  ReadProperty
    (wrObject (WritePropertyWithPriority sampleAV PropertyIdentifierDescription
                 (Some (VString "setpoint")) 16 0))
    PropertyIdentifierPresentValue
  = Some (VInt 21).
Proof.
  rewrite WritePropertyWithPriority_other_properties by discriminate.
  vm_compute. reflexivity.
Defined.

(** The effective value in terms of the slots, for the store shapes
    below. *)
Lemma ReadProperty_lowest o prop k v :
  0 <= k < 16 ->
  held (prioritySlot o prop k) = Some v ->
  (forall j, 0 <= j < k -> held (prioritySlot o prop j) = None) ->
  ReadProperty o prop = Some v.
Proof.
  intros Hk Hv Hbelow. unfold ReadProperty, prioritySlot in *.
  destruct (PrioritizedProperties o) as [pp|]; cbn [mbind option_bind] in *;
    [|done].
  destruct (pp !! prop) as [priProps|]; cbn [mbind option_bind] in *; [|done].
  rewrite (seqZ_split k Hk).
  rewrite (scanPriorities_first priProps _ k _ v); [done| |done].
  intros j Hj. apply Hbelow. apply elem_of_seqZ in Hj. lia.
Qed.

(** Below [n] either no slot holds a value or there is a least one that
    does. *)
Lemma least_held_cases o prop (n : nat) :
  (forall i, 0 <= i < Z.of_nat n -> held (prioritySlot o prop i) = None)
  \/ exists j w,
       0 <= j < Z.of_nat n
       /\ held (prioritySlot o prop j) = Some w
       /\ forall i, 0 <= i < j -> held (prioritySlot o prop i) = None.
Proof.
  induction n as [|n [Hall|(j & w & Hj & Hw & Hleast)]].
  - left. intros i Hi. lia.
  - destruct (held (prioritySlot o prop (Z.of_nat n))) as [w|] eqn:E.
    + right. exists (Z.of_nat n), w. split; [lia|]. split; [done|exact Hall].
    + left. intros i Hi. destruct (decide (i = Z.of_nat n)) as [->|Hne];
        [done|]. apply Hall. lia.
  - right. exists j, w. split; [lia|done].
Qed.

Lemma least_held o prop (n : nat) :
  (exists j, 0 <= j < Z.of_nat n /\ held (prioritySlot o prop j) <> None) ->
  exists j w,
    0 <= j < Z.of_nat n
    /\ held (prioritySlot o prop j) = Some w
    /\ forall i, 0 <= i < j -> held (prioritySlot o prop i) = None.
Proof.
  intros (j & Hj & Hheld).
  destruct (least_held_cases o prop n) as [Hall|H]; [|exact H].
  exfalso. by apply Hheld, Hall.
Qed.

(** X10. Read after a commanded write. After writing a non-nil value at a
    priority 0-15, the property reads as that value when no
    lower-numbered slot holds a value; when one does, the write does not
    change what the property reads as. *)
Theorem WritePropertyWithPriority_then_ReadProperty o prop v priority now :
  0 <= priority <= 15 ->
  let r := WritePropertyWithPriority o prop (Some v) priority now in
  ((forall j, 0 <= j < priority -> held (prioritySlot o prop j) = None) ->
   ReadProperty (wrObject r) prop = Some v)
  /\ ((exists j, 0 <= j < priority /\ held (prioritySlot o prop j) <> None) ->
      ReadProperty (wrObject r) prop = ReadProperty o prop).
Proof.
  intros Hp. cbv zeta.
  destruct (WritePropertyWithPriority_valid o prop (Some v) priority now
              ltac:(lia)) as (_ & Hps & Hpp & _).
  rewrite (ReadProperty_maps _ (stored o prop (Some v) priority) prop Hps Hpp).
  destruct (stored_priority o prop (Some v) priority ltac:(lia))
    as (Hslot & Hothers & _).
  split.
  - intros Hbelow.
    apply (ReadProperty_lowest _ prop priority v); [lia|by rewrite Hslot|].
    intros j Hj. rewrite Hothers by lia. by apply Hbelow.
  - intros Hex.
    assert (Hex' : exists j, 0 <= j < Z.of_nat (Z.to_nat priority)
                             /\ held (prioritySlot o prop j) <> None).
    { destruct Hex as (j & Hj & Hh). exists j. split; [lia|done]. }
    destruct (least_held o prop _ Hex') as (j & w & Hj & Hw & Hleast).
    rewrite (ReadProperty_lowest o prop j w); [|lia|done|done].
    apply (ReadProperty_lowest _ prop j w); [lia| |].
    + rewrite Hothers by lia. done.
    + intros i Hi. rewrite Hothers by lia. by apply Hleast.
Qed.

Lemma WritePropertyWithPriority_then_ReadProperty_witness :
  ReadProperty
    (wrObject (WritePropertyWithPriority sampleAV PropertyIdentifierPresentValue
                 (Some (VInt 18)) 3 0))
    PropertyIdentifierPresentValue = Some (VInt 18)
  /\ ReadProperty
       (wrObject (WritePropertyWithPriority sampleAV
                    PropertyIdentifierPresentValue (Some (VInt 25)) 12 0))
       PropertyIdentifierPresentValue = Some (VInt 21).
Proof.
  split.
  - apply (WritePropertyWithPriority_then_ReadProperty sampleAV
             PropertyIdentifierPresentValue (VInt 18) 3 0); [lia|].
    intros j Hj. assert (Hc : j = 0 \/ j = 1 \/ j = 2) by lia.
    destruct Hc as [->|[->| ->]]; vm_compute; reflexivity.
  - rewrite (proj2 (WritePropertyWithPriority_then_ReadProperty sampleAV
                      PropertyIdentifierPresentValue (VInt 25) 12 0
                      ltac:(lia))).
    + vm_compute. reflexivity.
    + exists 8. split; [lia|]. vm_compute. discriminate.
Defined.

End WritePathMore.

(** ** The object list of the device *)

Section ObjectList.

Implicit Types (d : Device) (obj : Object) (id : ObjectIdentifier).

Lemma findIn_none objs id :
  findIn objs id = None <->
  forall obj, obj ∈ objs -> GetObjectIdentifier obj <> id.
Proof.
  induction objs as [|x objs IH]; simpl.
  - split; [|done]. intros _ obj Hobj. by apply elem_of_nil in Hobj.
  - case_bool_decide as Hx.
    + split; [discriminate|]. intros H. exfalso. apply (H x); [by left|done].
    + rewrite IH. split.
      * intros H obj Hobj. apply elem_of_cons in Hobj as [->|Hobj]; auto.
      * intros H obj Hobj. apply H. by right.
Qed.

Lemma findIn_some objs id obj :
  findIn objs id = Some obj <->
  exists l1 l2,
    objs = l1 ++ obj :: l2
    /\ GetObjectIdentifier obj = id
    /\ forall x, x ∈ l1 -> GetObjectIdentifier x <> id.
Proof.
  induction objs as [|x objs IH]; simpl.
  - split; [discriminate|]. intros (l1 & l2 & H & _). by destruct l1.
  - case_bool_decide as Hx.
    + split.
      * intros [= <-]. exists [], objs. split; [done|]. split; [done|].
        intros y Hy. by apply elem_of_nil in Hy.
      * intros (l1 & l2 & Hl & Hid & Hbefore).
        destruct l1 as [|y l1]; simpl in Hl.
        -- by injection Hl as ->.
        -- injection Hl as -> _. exfalso.
           apply (Hbefore y); [by left|done].
    + rewrite IH. split.
      * intros (l1 & l2 & -> & Hid & Hbefore).
        exists (x :: l1), l2. split; [done|]. split; [done|].
        intros y Hy. apply elem_of_cons in Hy as [->|Hy]; auto.
      * intros (l1 & l2 & Hl & Hid & Hbefore).
        destruct l1 as [|y l1]; simpl in Hl.
        -- injection Hl as -> _. done.
        -- injection Hl as -> ->. exists l1, l2. split; [done|].
           split; [done|]. intros z Hz. apply Hbefore. by right.
Qed.

(** X11. [FindObject] returns [nil] exactly when no object of the list has
    the identifier, and otherwise the first object of the list that has
    it. *)
Theorem FindObject_first d id :
  (FindObject d id = None <->
   forall obj, obj ∈ Objects d -> GetObjectIdentifier obj <> id)
  /\ (forall obj,
        FindObject d id = Some obj <->
        exists l1 l2,
          Objects d = l1 ++ obj :: l2
          /\ GetObjectIdentifier obj = id
          /\ forall x, x ∈ l1 -> GetObjectIdentifier x <> id).
Proof.
  unfold FindObject. split; [apply findIn_none|]. intros obj. apply findIn_some.
Qed.

Lemma findIn_app objs obj id :
  findIn (objs ++ [obj]) id
  = match findIn objs id with
    | Some x => Some x
    | None => if bool_decide (GetObjectIdentifier obj = id) then Some obj
              else None
    end.
Proof.
  induction objs as [|x objs IH]; cbn [findIn app].
  - by destruct (bool_decide (GetObjectIdentifier obj = id)).
  - destruct (bool_decide (GetObjectIdentifier x = id)); [done|apply IH].
Qed.

(** X12. [AddObject] appends: every object found before is still found,
    and the added object is found under its identifier exactly when no
    earlier object of the list has that identifier. *)
Theorem AddObject_then_FindObject d obj id :
  (forall x, FindObject d id = Some x -> FindObject (AddObject d obj) id = Some x)
  /\ (FindObject d id = None -> GetObjectIdentifier obj = id ->
      FindObject (AddObject d obj) id = Some obj)
  /\ (FindObject d id = None -> GetObjectIdentifier obj <> id ->
      FindObject (AddObject d obj) id = None).
Proof.
  unfold FindObject, AddObject. cbn [Objects]. rewrite findIn_app.
  split; [|split].
  - by intros x ->.
  - intros -> Hid. by rewrite bool_decide_eq_true_2.
  - intros -> Hid. by rewrite bool_decide_eq_false_2.
Qed.

Lemma AddObject_then_FindObject_witness :
  FindObject
    (AddObject sampleDevice
       (ObjBase (NewBACnetObject ObjectTypeBinaryOutput 1 "Second Switch")))
    {| Type_ := ObjectTypeBinaryOutput; Instance_ := 1 |}
  = FindObject sampleDevice {| Type_ := ObjectTypeBinaryOutput; Instance_ := 1 |}
  /\ FindObject
       (AddObject sampleDevice
          (ObjBase (NewBACnetObject ObjectTypeAnalogInput 9 "Probe")))
       {| Type_ := ObjectTypeAnalogInput; Instance_ := 9 |}
     = Some (ObjBase (NewBACnetObject ObjectTypeAnalogInput 9 "Probe")).
Proof.
  split.
  - destruct (FindObject sampleDevice
                {| Type_ := ObjectTypeBinaryOutput; Instance_ := 1 |})
      as [x|] eqn:E; [|by vm_compute in E].
    by apply (proj1 (AddObject_then_FindObject sampleDevice _ _)).
  - apply (AddObject_then_FindObject sampleDevice); [|reflexivity].
    vm_compute. reflexivity.
Defined.

(** X13. A new device is identified by (Device, instance), carries the
    configured name and location, reads the fixed identification strings,
    and has an empty object list. *)
Theorem NewDevice_defaults instance name location now :
  let d := NewDevice instance name location now in
  Identifier (devBase d) = {| Type_ := ObjectTypeDevice; Instance_ := instance |}
  /\ GetObjectName (devBase d) = name
  /\ Objects d = []
  /\ ReadProperty (devBase d) PropertyIdentifierLocation = Some (VString location)
  /\ ReadProperty (devBase d) PropertyIdentifierDeviceType
     = Some (VString "Go BACnet Server")
  /\ ReadProperty (devBase d) PropertyIdentifierManufacturerName
     = Some (VString "Go BACnet Simulator")
  /\ ReadProperty (devBase d) PropertyIdentifierModelName
     = Some (VString "Simulator v1.0")
  /\ ReadProperty (devBase d) PropertyIdentifierFirmwareRevision
     = Some (VString "1.0")
  /\ ReadProperty (devBase d) PropertyIdentifierApplicationSoftwareVersion
     = Some (VString "1.0")
  /\ ReadProperty (devBase d) PropertyIdentifierPresentValue = None.
Proof. cbv zeta. repeat split; vm_compute; reflexivity. Qed.

End ObjectList.

(** * Further properties of the codec *)

(** ** Big-endian words *)

Section Words.

Lemma lor_high_low hi lo k :
  0 <= k -> 0 <= lo < 2 ^ k -> Z.lor (Z.shiftl hi k) lo = hi * 2 ^ k + lo.
Proof.
  intros Hk Hlo.
  assert (Hdisj : Z.land (Z.shiftl hi k) lo = 0).
  { apply Z.bits_inj'. intros n Hn. rewrite Z.land_spec, Z.bits_0.
    destruct (Z_lt_le_dec n k) as [Hlt|Hge].
    - by rewrite Z.shiftl_spec_low.
    - rewrite <- (Z.mod_small lo (2 ^ k)) by lia.
      rewrite Z.mod_pow2_bits_high by lia. apply andb_false_r. }
  rewrite <- Z.lxor_lor by done.
  rewrite <- Z.add_nocarry_lxor by done.
  by rewrite Z.shiftl_mul_pow2.
Qed.

(** The value of the inline big-endian expression of the parsers. *)
Lemma be32_value b0 b1 b2 b3 :
  is_byte b0 -> is_byte b1 -> is_byte b2 -> is_byte b3 ->
  be32 b0 b1 b2 b3 = b0 * 16777216 + b1 * 65536 + b2 * 256 + b3.
Proof.
  unfold is_byte, be32, uint32. intros H0 H1 H2 H3.
  rewrite !Z.shiftl_mul_pow2 by lia.
  rewrite !Z.mod_small by lia.
  rewrite <- !Z.shiftl_mul_pow2 by lia.
  replace (Z.shiftl b0 24) with (Z.shiftl (Z.shiftl b0 8) 16)
    by (by rewrite Z.shiftl_shiftl by lia).
  rewrite <- Z.shiftl_lor.
  rewrite (lor_high_low b0 b1 8) by lia.
  replace (Z.shiftl (b0 * 2 ^ 8 + b1) 16)
    with (Z.shiftl (Z.shiftl (b0 * 2 ^ 8 + b1) 8) 8)
    by (by rewrite Z.shiftl_shiftl by lia).
  rewrite <- Z.shiftl_lor.
  rewrite (lor_high_low (b0 * 2 ^ 8 + b1) b2 8) by lia.
  rewrite (lor_high_low _ b3 8) by lia.
  lia.
Qed.

(** Indexing into the first bytes of a concatenation. *)
Lemma at_app_l (l rest : list Z) i :
  0 <= i < len l -> at_ (l ++ rest) i = at_ l i.
Proof. intros Hi. unfold at_, len in *. apply app_nth1. lia. Qed.

Lemma at_four a b c d :
  at_ [a; b; c; d] 0 = a /\ at_ [a; b; c; d] 1 = b
  /\ at_ [a; b; c; d] 2 = c /\ at_ [a; b; c; d] 3 = d.
Proof. repeat split. Qed.

(** The four big-endian octets of a 32-bit word. *)
Lemma word_octets x :
  0 <= x < 4294967296 ->
  is_byte (byte (Z.shiftr x 24)) /\ is_byte (byte (Z.shiftr x 16))
  /\ is_byte (byte (Z.shiftr x 8)) /\ is_byte (byte x)
  /\ byte (Z.shiftr x 24) * 16777216 + byte (Z.shiftr x 16) * 65536
     + byte (Z.shiftr x 8) * 256 + byte x = x.
Proof.
  intros Hx. unfold is_byte, byte. rewrite !Z.shiftr_div_pow2 by lia.
  change (2 ^ 24) with 16777216. change (2 ^ 16) with 65536.
  change (2 ^ 8) with 256.
  repeat split; try (apply Z.mod_pos_bound; lia).
  Z.div_mod_to_equations. lia.
Qed.

Lemma be32_octets x :
  0 <= x < 4294967296 ->
  be32 (byte (Z.shiftr x 24)) (byte (Z.shiftr x 16)) (byte (Z.shiftr x 8))
       (byte x) = x.
Proof.
  intros Hx. destruct (word_octets x Hx) as (H0 & H1 & H2 & H3 & Hsum).
  by rewrite be32_value.
Qed.

End Words.

(** ** Object and property identifiers *)

Section Identifiers.

Lemma parseObjectIdentifier_encoded oid rest :
  0 <= Type_ oid < 256 -> 0 <= Instance_ oid < 4194304 ->
  parseObjectIdentifier (encodeObjectIdentifier oid ++ rest) = Ok (oid, 4).
Proof.
  intros Ht Hi. destruct oid as [t i]. cbn [Type_ Instance_] in *.
  unfold parseObjectIdentifier, encodeObjectIdentifier.
  cbn [Type_ Instance_].
  assert (Hx : Z.lor (uint32 (Z.shiftl t 22)) (Z.land i 4194303)
               = t * 4194304 + i).
  { unfold uint32. rewrite Z.shiftl_mul_pow2 by lia.
    rewrite Z.mod_small by lia. rewrite <- Z.shiftl_mul_pow2 by lia.
    change 4194303 with (Z.ones 22). rewrite Z.land_ones by lia.
    rewrite (Z.mod_small i) by lia.
    rewrite lor_high_low by lia. reflexivity. }
  rewrite Hx. set (x := t * 4194304 + i).
  assert (Hrange : 0 <= x < 4294967296) by (unfold x; lia).
  assert (Hlen : (len ([byte (Z.shiftr x 24); byte (Z.shiftr x 16);
                        byte (Z.shiftr x 8); byte x] ++ rest) <? 4) = false).
  { unfold len. rewrite length_app. cbn [length]. zcompare. }
  rewrite Hlen. rewrite !at_app_l by (unfold len; cbn [length]; lia).
  destruct (at_four (byte (Z.shiftr x 24)) (byte (Z.shiftr x 16))
              (byte (Z.shiftr x 8)) (byte x)) as (-> & -> & -> & ->).
  rewrite be32_octets by done.
  do 2 f_equal. f_equal.
  - unfold byte. rewrite Z.shiftr_div_pow2 by lia. unfold x.
    change (2 ^ 22) with 4194304.
    rewrite Z.div_add_l by lia. rewrite (Z.div_small i) by lia.
    rewrite Z.add_0_r. apply Z.mod_small. lia.
  - change 4194303 with (Z.ones 22). rewrite Z.land_ones by lia.
    unfold x. change (2 ^ 22) with 4194304.
    rewrite Z.add_comm, Z_mod_plus_full. apply Z.mod_small. lia.
Qed.

(** X14. Parsing the four bytes that [encodeObjectIdentifier] emits gives
    the identifier back, for a type that fits the [uint8] the model keeps
    it in and an instance below 2^22. *)
Theorem parse_encodeObjectIdentifier oid rest :
  0 <= Type_ oid < 256 -> 0 <= Instance_ oid < 4194304 ->
  parseObjectIdentifier (encodeObjectIdentifier oid ++ rest) = Ok (oid, 4).
Proof. apply parseObjectIdentifier_encoded. Qed.

Lemma parse_encodeObjectIdentifier_witness :
  parseObjectIdentifier
    (encodeObjectIdentifier {| Type_ := ObjectTypeDevice; Instance_ := 1001 |}
     ++ [0; 75])
  = Ok ({| Type_ := ObjectTypeDevice; Instance_ := 1001 |}, 4).
Proof.
  apply parse_encodeObjectIdentifier; cbn [Type_ Instance_];
    unfold ObjectTypeDevice; lia.
Defined.

Lemma parsePropertyIdentifier_encoded propID rest :
  (0 <= propID <= 65535 ->
   parsePropertyIdentifier (encodePropertyIdentifier propID ++ rest)
   = Ok (propID, 2))
  /\ (65535 < propID < 4294967296 ->
      parsePropertyIdentifier (encodePropertyIdentifier propID ++ rest)
      = Ok (65535, 2)).
Proof.
  unfold parsePropertyIdentifier, encodePropertyIdentifier. split; intros Hp.
  - rewrite uint32_small by lia.
    assert (E : (propID >? 65535) = false) by zcompare. rewrite E.
    assert (Hlen : (len ([byte (Z.shiftr propID 8); byte (Z.land propID 255)]
                         ++ rest) <? 2) = false).
    { unfold len. rewrite length_app. cbn [length]. zcompare. }
    rewrite Hlen. rewrite !at_app_l by (unfold len; cbn [length]; lia).
    change (at_ [byte (Z.shiftr propID 8); byte (Z.land propID 255)] 0)
      with (byte (Z.shiftr propID 8)).
    change (at_ [byte (Z.shiftr propID 8); byte (Z.land propID 255)] 1)
      with (byte (Z.land propID 255)).
    do 2 f_equal.
    change 255 with (Z.ones 8). rewrite Z.land_ones by lia.
    unfold byte. rewrite Zmod_mod.
    rewrite lor_high_low by (try lia; apply Z.mod_pos_bound; lia).
    rewrite Z.shiftr_div_pow2 by lia. change (2 ^ 8) with 256.
    rewrite (Z.mod_small (propID / 256)) by (Z.div_mod_to_equations; lia).
    Z.div_mod_to_equations. lia.
  - rewrite uint32_small by lia.
    assert (E : (propID >? 65535) = true) by zcompare. rewrite E.
    assert (Hlen : (len ([byte 255; byte 255] ++ rest) <? 2) = false).
    { unfold len. rewrite length_app. cbn [length]. zcompare. }
    rewrite Hlen. rewrite !at_app_l by (unfold len; cbn [length]; lia).
    reflexivity.
Qed.

(** X15. Parsing the two bytes that [encodePropertyIdentifier] emits gives
    the identifier back when it fits sixteen bits; a larger identifier is
    emitted as [FF FF] and parses as 65535. *)
Theorem parse_encodePropertyIdentifier propID rest :
  (0 <= propID <= 65535 ->
   parsePropertyIdentifier (encodePropertyIdentifier propID ++ rest)
   = Ok (propID, 2))
  /\ (65535 < propID < 4294967296 ->
      parsePropertyIdentifier (encodePropertyIdentifier propID ++ rest)
      = Ok (65535, 2)).
Proof. apply parsePropertyIdentifier_encoded. Qed.

Lemma parse_encodePropertyIdentifier_witness :
  parsePropertyIdentifier
    (encodePropertyIdentifier PropertyIdentifierFileSize ++ [12])
  = Ok (PropertyIdentifierFileSize, 2)
  /\ parsePropertyIdentifier (encodePropertyIdentifier 70000) = Ok (65535, 2).
Proof.
  split.
  - apply parse_encodePropertyIdentifier. unfold PropertyIdentifierFileSize. lia.
  - rewrite <- (app_nil_r (encodePropertyIdentifier 70000)).
    apply parse_encodePropertyIdentifier. lia.
Defined.

End Identifiers.

Lemma FindObject_first_witness :
  FindObject sampleDevice {| Type_ := ObjectTypeAnalogInput; Instance_ := 5 |}
  = None.
Proof.
  apply (proj1 (FindObject_first sampleDevice
                  {| Type_ := ObjectTypeAnalogInput; Instance_ := 5 |})).
  intros obj Hobj. unfold sampleDevice, AddObject in Hobj.
  cbn [Objects NewDevice app] in Hobj.
  repeat (apply elem_of_cons in Hobj as [->|Hobj]);
    [vm_compute; discriminate..|by apply elem_of_nil in Hobj].
Defined.

(** ** The value codec *)

Section ValueCodec.

Lemma len_app_ge (l rest : list Z) k :
  k <= len l -> (len (l ++ rest) <? k) = false.
Proof.
  intros Hk. unfold len in *. rewrite length_app. apply Z.ltb_ge. lia.
Qed.

(** The word read back behind a tag byte. *)
Lemma tagged_word tag x :
  0 <= x < 4294967296 ->
  let enc := [tag] ++ [byte (Z.shiftr x 24); byte (Z.shiftr x 16);
                       byte (Z.shiftr x 8); byte x] in
  be32 (at_ enc 1) (at_ enc 2) (at_ enc 3) (at_ enc 4) = x.
Proof. intros Hx. by apply be32_octets. Qed.

Lemma stringOfBytes_bytesOfString s : stringOfBytes (bytesOfString s) = s.
Proof.
  unfold stringOfBytes, bytesOfString. rewrite map_map.
  rewrite (map_ext _ (fun a => a)).
  - rewrite map_id. apply String.string_of_list_ascii_of_string.
  - intros a. rewrite N2Z.id. apply Ascii.ascii_N_embedding.
Qed.

Lemma bytesOfString_bytes s : Forall is_byte (bytesOfString s).
Proof.
  unfold bytesOfString. apply Forall_map, Forall_forall. intros a _.
  unfold is_byte. pose proof (Ascii.N_ascii_bounded a). lia.
Qed.

Lemma decodeBACnetValue_encoded value rest :
  encodable value ->
  decodeBACnetValue (encodeBACnetValue value ++ rest)
  = Ok (value, len (encodeBACnetValue value)).
Proof.
  destruct value as [b|n|n|n|n|s|]; cbn [encodable]; intros Henc;
    unfold decodeBACnetValue, encodeBACnetValue.
  - destruct b;
      rewrite !len_app_ge by (unfold len; cbn [length app]; lia);
      rewrite !(at_app_l _ rest) by (unfold len; cbn [length app]; lia);
      reflexivity.
  - rewrite !len_app_ge by (unfold len; cbn [length app]; lia).
    rewrite !(at_app_l _ rest) by (unfold len; cbn [length app]; lia).
    reflexivity.
  - rewrite !len_app_ge by (unfold len; cbn [length app]; lia).
    rewrite !(at_app_l _ rest) by (unfold len; cbn [length app]; lia).
    change (at_ ([34] ++ [byte (Z.shiftr n 8); byte n]) 0) with 34.
    change (at_ ([34] ++ [byte (Z.shiftr n 8); byte n]) 1)
      with (byte (Z.shiftr n 8)).
    change (at_ ([34] ++ [byte (Z.shiftr n 8); byte n]) 2) with (byte n).
    cbn [Z.eqb Pos.eqb]. do 3 f_equal.
    unfold uint16, byte. rewrite Z.shiftr_div_pow2 by lia. change (2 ^ 8) with 256.
    assert (H1 : 0 <= (n / 256) mod 256 < 256) by (apply Z.mod_pos_bound; lia).
    assert (H2 : 0 <= n mod 256 < 256) by (apply Z.mod_pos_bound; lia).
    rewrite Z.shiftl_mul_pow2 by lia. rewrite Z.mod_small by lia.
    rewrite <- Z.shiftl_mul_pow2 by lia.
    rewrite lor_high_low by lia. change (2 ^ 8) with 256.
    Z.div_mod_to_equations. lia.
  - rewrite !len_app_ge by (unfold len; cbn [length app]; lia).
    rewrite !(at_app_l _ rest) by (unfold len; cbn [length app]; lia).
    change (at_ ([35] ++ ?l) 0) with 35. cbn [Z.eqb Pos.eqb].
    rewrite (tagged_word 35 n) by done. reflexivity.
  - rewrite !len_app_ge by (unfold len; cbn [length app]; lia).
    rewrite !(at_app_l _ rest) by (unfold len; cbn [length app]; lia).
    change (at_ ([57] ++ ?l) 0) with 57. cbn [Z.eqb Pos.eqb].
    rewrite (tagged_word 57 n) by done. reflexivity.
  - remember (bytesOfString s) as bs eqn:Hbs.
    assert (Hb : byte (len bs) = len bs).
    { unfold byte. apply Z.mod_small. unfold len in *. lia. }
    rewrite Hb.
    rewrite !(len_app_ge (([65] ++ [len bs]) ++ bs) rest)
      by (unfold len; rewrite length_app; cbn [length app]; lia).
    rewrite !(at_app_l _ rest)
      by (unfold len; rewrite ?length_app; cbn [length]; lia).
    rewrite !(at_app_l _ bs) by (unfold len; cbn [length app]; lia).
    change (at_ ([65] ++ [len bs]) 0) with 65.
    change (at_ ([65] ++ [len bs]) 1) with (len bs).
    cbn [Z.eqb Pos.eqb]. cbv zeta.
    rewrite (len_app_ge (([65] ++ [len bs]) ++ bs) rest)
      by (unfold len; rewrite length_app; cbn [length app]; lia).
    assert (Hs : slice ((([65] ++ [len bs]) ++ bs) ++ rest) 2 (2 + len bs) = bs).
    { unfold slice. replace (2 + len bs - 2) with (len bs) by lia.
      rewrite <- app_assoc.
      change (Z.to_nat 2) with (length ([65] ++ [len bs])).
      rewrite drop_app_length. unfold len. rewrite Nat2Z.id.
      apply take_app_length. }
    rewrite Hs, Hbs. rewrite stringOfBytes_bytesOfString.
    do 2 f_equal. unfold len. rewrite !length_app. cbn [length]. lia.
  - done.
Qed.

(** X16. Decoding what [encodeBACnetValue] emits, whatever follows it,
    gives the value back and consumes exactly the encoding - for
    booleans, unsigned integers within their width, [float32] bit
    patterns, and strings of fewer than 256 bytes. *)
Theorem decode_encodeBACnetValue value rest :
  encodable value ->
  decodeBACnetValue (encodeBACnetValue value ++ rest)
  = Ok (value, len (encodeBACnetValue value)).
Proof. apply decodeBACnetValue_encoded. Qed.

Lemma decode_encodeBACnetValue_witness :
  decodeBACnetValue (encodeBACnetValue (DString "Light Switch") ++ [0; 0])
  = Ok (DString "Light Switch", 14)
  /\ decodeBACnetValue (encodeBACnetValue (DUint32 1001))
     = Ok (DUint32 1001, 5).
Proof.
  split.
  - apply (decode_encodeBACnetValue (DString "Light Switch") [0; 0]).
    vm_compute. reflexivity.
  - rewrite <- (app_nil_r (encodeBACnetValue (DUint32 1001))).
    apply (decode_encodeBACnetValue (DUint32 1001) []). cbn [encodable]. lia.
Defined.

(** The codec has no tag for the other dynamic types: they are emitted as
    the single byte 0x00, which the decoder refuses. *)
Example decode_encode_other :
  decodeBACnetValue (encodeBACnetValue (dynamicOf (VInt 10)))
  = Err "unsupported data type".
Proof. reflexivity. Qed.

(** X17. Whatever [decodeBACnetValue] accepts, it consumed at least the
    tag and one more byte and no more than the data holds; empty data and
    unknown tags are refused. *)
Theorem decodeBACnetValue_consumed data :
  Forall is_byte data ->
  (forall value n, decodeBACnetValue data = Ok (value, n) -> 2 <= n <= len data)
  /\ (data = [] -> exists msg, decodeBACnetValue data = Err msg)
  /\ (forall tag rest,
        data = tag :: rest ->
        tag <> 17 -> tag <> 33 -> tag <> 34 -> tag <> 35 -> tag <> 57 ->
        tag <> 65 ->
        exists msg, decodeBACnetValue data = Err msg).
Proof.
  intros Hbytes. split; [|split].
  - intros value n. unfold decodeBACnetValue.
    pose proof (at_is_byte data 1 Hbytes) as H1. unfold is_byte in H1.
    repeat match goal with
           | |- context [if ?c then _ else _] =>
               let E := fresh "E" in destruct c eqn:E
           end; try discriminate; intros [= _ <-]; lia.
  - intros ->. by eexists.
  - intros tag rest -> H17 H33 H34 H35 H57 H65. unfold decodeBACnetValue.
    change (at_ (tag :: rest) 0) with tag.
    apply Z.eqb_neq in H17, H33, H34, H35, H57, H65.
    rewrite H17, H33, H34, H35, H57, H65.
    destruct (len (tag :: rest) <? 1); by eexists.
Qed.

Lemma decodeBACnetValue_consumed_witness :
  2 <= 3 <= len [34; 3; 233; 9].
Proof.
  apply (proj1 (decodeBACnetValue_consumed [34; 3; 233; 9]
                  ltac:(repeat constructor; unfold is_byte; lia))
           (DUint16 1001) 3).
  reflexivity.
Defined.

End ValueCodec.

(** * Further properties of the frame parsers and the dispatcher *)

(** ** Headers accepted by [ParseNPDU] *)

Section NPDUErrors.

Implicit Types (data : list Z).

Ltac npdu_rejected :=
  right; split;
  [ intros (? & ? & Hd & Hs);
    try specialize (Hd eq_refl); try specialize (Hs eq_refl); lia
  | eexists; split; [reflexivity|discriminate] ].

Ltac npdu_accepted :=
  left; split; [repeat split; (lia || done)|by eexists _, _].

Lemma ParseNPDU_cases data :
  Forall is_byte data ->
  npduFramed data /\ (exists npdu offset, ParseNPDU data = Ok (npdu, offset))
  \/ ~ npduFramed data
     /\ exists msg, ParseNPDU data = Err msg /\ msg <> "NPDU parsing overflow".
Proof.
  intros Hbytes. unfold npduFramed, sourceOffset, ParseNPDU.
  set (control := ParseControl (at_ data 1)).
  destruct (Z.ltb_spec (len data) 2) as [E0|E0]; [npdu_rejected|].
  destruct (Z.eqb_spec (at_ data 0) 1) as [E1|E1]; cbn [negb];
    [|npdu_rejected].
  pose proof (at_is_byte data 4 Hbytes) as Hd4. unfold is_byte in Hd4.
  unfold parseDestination, parseSource.
  change (2 + 2) with 4. change (4 + 1) with 5. change (2 + 3) with 5.
  destruct (DestinationSpecified control) eqn:Ed.
  - destruct (Z.gtb_spec 5 (len data)) as [E2|E2]; [npdu_rejected|].
    destruct (Z.gtb_spec (5 + at_ data 4) (len data)) as [E3|E3];
      [npdu_rejected|].
    cbn [mbind Res_bind andb].
    set (o1 := 5 + at_ data 4) in *.
    pose proof (at_is_byte data (o1 + 2) Hbytes) as Hs2. unfold is_byte in Hs2.
    destruct (SourceSpecified control) eqn:Es; cbn [andb].
    + destruct (Z.geb_spec (len data - o1) 3) as [E4|E4].
      * destruct (Z.gtb_spec (o1 + 2 + 1 + at_ data (o1 + 2)) (len data))
          as [E5|E5]; [npdu_rejected|].
        cbn [mbind Res_bind].
        set (o2 := o1 + 2 + 1 + at_ data (o1 + 2)) in *.
        destruct (Z.ltb_spec o2 (len data)) as [E6|E6].
        -- destruct (Z.gtb_spec (o2 + 1) (len data)) as [E7|E7]; [lia|].
           npdu_accepted.
        -- destruct (Z.gtb_spec o2 (len data)) as [E7|E7]; [lia|].
           npdu_accepted.
      * cbn [mbind Res_bind].
        destruct (Z.ltb_spec o1 (len data)) as [E6|E6].
        -- destruct (Z.gtb_spec (o1 + 1) (len data)) as [E7|E7]; [lia|].
           npdu_accepted.
        -- destruct (Z.gtb_spec o1 (len data)) as [E7|E7]; [lia|].
           npdu_accepted.
    + cbn [mbind Res_bind].
      destruct (Z.ltb_spec o1 (len data)) as [E6|E6].
      * destruct (Z.gtb_spec (o1 + 1) (len data)) as [E7|E7]; [lia|].
        npdu_accepted.
      * destruct (Z.gtb_spec o1 (len data)) as [E7|E7]; [lia|].
        npdu_accepted.
  - cbn [mbind Res_bind andb].
    change (2 + 2) with 4. change (2 + 3) with 5. change (4 + 1) with 5.
    destruct (SourceSpecified control) eqn:Es; cbn [andb].
    + destruct (Z.geb_spec (len data - 2) 3) as [E4|E4].
      * destruct (Z.gtb_spec (5 + at_ data 4) (len data))
          as [E5|E5]; [npdu_rejected|].
        cbn [mbind Res_bind].
        destruct (Z.gtb_spec (5 + at_ data 4) (len data));
          [lia|].
        npdu_accepted.
      * cbn [mbind Res_bind].
        destruct (Z.gtb_spec 2 (len data)); [lia|].
        npdu_accepted.
    + cbn [mbind Res_bind].
      destruct (Z.gtb_spec 2 (len data)); [lia|].
      npdu_accepted.
Qed.

(** X18. [ParseNPDU] accepts exactly the headers of at least two bytes
    with version 1 whose destination block, when the destination bit is
    set, and whose source block, when the source bit is set and three
    bytes remain for it, lie within the data; a source bit with fewer than
    three bytes left is not an error.  The final overflow error is never
    returned. *)
Theorem ParseNPDU_accepts data :
  Forall is_byte data ->
  ((exists npdu offset, ParseNPDU data = Ok (npdu, offset)) <-> npduFramed data)
  /\ ParseNPDU data <> Err "NPDU parsing overflow".
Proof.
  intros Hbytes.
  destruct (ParseNPDU_cases data Hbytes)
    as [[Hf (npdu & offset & ->)]|[Hf (msg & -> & Hmsg)]].
  - split; [|discriminate]. split; [done|]. by eexists _, _.
  - split; [|congruence]. split; [|done]. by intros (? & ? & ?).
Qed.

Lemma ParseNPDU_accepts_witness :
  ((exists npdu offset, ParseNPDU [1; 8; 16; 8] = Ok (npdu, offset))
   <-> npduFramed [1; 8; 16; 8])
  /\ ParseNPDU [1; 8; 16; 8] <> Err "NPDU parsing overflow".
Proof.
  apply ParseNPDU_accepts. repeat constructor; unfold is_byte; lia.
Defined.

(** A header whose source bit is set but which is followed by two bytes
    only: accepted, with no source fields. *)
Example ParseNPDU_source_bit_ignored :
  exists npdu, ParseNPDU [1; 8; 16; 8] = Ok (npdu, 2)
               /\ SourceNetwork npdu = None.
Proof. eexists. split; vm_compute; reflexivity. Qed.

End NPDUErrors.

(** ** Routing of request PDUs *)

Section Routing.

Variable otherConfirmed :
  Z -> BACnetServer -> list Z -> Z -> BACnetServer * Outcome.

Implicit Types (s : BACnetServer) (data : list Z).

(** The payload of [ParseAPDU] is the tail of the data in both branches
    of its length test. *)
Lemma payload_tail data h :
  0 <= h ->
  (if len data >? h then slice_from data h else []) = slice_from data h.
Proof.
  intros Hh. destruct (Z.gtb_spec (len data) h) as [E|E]; [done|].
  unfold slice_from, len in *. by rewrite drop_ge by lia.
Qed.

Lemma ParseAPDU_confirmed data :
  Z.shiftr (at_ data 0) 4 = BACnetAPDUTypeConfirmedServiceRequest ->
  4 <= len data ->
  ParseAPDU data
  = Ok {| PDUType := BACnetAPDUTypeConfirmedServiceRequest;
          ControlFlags := Z.land (at_ data 0) 15;
          InvokeID := Some (at_ data 2); ServiceChoice := Some (at_ data 3);
          SequenceNumber := None; ProposedWindowSize := None;
          Payload := slice_from data 4; Raw := data |}.
Proof.
  intros Ht Hl. unfold ParseAPDU. rewrite Ht, !payload_tail by lia.
  destruct (Z.ltb_spec (len data) 1); [lia|].
  destruct (Z.ltb_spec (len data) 4); [lia|]. reflexivity.
Qed.

Lemma ParseAPDU_unconfirmed data :
  Z.shiftr (at_ data 0) 4 = BACnetAPDUTypeUnconfirmedServiceRequest ->
  2 <= len data ->
  ParseAPDU data
  = Ok {| PDUType := BACnetAPDUTypeUnconfirmedServiceRequest;
          ControlFlags := Z.land (at_ data 0) 15;
          InvokeID := None; ServiceChoice := Some (at_ data 1);
          SequenceNumber := None; ProposedWindowSize := None;
          Payload := slice_from data 2; Raw := data |}.
Proof.
  intros Ht Hl. unfold ParseAPDU. rewrite Ht, !payload_tail by lia.
  destruct (Z.ltb_spec (len data) 1); [lia|].
  destruct (Z.ltb_spec (len data) 2); [lia|]. reflexivity.
Qed.

(** X19. A confirmed request (type nibble 0) of fewer than four bytes
    is refused with an error; otherwise it is routed by its fourth byte:
    AtomicReadFile and the ten other known services go to their handler
    with the third byte as invoke id and the bytes from the fifth on as
    payload, and every other service choice is dropped with no reply and
    no error, the server unchanged. *)
Theorem handleBACnetAPDU_confirmed s data :
  Z.shiftr (at_ data 0) 4 = BACnetAPDUTypeConfirmedServiceRequest ->
  handleBACnetAPDU otherConfirmed s data
  = if len data <? 2 then (s, Failure "APDU too short")
    else if len data <? 4 then (s, Failure "confirmed service request too short")
    else if at_ data 3 =? BACnetServiceConfirmedAtomicReadFile then
      (s, handleAtomicReadFile s (slice_from data 4) (at_ data 2))
    else if bool_decide (at_ data 3 ∈ otherConfirmedServices) then
      otherConfirmed (at_ data 3) s (slice_from data 4) (at_ data 2)
    else (s, Response []).
Proof.
  intros Ht. unfold handleBACnetAPDU.
  destruct (Z.ltb_spec (len data) 2) as [E2|E2]; [done|].
  destruct (Z.ltb_spec (len data) 4) as [E4|E4].
  - unfold ParseAPDU. rewrite Ht.
    destruct (Z.ltb_spec (len data) 1); [lia|].
    cbn [Z.eqb BACnetAPDUTypeConfirmedServiceRequest].
    destruct (Z.ltb_spec (len data) 4); [done|lia].
  - rewrite ParseAPDU_confirmed by done. cbn [PDUType InvokeID ServiceChoice Payload].
    cbn [Z.eqb BACnetAPDUTypeConfirmedServiceRequest].
    destruct (at_ data 3 =? BACnetServiceConfirmedAtomicReadFile); [done|].
    assert (Hin : existsb (Z.eqb (at_ data 3)) otherConfirmedServices
                  = bool_decide (at_ data 3 ∈ otherConfirmedServices)).
    { apply eq_true_iff_eq. rewrite existsb_exists, bool_decide_eq_true.
      split.
      - intros (x & Hx & Heq). apply Z.eqb_eq in Heq. subst x.
        by apply list_elem_of_In.
      - intros Hx. exists (at_ data 3). split; [by apply list_elem_of_In|].
        apply Z.eqb_refl. }
    by rewrite Hin.
Qed.

(** X20. An unconfirmed request of at least two bytes with service
    choice Who-Is is answered with the I-Am frame whatever follows the
    service choice: the instance range of the request is not looked at.
    Every other unconfirmed service is refused with an error and gets no
    reply. *)
Theorem handleBACnetAPDU_unconfirmed s data :
  Z.shiftr (at_ data 0) 4 = BACnetAPDUTypeUnconfirmedServiceRequest ->
  2 <= len data ->
  handleBACnetAPDU otherConfirmed s data
  = if at_ data 1 =? BACnetServiceUnconfirmedWhoIs
    then (s, Response (createIAmResponse s))
    else (s, Failure "Unsupported unconfirmed service type").
Proof.
  intros Ht Hl. unfold handleBACnetAPDU.
  destruct (Z.ltb_spec (len data) 2) as [E2|E2]; [lia|].
  rewrite ParseAPDU_unconfirmed by done.
  cbn [PDUType InvokeID ServiceChoice Payload]. reflexivity.
Qed.

End Routing.

(** * Further properties of the service handlers *)

(** ** ReadProperty *)

Section ReadPropertyService.

Implicit Types (s : BACnetServer) (dev : Device) (oid : ObjectIdentifier).

Lemma slice_from_encoded oid rest :
  slice_from (encodeObjectIdentifier oid ++ rest) 4 = rest.
Proof. reflexivity. Qed.

Lemma handleReadProperty_parsed s oid pid rest invokeID :
  wireIdentifier oid -> 0 <= pid <= 65535 ->
  handleReadProperty s (readPropertyRequest oid pid rest) invokeID
  = match device s with
    | None => Panicked
    | Some dev =>
        match findTarget dev oid with
        | None =>
            Response (createErrorResponse invokeID
                        BACnetServiceConfirmedReadProperty
                        ErrorClassObject ErrorCodeObjectNotExist)
        | Some target =>
            match ReadProperty (targetBase dev target) pid with
            | None =>
                Response (createErrorResponse invokeID
                            BACnetServiceConfirmedReadProperty
                            ErrorClassProperty ErrorCodePropertyNotExist)
            | Some value =>
                Response ([3; 0; invokeID;
                           byte (len (encodeBACnetValue (dynamicOf value)) + 4);
                           12; 12]
                          ++ encodeBACnetValue (dynamicOf value))
            end
        end
    end.
Proof.
  intros [Ht Hi] Hp. unfold handleReadProperty, readPropertyRequest.
  rewrite parseObjectIdentifier_encoded by done.
  rewrite slice_from_encoded.
  rewrite (proj1 (parsePropertyIdentifier_encoded pid rest)) by done.
  destruct (device s) as [dev|]; [|done].
  destruct (findTarget dev oid) as [target|]; [|done].
  destruct (ReadProperty (targetBase dev target) pid) as [value|]; done.
Qed.

(** X21. A ReadProperty request for an object the server finds and a
    property that has a value is answered with a ComplexAck that echoes
    the invoke id and carries the value as [encodeBACnetValue] emits it:
    for a bool, uint8, uint16, uint32, float32 or short string
    [decodeBACnetValue] reads the value back from the reply; for a stored
    int, float64, [EventState] or [FileAccessMethod] the reply carries the
    single byte 0, which [decodeBACnetValue] rejects. *)
Theorem handleReadProperty_value s dev oid pid rest invokeID target value :
  device s = Some dev ->
  wireIdentifier oid -> 0 <= pid <= 65535 ->
  findTarget dev oid = Some target ->
  ReadProperty (targetBase dev target) pid = Some value ->
  let body := encodeBACnetValue (dynamicOf value) in
  handleReadProperty s (readPropertyRequest oid pid rest) invokeID
  = Response ([3; 0; invokeID; byte (len body + 4); 12; 12] ++ body)
  /\ (encodable (dynamicOf value) ->
      decodeBACnetValue body = Ok (dynamicOf value, len body))
  /\ (dynamicOf value = DOther ->
      body = [0] /\ exists msg, decodeBACnetValue body = Err msg).
Proof.
  intros Hdev Hoid Hpid Htarget Hread body. subst body.
  rewrite handleReadProperty_parsed, Hdev, Htarget, Hread by done.
  split; [done|]. split.
  - intros Henc.
    pose proof (decodeBACnetValue_encoded (dynamicOf value) [] Henc) as H.
    by rewrite app_nil_r in H.
  - intros ->. split; [done|]. by eexists.
Qed.

(** X22. The error replies of ReadProperty: a request of fewer than six
    bytes is answered with error class Service, code ValueOutOfRange; an
    identifier that is neither the device nor in its object list with
    class Object, code ObjectNotExist; a property with no value with
    class Property, code PropertyNotExist. *)
Theorem handleReadProperty_errors s dev oid pid rest invokeID :
  device s = Some dev ->
  (forall data, len data < 6 ->
     handleReadProperty s data invokeID = Response [5; 0; invokeID; 3; 12; 4; 5])
  /\ (wireIdentifier oid -> 0 <= pid <= 65535 ->
      findTarget dev oid = None ->
      handleReadProperty s (readPropertyRequest oid pid rest) invokeID
      = Response [5; 0; invokeID; 3; 12; 2; 1])
  /\ (wireIdentifier oid -> 0 <= pid <= 65535 ->
      forall target,
        findTarget dev oid = Some target ->
        ReadProperty (targetBase dev target) pid = None ->
        handleReadProperty s (readPropertyRequest oid pid rest) invokeID
        = Response [5; 0; invokeID; 3; 12; 3; 2]).
Proof.
  intros Hdev. split; [|split].
  - intros data Hlen. unfold handleReadProperty, parseObjectIdentifier.
    destruct (Z.ltb_spec (len data) 4) as [E|E]; [done|].
    unfold parsePropertyIdentifier.
    assert (Hs : (len (slice_from data 4) <? 2) = true).
    { unfold slice_from, len in *. rewrite length_drop. apply Z.ltb_lt. lia. }
    by rewrite Hs.
  - intros Hoid Hpid Hnone.
    by rewrite handleReadProperty_parsed, Hdev, Hnone.
  - intros Hoid Hpid target Htarget Hread.
    by rewrite handleReadProperty_parsed, Hdev, Htarget, Hread.
Qed.

End ReadPropertyService.

(** ** File services *)

(** Reduces the indices into a literal list. *)
Ltac index_literals :=
  repeat match goal with
  | |- context [Z.to_nat ?k] =>
      let n := eval vm_compute in (Z.to_nat k) in
      change (Z.to_nat k) with n
  end;
  cbn [nth].

Section FileServices.

Implicit Types (s : BACnetServer) (dev : Device) (f : BACnetFile)
  (fileID : ObjectIdentifier).

Lemma WritePropertyWithPriority_identifier o prop value priority now :
  Identifier (wrObject (WritePropertyWithPriority o prop value priority now))
  = Identifier o.
Proof.
  unfold WritePropertyWithPriority.
  repeat match goal with
  | |- context [if ?b then _ else _] => destruct b
  | |- context [match ReadProperty ?x ?p with _ => _ end] =>
      destruct (ReadProperty x p)
  end; cbv zeta; try reflexivity;
  unfold NotifySubscribers;
  match goal with
  | |- context [notifyLoop ?a ?b ?c ?d ?e] => destruct (notifyLoop a b c d e)
  end; reflexivity.
Qed.

Lemma WriteFile_identifier f start data now f' sent :
  WriteFile f start data now = Some (f', sent) ->
  Identifier (fileBase f') = Identifier (fileBase f).
Proof.
  unfold WriteFile.
  match goal with |- context [if ?b then None else _] => destruct b end;
    [discriminate|].
  intros [= <- _]. apply WritePropertyWithPriority_identifier.
Qed.

Lemma DeleteFile_identifier f now :
  Identifier (fileBase (DeleteFile f now).1) = Identifier (fileBase f).
Proof. apply WritePropertyWithPriority_identifier. Qed.

(** The object found under an identifier after the first object with that
    identifier has been replaced by one with the same identifier. *)
Lemma findIn_replaceIn objs identifier old new :
  findIn objs identifier = Some old ->
  GetObjectIdentifier new = identifier ->
  findIn (replaceIn objs identifier new) identifier = Some new.
Proof.
  intros Hfind Hnew. induction objs as [|x objs IH]; [done|].
  cbn [findIn replaceIn] in *.
  destruct (bool_decide (GetObjectIdentifier x = identifier)) eqn:E.
  - cbn [findIn]. by rewrite bool_decide_eq_true_2.
  - cbn [findIn]. rewrite E. by apply IH.
Qed.

Lemma findIn_replaceIn_other objs identifier new other :
  GetObjectIdentifier new = identifier -> other <> identifier ->
  findIn (replaceIn objs identifier new) other = findIn objs other.
Proof.
  intros Hnew Hother. induction objs as [|x objs IH]; [done|].
  cbn [findIn replaceIn].
  destruct (bool_decide (GetObjectIdentifier x = identifier)) eqn:E.
  - apply bool_decide_eq_true in E. cbn [findIn].
    rewrite !bool_decide_eq_false_2; [done|congruence|congruence].
  - cbn [findIn]. by rewrite IH.
Qed.

Lemma at_word_app x rest :
  0 <= x < 4294967296 ->
  be32 (at_ (word x ++ rest) 0) (at_ (word x ++ rest) 1)
       (at_ (word x ++ rest) 2) (at_ (word x ++ rest) 3) = x.
Proof. intros Hx. unfold word. cbn [app]. by apply be32_octets. Qed.

Lemma parseFileReadRequest_encoded fileID start count rest :
  wireIdentifier fileID ->
  0 <= start < 4294967296 -> 0 <= count < 4294967296 ->
  parseFileReadRequest (atomicReadFileRequest fileID start count ++ rest)
  = Ok {| FileID := fileID; StartOffset := start; ReadCount := count |}.
Proof.
  intros [Ht Hi] Hs Hc. unfold parseFileReadRequest, atomicReadFileRequest.
  rewrite <- !app_assoc.
  rewrite parseObjectIdentifier_encoded by done.
  assert (Hlen : (len (encodeObjectIdentifier fileID
                        ++ word start ++ word count ++ rest) <? 12) = false).
  { apply Z.ltb_ge. unfold len. rewrite !length_app. cbn [length
      encodeObjectIdentifier word]. lia. }
  rewrite Hlen. cbn [mbind Res_bind].
  unfold at_, word. cbn [encodeObjectIdentifier app].
  index_literals. by rewrite !be32_octets.
Qed.

Lemma parseFileWriteRequest_encoded fileID start data :
  wireIdentifier fileID ->
  0 <= start < 4294967296 -> 4 <= len data < 4294967296 ->
  parseFileWriteRequest (atomicWriteFileRequest fileID start data)
  = Ok {| wFileID := fileID; wStartOffset := start; WriteData := data |}.
Proof.
  intros [Ht Hi] Hs Hd. unfold parseFileWriteRequest, atomicWriteFileRequest.
  rewrite parseObjectIdentifier_encoded by done.
  assert (Hlen : len (encodeObjectIdentifier fileID
                      ++ word start ++ word (len data) ++ data)
                 = 12 + len data).
  { unfold len. rewrite !length_app.
    cbn [length encodeObjectIdentifier word]. lia. }
  rewrite Hlen.
  destruct (Z.ltb_spec (12 + len data) 16) as [E|_]; [lia|].
  cbn [mbind Res_bind].
  assert (Hwords :
    be32 (at_ (encodeObjectIdentifier fileID
               ++ word start ++ word (len data) ++ data) 4)
         (at_ (encodeObjectIdentifier fileID
               ++ word start ++ word (len data) ++ data) (4 + 1))
         (at_ (encodeObjectIdentifier fileID
               ++ word start ++ word (len data) ++ data) (4 + 2))
         (at_ (encodeObjectIdentifier fileID
               ++ word start ++ word (len data) ++ data) (4 + 3)) = start
    /\ be32 (at_ (encodeObjectIdentifier fileID
                  ++ word start ++ word (len data) ++ data) (4 + 4))
            (at_ (encodeObjectIdentifier fileID
                  ++ word start ++ word (len data) ++ data) (4 + 5))
            (at_ (encodeObjectIdentifier fileID
                  ++ word start ++ word (len data) ++ data) (4 + 6))
            (at_ (encodeObjectIdentifier fileID
                  ++ word start ++ word (len data) ++ data) (4 + 7))
       = len data).
  { unfold at_, word. cbn [encodeObjectIdentifier app]. index_literals.
    rewrite !be32_octets by lia. done. }
  destruct Hwords as [-> ->].
  destruct (Z.gtb_spec (4 + 8 + len data) (12 + len data)) as [E|_]; [lia|].
  do 2 f_equal. unfold slice.
  replace (Z.to_nat (4 + 8 + len data - (4 + 8))) with (length data)
    by (unfold len; lia).
  change (Z.to_nat (4 + 8)) with 12%nat.
  cbn [encodeObjectIdentifier word app drop]. apply firstn_all.
Qed.

Lemma FindObject_withObject dev fileID old new :
  FindObject dev fileID = Some old ->
  GetObjectIdentifier new = fileID ->
  FindObject (withObject dev fileID new) fileID = Some new
  /\ forall other, other <> fileID ->
       FindObject (withObject dev fileID new) other = FindObject dev other.
Proof.
  intros Hold Hnew. unfold FindObject, withObject. cbn [Objects]. split.
  - by eapply findIn_replaceIn.
  - intros other Hother. by apply findIn_replaceIn_other.
Qed.

Lemma FindObject_identifier dev fileID obj :
  FindObject dev fileID = Some obj -> GetObjectIdentifier obj = fileID.
Proof.
  intros H. apply findIn_some in H as (l1 & l2 & _ & Hid & _). exact Hid.
Qed.

(** X23. What AtomicWriteFile wrote, AtomicReadFile returns: after a
    write of at least four bytes to a file object of the list, a read of
    the same offset and length on the resulting server is answered with
    the offset, the length and exactly the written bytes. *)
Theorem handleAtomicWriteFile_then_Read
    s dev fileID f start data invokeID invokeID' now :
  device s = Some dev -> wireIdentifier fileID ->
  FindObject dev fileID = Some (ObjFile f) ->
  len (FileData f) < 4294967296 ->
  0 <= start -> start + len data < 4294967296 -> 4 <= len data ->
  exists s' sent,
    handleAtomicWriteFile s (atomicWriteFileRequest fileID start data)
      invokeID now
    = (s', sent, Response [3; 0; invokeID; 4; 21; 0; 0; 0])
    /\ handleAtomicReadFile s'
         (atomicReadFileRequest fileID start (len data)) invokeID'
       = Response ([3; 0; invokeID'; byte (len data + 9); 20; 2; 4]
                   ++ word start ++ [4] ++ word (len data) ++ data).
Proof.
  intros Hdev Hid Hfind Hlen Hs Hfit Hd.
  assert (Hd0 : 0 <= len data) by (unfold len; lia).
  unfold handleAtomicWriteFile.
  rewrite parseFileWriteRequest_encoded by (done || lia).
  cbn [wFileID wStartOffset WriteData]. rewrite Hdev, Hfind.
  destruct (WriteFile_data f start data now Hlen Hs Hfit)
    as (f' & sent & Hw & _ & Hdata).
  rewrite Hw. eexists _, sent. split; [reflexivity|].
  pose proof (FindObject_identifier _ _ _ Hfind) as Hfid.
  cbn [GetObjectIdentifier] in Hfid.
  pose proof (WriteFile_identifier _ _ _ _ _ _ Hw) as Hid'.
  destruct (FindObject_withObject dev fileID (ObjFile f) (ObjFile f') Hfind)
    as [Hfound _]; [cbn [GetObjectIdentifier]; congruence|].
  unfold handleAtomicReadFile.
  rewrite <- (app_nil_r (atomicReadFileRequest _ _ _)).
  rewrite parseFileReadRequest_encoded by (done || lia).
  cbn [withDevice device FileID StartOffset ReadCount]. rewrite Hfound.
  pose proof (WriteFile_sizeAgrees f start data now f' sent Hlen Hw)
    as [Hlen' _].
  rewrite ReadFile_take; [|done|done|lia|done].
  assert (Hread : take (Z.to_nat (len data))
                    (drop (Z.to_nat start) (FileData f')) = data).
  { rewrite Hdata, drop_app_length'.
    - unfold len. rewrite Nat2Z.id. by rewrite take_app_length.
    - rewrite length_take, length_app, length_replicate. unfold len in *. lia. }
  rewrite Hread. reflexivity.
Qed.

(** X24. An AtomicWriteFile request that carries fewer than four data
    bytes is shorter than the sixteen bytes the parser insists on: it is
    answered with error class Service, code ValueOutOfRange, and nothing
    is written, whatever the file identifier. *)
Theorem handleAtomicWriteFile_short_data s fileID start data invokeID now :
  len data < 4 ->
  handleAtomicWriteFile s (atomicWriteFileRequest fileID start data)
    invokeID now
  = (s, [], Response [5; 0; invokeID; 3; 21; 4; 5]).
Proof.
  intros Hd. unfold handleAtomicWriteFile, parseFileWriteRequest.
  assert (Hlen : (len (atomicWriteFileRequest fileID start data) <? 16) = true).
  { apply Z.ltb_lt. unfold atomicWriteFileRequest, len in *.
    rewrite !length_app. cbn [length encodeObjectIdentifier word]. lia. }
  by rewrite Hlen.
Qed.

(** X25. After DeleteFile on a file object of the list, AtomicReadFile
    of any offset and count on the resulting server returns zero bytes. *)
Theorem handleDeleteFile_then_Read
    s dev fileID f rest start count invokeID invokeID' now :
  device s = Some dev -> wireIdentifier fileID ->
  FindObject dev fileID = Some (ObjFile f) ->
  0 <= start < 4294967296 -> 0 <= count < 4294967296 ->
  exists s' sent,
    handleDeleteFile s (encodeObjectIdentifier fileID ++ rest) invokeID now
    = (s', sent, Response [3; 0; invokeID; 4; 22; 0; 0; 0])
    /\ handleAtomicReadFile s' (atomicReadFileRequest fileID start count)
         invokeID'
       = Response ([3; 0; invokeID'; 9; 20; 2; 4] ++ word start
                   ++ [4; 0; 0; 0; 0]).
Proof.
  intros Hdev Hid Hfind Hs Hc.
  unfold handleDeleteFile, parseFileDeleteRequest.
  assert (Hlen : (len (encodeObjectIdentifier fileID ++ rest) <? 4) = false).
  { apply Z.ltb_ge. unfold len. rewrite length_app.
    cbn [length encodeObjectIdentifier]. lia. }
  rewrite Hlen. destruct Hid as [Ht Hi].
  rewrite parseObjectIdentifier_encoded by done.
  cbn [mbind Res_bind]. rewrite Hdev, Hfind.
  destruct (DeleteFile f now) as [f' sent] eqn:Hdel.
  eexists _, sent. split; [reflexivity|].
  pose proof (FindObject_identifier _ _ _ Hfind) as Hfid.
  cbn [GetObjectIdentifier] in Hfid.
  pose proof (DeleteFile_identifier f now) as Hid'. rewrite Hdel in Hid'.
  cbn [fst] in Hid'.
  destruct (FindObject_withObject dev fileID (ObjFile f) (ObjFile f') Hfind)
    as [Hfound _]; [cbn [GetObjectIdentifier]; congruence|].
  unfold handleAtomicReadFile.
  rewrite <- (app_nil_r (atomicReadFileRequest _ _ _)).
  rewrite parseFileReadRequest_encoded by done.
  cbn [withDevice device FileID StartOffset ReadCount]. rewrite Hfound.
  assert (Hdata : FileData f' = []).
  { unfold DeleteFile in Hdel. by injection Hdel as <- _. }
  unfold ReadFile. rewrite Hdata.
  change (uint32 (len [])) with 0.
  destruct (Z.geb_spec start 0) as [_|E]; [|lia]. reflexivity.
Qed.

Lemma findTarget_object dev oid :
  Type_ oid <> ObjectTypeDevice ->
  findTarget dev oid
  = match FindObject dev oid with
    | Some obj => Some (TargetObject obj)
    | None => None
    end.
Proof.
  intros Ht. unfold findTarget.
  destruct (Z.eqb_spec (Type_ oid) ObjectTypeDevice); [done|]. reflexivity.
Qed.

(** X26. After AtomicWriteFile, a ReadProperty of [FileSize] on the
    resulting server reports, as a 32-bit unsigned value, the larger of
    the old length and the end offset of the write. *)
Theorem handleAtomicWriteFile_file_size
    s dev fileID f start data invokeID invokeID' now :
  device s = Some dev -> wireIdentifier fileID ->
  Type_ fileID <> ObjectTypeDevice ->
  FindObject dev fileID = Some (ObjFile f) ->
  len (FileData f) < 4294967296 ->
  0 <= start -> start + len data < 4294967296 -> 4 <= len data ->
  exists s' sent,
    handleAtomicWriteFile s (atomicWriteFileRequest fileID start data)
      invokeID now
    = (s', sent, Response [3; 0; invokeID; 4; 21; 0; 0; 0])
    /\ handleReadProperty s'
         (readPropertyRequest fileID PropertyIdentifierFileSize []) invokeID'
       = Response ([3; 0; invokeID'; 9; 12; 12; 35]
                   ++ word (Z.max (len (FileData f)) (start + len data))).
Proof.
  intros Hdev Hid Hty Hfind Hlen Hs Hfit Hd.
  assert (Hd0 : 0 <= len data) by (unfold len; lia).
  unfold handleAtomicWriteFile.
  rewrite parseFileWriteRequest_encoded by (done || lia).
  cbn [wFileID wStartOffset WriteData]. rewrite Hdev, Hfind.
  destruct (WriteFile_data f start data now Hlen Hs Hfit)
    as (f' & sent & Hw & _ & Hdata).
  rewrite Hw. eexists _, sent. split; [reflexivity|].
  pose proof (FindObject_identifier _ _ _ Hfind) as Hfid.
  cbn [GetObjectIdentifier] in Hfid.
  pose proof (WriteFile_identifier _ _ _ _ _ _ Hw) as Hid'.
  destruct (FindObject_withObject dev fileID (ObjFile f) (ObjFile f') Hfind)
    as [Hfound _]; [cbn [GetObjectIdentifier]; congruence|].
  rewrite handleReadProperty_parsed by (done || unfold PropertyIdentifierFileSize; lia).
  cbn [withDevice device]. rewrite findTarget_object, Hfound by done.
  cbn [targetBase baseOf].
  pose proof (WriteFile_sizeAgrees f start data now f' sent Hlen Hw)
    as [Hlen' Hsize].
  rewrite Hsize. cbn [dynamicOf encodeBACnetValue].
  assert (Hnew : len (FileData f')
                 = Z.max (len (FileData f)) (start + len data)).
  { rewrite Hdata. unfold len in *.
    rewrite !length_app, length_take, length_app, length_replicate,
      length_drop. lia. }
  rewrite Hnew. reflexivity.
Qed.

End FileServices.

(** ** Subscription services *)

Section SubscriptionServices.

Implicit Types (s : BACnetServer) (dev : Device) (oid : ObjectIdentifier).

Lemma generateSubscriptionID_range nanos counter :
  0 <= (generateSubscriptionID nanos counter).1 < 4294967296.
Proof.
  unfold generateSubscriptionID. cbn [fst].
  set (t := uint32 (Z.shiftr nanos 32)).
  set (c := uint32 (counter + 1)).
  assert (H : Z.land (Z.lor (Z.land t 4294901760) (Z.land c 65535))
                (Z.ones 32)
              = Z.lor (Z.land t 4294901760) (Z.land c 65535)).
  { rewrite Z.land_lor_distr_l, <- !Z.land_assoc. reflexivity. }
  rewrite Z.land_ones in H by lia. rewrite <- H.
  apply Z.mod_pos_bound. lia.
Qed.

Lemma parseSubscribeCOVRequest_encoded oid tail :
  wireIdentifier oid -> 12 <= len tail ->
  exists request,
    parseSubscribeCOVRequest (encodeObjectIdentifier oid ++ tail) = Ok request
    /\ reqObjectID request = oid
    /\ reqLifetime request
       = be32 (at_ tail 1) (at_ tail 2) (at_ tail 3) (at_ tail 4)
    /\ reqIssueConfirmedNotif request = (Z.land (at_ tail 5) 1 =? 1).
Proof.
  intros [Ht Hi] Hlen. unfold parseSubscribeCOVRequest.
  assert (Hl : len (encodeObjectIdentifier oid ++ tail) = 4 + len tail).
  { unfold len. rewrite length_app. cbn [length encodeObjectIdentifier]. lia. }
  rewrite Hl.
  destruct (Z.ltb_spec (4 + len tail) 16); [lia|].
  rewrite parseObjectIdentifier_encoded by done. cbn [mbind Res_bind].
  destruct (Z.gtb_spec (4 + len tail) (4 + 1 + 4)); [|lia].
  eexists. split; [reflexivity|]. cbn [reqObjectID reqLifetime
    reqIssueConfirmedNotif].
  split; [done|].
  unfold at_. cbn [encodeObjectIdentifier app].
  repeat match goal with
  | |- context [Z.to_nat ?k] =>
      let n := eval vm_compute in (Z.to_nat k) in
      change (Z.to_nat k) with n
  end.
  cbn [nth]. done.
Qed.

Lemma parseCancelCOVSubscriptionRequest_id data :
  4 <= len data ->
  exists request,
    parseCancelCOVSubscriptionRequest data = Ok request
    /\ cancelSubscriptionID request
       = be32 (at_ data 0) (at_ data 1) (at_ data 2) (at_ data 3).
Proof.
  intros Hlen. unfold parseCancelCOVSubscriptionRequest.
  destruct (Z.ltb_spec (len data) 4); [lia|].
  repeat match goal with
  | |- context [let '(_, _) := ?e in _] => destruct e
  end.
  eexists. split; [reflexivity|]. reflexivity.
Qed.

Lemma replaceIn_split l1 obj l2 identifier new :
  GetObjectIdentifier obj = identifier ->
  (forall x, x ∈ l1 -> GetObjectIdentifier x <> identifier) ->
  replaceIn (l1 ++ obj :: l2) identifier new = l1 ++ new :: l2.
Proof.
  intros Hobj. induction l1 as [|x l1 IH]; intros Hl1; cbn [replaceIn app].
  - by rewrite bool_decide_eq_true_2.
  - rewrite bool_decide_eq_false_2 by (apply Hl1; by left).
    rewrite IH; [done|]. intros y Hy. apply Hl1. by right.
Qed.

Lemma cancelIn_none objs id :
  unusedID objs id -> cancelIn objs id = None.
Proof.
  induction objs as [|obj objs IH]; intros H; cbn [cancelIn]; [done|].
  assert (Hrest : unusedID objs id).
  { intros o Ho. apply H. by right. }
  destruct obj as [o|f].
  - unfold RemoveCOVSubscription.
    rewrite removeFirst_none by (apply H; by left).
    by rewrite IH.
  - by rewrite IH.
Qed.

Lemma cancelIn_first l1 o sub l2 :
  unusedID l1 (SubscriptionID sub) ->
  (forall x, x ∈ Subscriptions o -> SubscriptionID x <> SubscriptionID sub) ->
  cancelIn (l1 ++ ObjBase (AddCOVSubscription o sub) :: l2) (SubscriptionID sub)
  = Some (l1 ++ ObjBase o :: l2).
Proof.
  intros Hl1 Ho. induction l1 as [|x l1 IH]; cbn [cancelIn app].
  - unfold RemoveCOVSubscription, AddCOVSubscription.
    cbn [set_Subscriptions Subscriptions].
    rewrite (removeFirst_first (Subscriptions o) sub [] _ eq_refl Ho).
    rewrite app_nil_r. by destruct o.
  - assert (Hrest : unusedID l1 (SubscriptionID sub)).
    { intros y Hy. apply Hl1. by right. }
    destruct x as [y|f].
    + unfold RemoveCOVSubscription.
      rewrite removeFirst_none by (apply Hl1; by left).
      by rewrite IH.
    + by rewrite IH.
Qed.

Lemma cancelIn_some objs id :
  ~ unusedID objs id -> exists objs', cancelIn objs id = Some objs'.
Proof.
  induction objs as [|obj objs IH]; intros H.
  - exfalso. apply H. intros o Ho. by apply elem_of_nil in Ho.
  - cbn [cancelIn]. destruct obj as [o|f].
    + unfold RemoveCOVSubscription.
      destruct (removeFirst (Subscriptions o) id) as [subs|] eqn:E;
        [by eexists|].
      destruct (cancelIn objs id) as [objs'|] eqn:E'; [by eexists|].
      exfalso. apply H. intros o' Ho' sub Hsub Hid.
      apply elem_of_cons in Ho' as [[= ->]|Ho'].
      * clear -E Hsub Hid. induction (Subscriptions o) as [|x l IHl];
          [by apply elem_of_nil in Hsub|].
        cbn [removeFirst] in E.
        destruct (Z.eqb_spec (SubscriptionID x) id) as [|Hne]; [done|].
        destruct (removeFirst l id); [done|].
        apply elem_of_cons in Hsub as [->|Hsub]; [done|]. by apply IHl.
      * destruct IH as [? IH]; [|congruence].
        intros Hun. apply (Hun o' Ho' sub Hsub Hid).
    + destruct (cancelIn objs id) as [objs'|] eqn:E'; [by eexists|].
      exfalso. apply H. intros o' Ho' sub Hsub Hid.
      apply elem_of_cons in Ho' as [[=]|Ho'].
      destruct IH as [? IH]; [|congruence].
      intros Hun. apply (Hun o' Ho' sub Hsub Hid).
Qed.

Lemma cancel_request_id id rest :
  0 <= id < 4294967296 ->
  exists request,
    parseCancelCOVSubscriptionRequest (word id ++ rest) = Ok request
    /\ cancelSubscriptionID request = id.
Proof.
  intros Hid.
  destruct (parseCancelCOVSubscriptionRequest_id (word id ++ rest))
    as (request & Hparse & Hreq).
  { unfold len. rewrite length_app. cbn [length word]. lia. }
  exists request. split; [done|]. rewrite Hreq. by apply at_word_app.
Qed.

(** X27. SubscribeCOV on a plain object of the list appends one
    subscription to all properties for the address of the requesting
    client, returns its id in the ComplexAck and increments the counter;
    when no plain object held that id before, CancelCOVSubscription with
    the returned id is acknowledged and restores the server exactly. *)
Theorem handleSubscribeCOV_then_Cancel
    s dev oid bacObj tail rest invokeID invokeID' nanos now counter :
  device s = Some dev -> wireIdentifier oid ->
  FindObject dev oid = Some (ObjBase bacObj) ->
  12 <= len tail ->
  let id := (generateSubscriptionID nanos counter).1 in
  unusedID (Objects dev) id ->
  exists s' dev' sub,
    handleSubscribeCOV s (encodeObjectIdentifier oid ++ tail) invokeID
      nanos now counter
    = (s', uint32 (counter + 1),
       Response ([3; 0; invokeID; 8; 14; 4] ++ word id))
    /\ device s' = Some dev'
    /\ FindObject dev' oid = Some (ObjBase (AddCOVSubscription bacObj sub))
    /\ SubscriptionID sub = id
    /\ ClientAddress sub = currentClientAddr s
    /\ MonitoredProperties sub = []
    /\ handleCancelCOVSubscription s' (word id ++ rest) invokeID'
       = (s, Response [3; 0; invokeID'; 4; 37; 0; 0; 0]).
Proof.
  intros Hdev Hoid Hfind Htail id Hfresh.
  destruct (parseSubscribeCOVRequest_encoded oid tail Hoid Htail)
    as (request & Hparse & Hobj & _).
  pose proof (generateSubscriptionID_range nanos counter) as Hrange.
  fold id in Hrange.
  unfold handleSubscribeCOV. rewrite Hparse, Hdev, Hobj, Hfind.
  assert (Hgen : generateSubscriptionID nanos counter
                 = (id, uint32 (counter + 1))) by reflexivity.
  rewrite Hgen.
  set (sub := {| SubscriptionID := id;
                 DeviceID := Instance_ (Identifier (devBase dev));
                 SubObjectIdentifier := oid;
                 Lifetime := reqLifetime request;
                 IssueConfirmedCOVNotifications := reqIssueConfirmedNotif request;
                 MonitoredProperties := [];
                 Timestamp := now;
                 ClientAddress := currentClientAddr s |}).
  pose proof Hfind as Hsplit.
  apply findIn_some in Hsplit as (l1 & l2 & Hobjs & Hident & Hl1).
  assert (Hnew : GetObjectIdentifier (ObjBase (AddCOVSubscription bacObj sub))
                 = oid) by done.
  destruct (FindObject_withObject dev oid (ObjBase bacObj)
              (ObjBase (AddCOVSubscription bacObj sub)) Hfind Hnew)
    as [Hfound _].
  eexists _, _, sub. split; [reflexivity|].
  split; [reflexivity|]. split; [exact Hfound|].
  split; [done|]. split; [done|]. split; [done|].
  unfold handleCancelCOVSubscription.
  destruct (cancel_request_id id rest Hrange) as (creq & -> & ->).
  cbn [withDevice device withObject Objects devBase].
  rewrite Hobjs, (replaceIn_split l1 _ l2 oid _ Hident Hl1).
  assert (Hun1 : unusedID l1 (SubscriptionID sub)).
  { intros o Ho. apply Hfresh. rewrite Hobjs. apply elem_of_app. by left. }
  assert (Hun2 : forall x, x ∈ Subscriptions bacObj ->
                           SubscriptionID x <> SubscriptionID sub).
  { apply Hfresh. rewrite Hobjs. apply elem_of_app. right. by left. }
  change id with (SubscriptionID sub).
  rewrite (cancelIn_first l1 bacObj sub l2 Hun1 Hun2).
  f_equal. destruct s as [d r c]. cbn [device] in Hdev. subst d.
  destruct dev as [base objs]. cbn [Objects] in Hobjs. subst objs.
  reflexivity.
Qed.

(** X28. CancelCOVSubscription is answered with error class Cov, code
    CovObject, the server unchanged, when no plain object of the list
    holds a subscription with the id, and with a SimpleAck when one does;
    a request of fewer than four bytes is answered with class Service,
    code ValueOutOfRange. *)
Theorem handleCancelCOVSubscription_unknown s dev id rest invokeID :
  device s = Some dev -> 0 <= id < 4294967296 ->
  (unusedID (Objects dev) id ->
   handleCancelCOVSubscription s (word id ++ rest) invokeID
   = (s, Response [5; 0; invokeID; 3; 37; 9; 1]))
  /\ (~ unusedID (Objects dev) id ->
      exists s',
        handleCancelCOVSubscription s (word id ++ rest) invokeID
        = (s', Response [3; 0; invokeID; 4; 37; 0; 0; 0]))
  /\ (forall data, len data < 4 ->
      handleCancelCOVSubscription s data invokeID
      = (s, Response [5; 0; invokeID; 3; 37; 4; 5])).
Proof.
  intros Hdev Hid. split; [|split].
  - intros Hun. unfold handleCancelCOVSubscription.
    destruct (cancel_request_id id rest Hid) as (creq & -> & ->).
    by rewrite Hdev, cancelIn_none.
  - intros Hused. unfold handleCancelCOVSubscription.
    destruct (cancel_request_id id rest Hid) as (creq & -> & ->).
    rewrite Hdev. destruct (cancelIn_some _ _ Hused) as [objs' ->].
    by eexists.
  - intros data Hlen.
    unfold handleCancelCOVSubscription, parseCancelCOVSubscriptionRequest.
    destruct (Z.ltb_spec (len data) 4); [done|lia].
Qed.

End SubscriptionServices.

(** ** AcknowledgeAlarm and the shape of replies *)

Section Alarm.

Implicit Types (s : BACnetServer) (dev : Device) (oid : ObjectIdentifier).

Lemma parseAcknowledgeAlarmData_encoded oid tail :
  wireIdentifier oid -> 12 <= len tail ->
  exists alarmCode alarmType timeStamp,
    parseAcknowledgeAlarmData (encodeObjectIdentifier oid ++ tail)
    = Ok (oid, alarmCode, alarmType, timeStamp).
Proof.
  intros [Ht Hi] Hlen. unfold parseAcknowledgeAlarmData.
  assert (Hl : len (encodeObjectIdentifier oid ++ tail) = 4 + len tail).
  { unfold len. rewrite length_app. cbn [length encodeObjectIdentifier]. lia. }
  rewrite Hl. destruct (Z.ltb_spec (4 + len tail) 16); [lia|].
  rewrite parseObjectIdentifier_encoded by done. cbn [mbind Res_bind].
  by eexists _, _, _.
Qed.

(** The property map after a write at the default priority. *)
Lemma WriteProperty_entry o prop value now q :
  propertyEntry (wrObject (WriteProperty o prop value now)) q
  = if decide (prop = q) then Some value else propertyEntry o q.
Proof.
  unfold WriteProperty.
  destruct (WritePropertyWithPriority_valid o prop value 16 now ltac:(lia))
    as (_ & Hps & _).
  unfold propertyEntry. rewrite Hps. unfold stored.
  cbn [Z.eqb Pos.eqb set_maps Properties].
  rewrite lookup_insert. destruct (decide (prop = q)); [done|].
  destruct (Properties o); [done|]. apply lookup_empty.
Qed.

Lemma findTarget_found dev oid obj :
  findTarget dev oid = Some (TargetObject obj) ->
  FindObject dev oid = Some obj.
Proof.
  unfold findTarget.
  destruct ((Type_ oid =? ObjectTypeDevice)
            && (Instance_ oid =? Instance_ (Identifier (devBase dev))));
    [discriminate|].
  destruct (FindObject dev oid); [|discriminate]. by intros [= ->].
Qed.

(** X29. AcknowledgeAlarm never panics on a well-formed request.  On a
    plain object it stores the untyped constant 0 as event state - an
    [int], so [GetEventState] falls back to Normal - and clears the
    InAlarm bit of the status flags, keeping the other bits; on the device
    itself and on a file object the event state is written but the status
    flags are left as they were; an unknown object is answered with class
    Object, code ObjectNotExist, the server unchanged. *)
Theorem handleAcknowledgeAlarm_clears s dev oid tail invokeID now :
  device s = Some dev -> wireIdentifier oid -> 12 <= len tail ->
  (forall obj,
     findTarget dev oid = Some (TargetObject (ObjBase obj)) ->
     exists s' dev' obj' sent,
       handleAcknowledgeAlarm s (encodeObjectIdentifier oid ++ tail)
         invokeID now
       = (s', sent, Response [3; 0; invokeID; 4; 15; 0; 0; 0])
       /\ device s' = Some dev'
       /\ FindObject dev' oid = Some (ObjBase obj')
       /\ propertyEntry obj' PropertyIdentifierEventState
          = Some (Some (VInt 0))
       /\ GetEventState obj' = EventStateNormal
       /\ GetStatusFlags obj'
          = Z.ldiff (GetStatusFlags obj) StatusFlagInAlarm)
  /\ (findTarget dev oid = Some TargetDevice ->
      exists s' dev' sent,
        handleAcknowledgeAlarm s (encodeObjectIdentifier oid ++ tail)
          invokeID now
        = (s', sent, Response [3; 0; invokeID; 4; 15; 0; 0; 0])
        /\ device s' = Some dev'
        /\ GetEventState (devBase dev') = EventStateNormal
        /\ GetStatusFlags (devBase dev') = GetStatusFlags (devBase dev))
  /\ (forall f,
        findTarget dev oid = Some (TargetObject (ObjFile f)) ->
        exists s' dev' f' sent,
          handleAcknowledgeAlarm s (encodeObjectIdentifier oid ++ tail)
            invokeID now
          = (s', sent, Response [3; 0; invokeID; 4; 15; 0; 0; 0])
          /\ device s' = Some dev'
          /\ FindObject dev' oid = Some (ObjFile f')
          /\ FileData f' = FileData f
          /\ GetEventState (fileBase f') = EventStateNormal
          /\ GetStatusFlags (fileBase f') = GetStatusFlags (fileBase f))
  /\ (findTarget dev oid = None ->
      handleAcknowledgeAlarm s (encodeObjectIdentifier oid ++ tail)
        invokeID now
      = (s, [], Response [5; 0; invokeID; 3; 15; 2; 1])).
Proof.
  intros Hdev Hoid Htail.
  destruct (parseAcknowledgeAlarmData_encoded oid tail Hoid Htail)
    as (alarmCode & alarmType & timeStamp & Hparse).
  split; [|split; [|split]].
  - intros obj Htarget. unfold handleAcknowledgeAlarm.
    rewrite Hparse, Hdev, Htarget. cbv zeta.
    set (r := WriteProperty obj PropertyIdentifierEventState
                (Some protocolEventStateNormal) now).
    assert (Hentry : forall q,
              propertyEntry (wrObject r) q
              = if decide (PropertyIdentifierEventState = q)
                then Some (Some protocolEventStateNormal)
                else propertyEntry obj q)
      by (intros q; apply WriteProperty_entry).
    assert (Hflags : GetStatusFlags (wrObject r) = GetStatusFlags obj).
    { unfold GetStatusFlags. by rewrite Hentry. }
    rewrite Hflags.
    destruct (SetStatusFlags (wrObject r)
                (Z.ldiff (GetStatusFlags obj) StatusFlagInAlarm))
      as [obj'|] eqn:Hset.
    + pose proof (setPropertyEntry_entry _ _ _ _ PropertyIdentifierEventState
                    Hset) as He.
      pose proof (setPropertyEntry_entry _ _ _ _ PropertyIdentifierStatusFlags
                    Hset) as Hf.
      rewrite Hentry in He. cbn in He. cbn in Hf.
      assert (Hid : Identifier obj' = Identifier obj).
      { unfold SetStatusFlags, setPropertyEntry in Hset.
        destruct (Properties (wrObject r)); [|discriminate].
        injection Hset as <-. cbn [set_maps Identifier].
        apply WritePropertyWithPriority_identifier. }
      pose proof (findTarget_found _ _ _ Htarget) as Hfind.
      pose proof (FindObject_identifier _ _ _ Hfind) as Hoidobj.
      cbn [GetObjectIdentifier] in Hoidobj.
      destruct (FindObject_withObject dev oid (ObjBase obj) (ObjBase obj')
                  Hfind) as [Hfound _];
        [cbn [GetObjectIdentifier]; congruence|].
      eexists _, _, obj', _. split; [reflexivity|].
      split; [reflexivity|]. split; [exact Hfound|].
      split; [exact He|]. split.
      * unfold GetEventState. by rewrite He.
      * unfold GetStatusFlags at 1. by rewrite Hf.
    + exfalso. unfold SetStatusFlags, setPropertyEntry in Hset.
      destruct (Properties (wrObject r)) eqn:Hp; [discriminate|].
      pose proof (Hentry PropertyIdentifierEventState) as He.
      unfold propertyEntry in He. rewrite Hp in He. by cbn in He.
  - intros Htarget. unfold handleAcknowledgeAlarm.
    rewrite Hparse, Hdev, Htarget. cbv zeta.
    eexists _, _, _. split; [reflexivity|]. split; [reflexivity|].
    cbn [devBase]. unfold GetEventState, GetStatusFlags.
    rewrite !WriteProperty_entry. by cbn.
  - intros f Htarget. unfold handleAcknowledgeAlarm.
    rewrite Hparse, Hdev, Htarget. cbv zeta.
    set (r := WriteProperty (fileBase f) PropertyIdentifierEventState
                (Some protocolEventStateNormal) now).
    pose proof (findTarget_found _ _ _ Htarget) as Hfind.
    pose proof (FindObject_identifier _ _ _ Hfind) as Hoidobj.
    cbn [GetObjectIdentifier] in Hoidobj.
    assert (Hid : Identifier (wrObject r) = Identifier (fileBase f))
      by apply WritePropertyWithPriority_identifier.
    destruct (FindObject_withObject dev oid (ObjFile f)
                (ObjFile (set_file f (wrObject r) (FileData f))) Hfind)
      as [Hfound _]; [cbn [GetObjectIdentifier set_file fileBase]; congruence|].
    eexists _, _, _, _. split; [reflexivity|]. split; [reflexivity|].
    split; [exact Hfound|]. split; [reflexivity|].
    cbn [set_file fileBase]. unfold GetEventState, GetStatusFlags, r.
    rewrite !WriteProperty_entry. by cbn.
  - intros Htarget. unfold handleAcknowledgeAlarm.
    by rewrite Hparse, Hdev, Htarget.
Qed.

End Alarm.

Section Replies.

Implicit Types (s : BACnetServer) (dev : Device) (data : list Z).

Ltac reply_shape :=
  repeat (cbn [device snd];
          match goal with
          | |- replyTo _ (match ?x with _ => _ end) => destruct x
          | |- replyTo _ (snd (match ?x with _ => _ end)) => destruct x
          | |- replyTo _ (snd (let '(_, _) := ?x in _)) => destruct x
          end);
  cbn [device snd replyTo]; try (split; [by (left + right)|by split]).

(** A write at the default priority leaves a property map behind. *)
Lemma WriteProperty_map o prop value now :
  is_Some (Properties (wrObject (WriteProperty o prop value now))).
Proof.
  unfold WriteProperty.
  destruct (WritePropertyWithPriority_valid o prop value 16 now ltac:(lia))
    as (_ & Hps & _).
  rewrite Hps. unfold stored. cbn [Z.eqb Pos.eqb set_maps Properties]. eauto.
Qed.

(** X30. With a device present no embedded confirmed-service handler
    returns a Go error, and what it answers is a frame whose first byte is
    [0x03] or [0x05], whose second byte is 0 and whose third byte is the
    invoke id of the request.  ReadProperty, DeleteFile, SubscribeCOV,
    CancelCOVSubscription and AcknowledgeAlarm answer every request;
    AtomicReadFile and AtomicWriteFile answer every request but those on
    which [ReadFile] or [WriteFile] itself panics. *)
Theorem handlers_reply_shape s dev data invokeID nanos now counter :
  device s = Some dev ->
  replyTo invokeID (handleReadProperty s data invokeID)
  /\ replyTo invokeID (handleDeleteFile s data invokeID now).2
  /\ replyTo invokeID (handleSubscribeCOV s data invokeID nanos now counter).2
  /\ replyTo invokeID (handleCancelCOVSubscription s data invokeID).2
  /\ replyTo invokeID (handleAcknowledgeAlarm s data invokeID now).2
  /\ match handleAtomicReadFile s data invokeID with
     | Panicked =>
         exists request f,
           parseFileReadRequest data = Ok request
           /\ FindObject dev (FileID request) = Some (ObjFile f)
           /\ ReadFile f (StartOffset request) (ReadCount request) = None
     | o => replyTo invokeID o
     end
  /\ match (handleAtomicWriteFile s data invokeID now).2 with
     | Panicked =>
         exists request f,
           parseFileWriteRequest data = Ok request
           /\ FindObject dev (wFileID request) = Some (ObjFile f)
           /\ WriteFile f (wStartOffset request) (WriteData request) now = None
     | o => replyTo invokeID o
     end.
Proof.
  intros Hdev. destruct s as [d running addr]. cbn [device] in Hdev. subst d.
  split; [|split; [|split; [|split; [|split; [|split]]]]].
  - unfold handleReadProperty. reply_shape.
  - unfold handleDeleteFile. reply_shape.
  - unfold handleSubscribeCOV. reply_shape.
  - unfold handleCancelCOVSubscription. reply_shape.
  - unfold handleAcknowledgeAlarm. cbv zeta.
    destruct (parseAcknowledgeAlarmData data) as [[[[objectID ?] ?] ?]|];
      cbn [device snd]; [|reply_shape].
    destruct (findTarget dev objectID) as [[|[obj|f]]|]; [reply_shape| |reply_shape..].
    destruct (WriteProperty_map obj PropertyIdentifierEventState
                (Some protocolEventStateNormal) now) as [props Hprops].
    unfold SetStatusFlags, setPropertyEntry. rewrite Hprops. reply_shape.
  - unfold handleAtomicReadFile.
    destruct (parseFileReadRequest data) as [request|]; [|reply_shape].
    cbn [device].
    destruct (FindObject dev (FileID request)) as [[obj|f]|] eqn:Hfind;
      [reply_shape| |reply_shape].
    destruct (ReadFile f (StartOffset request) (ReadCount request)) eqn:Hread;
      [reply_shape|].
    by exists request, f.
  - unfold handleAtomicWriteFile.
    destruct (parseFileWriteRequest data) as [request|]; [|reply_shape].
    cbn [device].
    destruct (FindObject dev (wFileID request)) as [[obj|f]|] eqn:Hfind;
      [reply_shape| |reply_shape].
    destruct (WriteFile f (wStartOffset request) (WriteData request) now)
      as [[f' sent]|] eqn:Hwrite; [reply_shape|].
    cbn [snd]. by exists request, f.
Qed.

End Replies.

(** ** Instances on the sample server *)

Lemma handleBACnetAPDU_confirmed_witness :
  handleBACnetAPDU (fun _ s _ _ => (s, Failure "not embedded")) sampleServer
    [0; 5; 7; 99; 1; 2]
  = (sampleServer, Response []).
Proof. rewrite handleBACnetAPDU_confirmed by reflexivity. reflexivity. Defined.

Lemma handleBACnetAPDU_unconfirmed_witness :
  handleBACnetAPDU (fun _ s _ _ => (s, Failure "not embedded")) sampleServer
    [16; 8; 9; 0; 25; 10]
  = (sampleServer, Response (createIAmResponse sampleServer)).
Proof.
  rewrite handleBACnetAPDU_unconfirmed; [reflexivity|reflexivity|].
  unfold len. cbn [length]. lia.
Defined.

Lemma handleReadProperty_value_witness :
  handleReadProperty sampleServer
    (readPropertyRequest {| Type_ := ObjectTypeBinaryOutput; Instance_ := 1 |}
       PropertyIdentifierDescription []) 9
  = Response ([3; 0; 9; 21; 12; 12; 65; 15] ++ bytesOfString "Main room light")
  /\ decodeBACnetValue ([65; 15] ++ bytesOfString "Main room light")
     = Ok (DString "Main room light", 17).
Proof.
  destruct (handleReadProperty_value sampleServer sampleDevice
              {| Type_ := ObjectTypeBinaryOutput; Instance_ := 1 |}
              PropertyIdentifierDescription [] 9
              (default TargetDevice
                 (findTarget sampleDevice
                    {| Type_ := ObjectTypeBinaryOutput; Instance_ := 1 |}))
              (VString "Main room light") eq_refl)
    as (H1 & H2 & _).
  - unfold wireIdentifier, ObjectTypeBinaryOutput. cbn [Type_ Instance_]. lia.
  - unfold PropertyIdentifierDescription. lia.
  - vm_compute. reflexivity.
  - vm_compute. reflexivity.
  - split; [exact H1|]. apply H2. vm_compute. reflexivity.
Defined.

Lemma handleReadProperty_errors_witness :
  handleReadProperty sampleServer [1; 2; 3] 9 = Response [5; 0; 9; 3; 12; 4; 5]
  /\ handleReadProperty sampleServer
       (readPropertyRequest {| Type_ := ObjectTypeAnalogInput; Instance_ := 9 |}
          PropertyIdentifierPresentValue []) 9
     = Response [5; 0; 9; 3; 12; 2; 1]
  /\ handleReadProperty sampleServer
       (readPropertyRequest {| Type_ := ObjectTypeBinaryOutput; Instance_ := 1 |}
          PropertyIdentifierFileSize []) 9
     = Response [5; 0; 9; 3; 12; 3; 2].
Proof.
  destruct (handleReadProperty_errors sampleServer sampleDevice
              {| Type_ := ObjectTypeAnalogInput; Instance_ := 9 |}
              PropertyIdentifierPresentValue [] 9 eq_refl) as (H1 & H2 & _).
  destruct (handleReadProperty_errors sampleServer sampleDevice
              {| Type_ := ObjectTypeBinaryOutput; Instance_ := 1 |}
              PropertyIdentifierFileSize [] 9 eq_refl) as (_ & _ & H3).
  split; [apply H1; reflexivity|]. split.
  - apply H2; [|unfold PropertyIdentifierPresentValue; lia|reflexivity].
    unfold wireIdentifier, ObjectTypeAnalogInput. cbn [Type_ Instance_]. lia.
  - eapply H3; [|unfold PropertyIdentifierFileSize; lia
                |vm_compute; reflexivity|vm_compute; reflexivity].
    unfold wireIdentifier, ObjectTypeBinaryOutput. cbn [Type_ Instance_]. lia.
Defined.

Lemma handleAtomicWriteFile_then_Read_witness :
  exists s' sent,
    handleAtomicWriteFile sampleServer
      (atomicWriteFileRequest {| Type_ := ObjectTypeFile; Instance_ := 2 |} 0
         [222; 173; 190; 239]) 7 10
    = (s', sent, Response [3; 0; 7; 4; 21; 0; 0; 0])
    /\ handleAtomicReadFile s'
         (atomicReadFileRequest {| Type_ := ObjectTypeFile; Instance_ := 2 |}
            0 4) 8
       = Response [3; 0; 8; 13; 20; 2; 4; 0; 0; 0; 0; 4; 0; 0; 0; 4;
                   222; 173; 190; 239].
Proof.
  apply (handleAtomicWriteFile_then_Read sampleServer sampleDevice
           {| Type_ := ObjectTypeFile; Instance_ := 2 |}
           (NewBACnetFile 2 "Log File" FileAccessMethodStream 0)
           0 [222; 173; 190; 239] 7 8 10).
  - reflexivity.
  - unfold wireIdentifier, ObjectTypeFile. cbn [Type_ Instance_]. lia.
  - vm_compute. reflexivity.
  - reflexivity.
  - lia.
  - reflexivity.
  - unfold len. cbn [length]. lia.
Defined.

Lemma handleAtomicWriteFile_short_data_witness :
  handleAtomicWriteFile sampleServer
    (atomicWriteFileRequest {| Type_ := ObjectTypeFile; Instance_ := 2 |} 0
       [1; 2; 3]) 7 10
  = (sampleServer, [], Response [5; 0; 7; 3; 21; 4; 5]).
Proof. apply handleAtomicWriteFile_short_data. reflexivity. Defined.

Lemma handleDeleteFile_then_Read_witness :
  exists s' sent,
    handleDeleteFile sampleServer
      (encodeObjectIdentifier {| Type_ := ObjectTypeFile; Instance_ := 2 |})
      7 10
    = (s', sent, Response [3; 0; 7; 4; 22; 0; 0; 0])
    /\ handleAtomicReadFile s'
         (atomicReadFileRequest {| Type_ := ObjectTypeFile; Instance_ := 2 |}
            0 4) 8
       = Response [3; 0; 8; 9; 20; 2; 4; 0; 0; 0; 0; 4; 0; 0; 0; 0].
Proof.
  rewrite <- (app_nil_r (encodeObjectIdentifier _)).
  apply (handleDeleteFile_then_Read sampleServer sampleDevice
           {| Type_ := ObjectTypeFile; Instance_ := 2 |}
           (NewBACnetFile 2 "Log File" FileAccessMethodStream 0)
           [] 0 4 7 8 10).
  - reflexivity.
  - unfold wireIdentifier, ObjectTypeFile. cbn [Type_ Instance_]. lia.
  - vm_compute. reflexivity.
  - lia.
  - lia.
Defined.

Lemma handleAtomicWriteFile_file_size_witness :
  exists s' sent,
    handleAtomicWriteFile sampleServer
      (atomicWriteFileRequest {| Type_ := ObjectTypeFile; Instance_ := 2 |} 2
         [222; 173; 190; 239]) 7 10
    = (s', sent, Response [3; 0; 7; 4; 21; 0; 0; 0])
    /\ handleReadProperty s'
         (readPropertyRequest {| Type_ := ObjectTypeFile; Instance_ := 2 |}
            PropertyIdentifierFileSize []) 8
       = Response [3; 0; 8; 9; 12; 12; 35; 0; 0; 0; 6].
Proof.
  apply (handleAtomicWriteFile_file_size sampleServer sampleDevice
           {| Type_ := ObjectTypeFile; Instance_ := 2 |}
           (NewBACnetFile 2 "Log File" FileAccessMethodStream 0)
           2 [222; 173; 190; 239] 7 8 10).
  - reflexivity.
  - unfold wireIdentifier, ObjectTypeFile. cbn [Type_ Instance_]. lia.
  - discriminate.
  - vm_compute. reflexivity.
  - reflexivity.
  - lia.
  - reflexivity.
  - unfold len. cbn [length]. lia.
Defined.

(** A boolean test for [unusedID] on a concrete list. *)
Lemma unusedID_forallb objs id :
  forallb (fun obj =>
             match obj with
             | ObjBase o =>
                 forallb (fun sub => negb (SubscriptionID sub =? id))
                   (Subscriptions o)
             | ObjFile _ => true
             end) objs = true ->
  unusedID objs id.
Proof.
  intros H o Ho sub Hsub Hid.
  rewrite forallb_forall in H.
  apply list_elem_of_In in Ho. specialize (H _ Ho). cbn in H.
  rewrite forallb_forall in H.
  apply list_elem_of_In in Hsub. specialize (H _ Hsub).
  apply negb_true_iff, Z.eqb_neq in H. done.
Qed.

Lemma handleSubscribeCOV_then_Cancel_witness :
  exists s',
    handleSubscribeCOV sampleServer
      (encodeObjectIdentifier
         {| Type_ := ObjectTypeBinaryOutput; Instance_ := 1 |}
       ++ [1; 0; 0; 0; 60; 1; 0; 0; 0; 0; 0; 0]) 7 281474976710656 10 0
    = (s', 1, Response [3; 0; 7; 8; 14; 4; 0; 1; 0; 1])
    /\ handleCancelCOVSubscription s' [0; 1; 0; 1] 8
       = (sampleServer, Response [3; 0; 8; 4; 37; 0; 0; 0]).
Proof.
  destruct (handleSubscribeCOV_then_Cancel sampleServer sampleDevice
              {| Type_ := ObjectTypeBinaryOutput; Instance_ := 1 |}
              (match FindObject sampleDevice
                       {| Type_ := ObjectTypeBinaryOutput; Instance_ := 1 |}
               with
               | Some (ObjBase o) => o
               | _ => NewBACnetObject ObjectTypeBinaryOutput 1 ""
               end)
              [1; 0; 0; 0; 60; 1; 0; 0; 0; 0; 0; 0] [] 7 8
              281474976710656 10 0)
    as (s' & dev' & sub & H1 & _ & _ & _ & _ & _ & H2).
  - reflexivity.
  - unfold wireIdentifier, ObjectTypeBinaryOutput. cbn [Type_ Instance_]. lia.
  - vm_compute. reflexivity.
  - unfold len. cbn [length]. lia.
  - apply unusedID_forallb. vm_compute. reflexivity.
  - exists s'. split; [exact H1|exact H2].
Defined.

Lemma handleCancelCOVSubscription_unknown_witness :
  handleCancelCOVSubscription sampleServer [0; 0; 0; 77] 8
  = (sampleServer, Response [5; 0; 8; 3; 37; 9; 1])
  /\ (exists s',
        handleCancelCOVSubscription
          (withDevice sampleServer (AddObject sampleDevice (ObjBase sampleAI)))
          [0; 1; 0; 1] 8
        = (s', Response [3; 0; 8; 4; 37; 0; 0; 0]))
  /\ handleCancelCOVSubscription sampleServer [0; 0; 77] 8
     = (sampleServer, Response [5; 0; 8; 3; 37; 4; 5]).
Proof.
  destruct (handleCancelCOVSubscription_unknown sampleServer sampleDevice
              77 [] 8 eq_refl ltac:(lia)) as (H1 & _ & H3).
  destruct (handleCancelCOVSubscription_unknown
              (withDevice sampleServer
                 (AddObject sampleDevice (ObjBase sampleAI)))
              (AddObject sampleDevice (ObjBase sampleAI))
              65537 [] 8 eq_refl ltac:(lia)) as (_ & H2 & _).
  split; [|split].
  - apply H1. apply unusedID_forallb. vm_compute. reflexivity.
  - apply H2. intros Hun.
    apply (Hun sampleAI) with (sub := sampleSubAll).
    + cbn [AddObject Objects]. apply elem_of_app. right. by left.
    + vm_compute. by left.
    + reflexivity.
  - apply H3. reflexivity.
Defined.

Lemma handleAcknowledgeAlarm_clears_witness :
  (exists s' sent,
     handleAcknowledgeAlarm sampleServer
       (encodeObjectIdentifier
          {| Type_ := ObjectTypeBinaryOutput; Instance_ := 1 |}
        ++ [0; 0; 0; 1; 0; 0; 0; 2; 0; 0; 0; 3]) 7 10
     = (s', sent, Response [3; 0; 7; 4; 15; 0; 0; 0]))
  /\ (exists s' sent,
        handleAcknowledgeAlarm sampleServer
          (encodeObjectIdentifier
             {| Type_ := ObjectTypeDevice; Instance_ := 1001 |}
           ++ [0; 0; 0; 1; 0; 0; 0; 2; 0; 0; 0; 3]) 7 10
        = (s', sent, Response [3; 0; 7; 4; 15; 0; 0; 0]))
  /\ (exists s' sent,
        handleAcknowledgeAlarm sampleServer
          (encodeObjectIdentifier
             {| Type_ := ObjectTypeFile; Instance_ := 2 |}
           ++ [0; 0; 0; 1; 0; 0; 0; 2; 0; 0; 0; 3]) 7 10
        = (s', sent, Response [3; 0; 7; 4; 15; 0; 0; 0]))
  /\ handleAcknowledgeAlarm sampleServer
       (encodeObjectIdentifier
          {| Type_ := ObjectTypeAnalogInput; Instance_ := 9 |}
        ++ [0; 0; 0; 1; 0; 0; 0; 2; 0; 0; 0; 3]) 7 10
     = (sampleServer, [], Response [5; 0; 7; 3; 15; 2; 1]).
Proof.
  assert (Htail : 12 <= len [0; 0; 0; 1; 0; 0; 0; 2; 0; 0; 0; 3])
    by (unfold len; cbn [length]; lia).
  split; [|split; [|split]].
  - destruct (handleAcknowledgeAlarm_clears sampleServer sampleDevice
                {| Type_ := ObjectTypeBinaryOutput; Instance_ := 1 |}
                [0; 0; 0; 1; 0; 0; 0; 2; 0; 0; 0; 3] 7 10 eq_refl)
      as (H1 & _ & _ & _); [|exact Htail|].
    { unfold wireIdentifier, ObjectTypeBinaryOutput.
      cbn [Type_ Instance_]. lia. }
    destruct (H1 (match FindObject sampleDevice
                          {| Type_ := ObjectTypeBinaryOutput; Instance_ := 1 |}
                  with
                  | Some (ObjBase o) => o
                  | _ => NewBACnetObject ObjectTypeBinaryOutput 1 ""
                  end))
      as (s' & dev' & obj' & sent & H & _); [vm_compute; reflexivity|].
    by exists s', sent.
  - destruct (handleAcknowledgeAlarm_clears sampleServer sampleDevice
                {| Type_ := ObjectTypeDevice; Instance_ := 1001 |}
                [0; 0; 0; 1; 0; 0; 0; 2; 0; 0; 0; 3] 7 10 eq_refl)
      as (_ & H2 & _ & _); [|exact Htail|].
    { unfold wireIdentifier, ObjectTypeDevice. cbn [Type_ Instance_]. lia. }
    destruct H2 as (s' & dev' & sent & H & _); [vm_compute; reflexivity|].
    by exists s', sent.
  - destruct (handleAcknowledgeAlarm_clears sampleServer sampleDevice
                {| Type_ := ObjectTypeFile; Instance_ := 2 |}
                [0; 0; 0; 1; 0; 0; 0; 2; 0; 0; 0; 3] 7 10 eq_refl)
      as (_ & _ & H3 & _); [|exact Htail|].
    { unfold wireIdentifier, ObjectTypeFile. cbn [Type_ Instance_]. lia. }
    destruct (H3 (NewBACnetFile 2 "Log File" FileAccessMethodStream 0))
      as (s' & dev' & f' & sent & H & _); [vm_compute; reflexivity|].
    by exists s', sent.
  - destruct (handleAcknowledgeAlarm_clears sampleServer sampleDevice
                {| Type_ := ObjectTypeAnalogInput; Instance_ := 9 |}
                [0; 0; 0; 1; 0; 0; 0; 2; 0; 0; 0; 3] 7 10 eq_refl)
      as (_ & _ & _ & H3); [|exact Htail|].
    { unfold wireIdentifier, ObjectTypeAnalogInput. cbn [Type_ Instance_]. lia. }
    apply H3. reflexivity.
Defined.

Lemma handlers_reply_shape_witness :
  replyTo 7 (handleReadProperty sampleServer readFile1Payload 7)
  /\ replyTo 7 (handleAtomicReadFile sampleServer readFile1Payload 7).
Proof.
  destruct (handlers_reply_shape sampleServer sampleDevice readFile1Payload
              7 0 0 0 eq_refl) as (H1 & _ & _ & _ & _ & H6 & _).
  split; [exact H1|exact H6].
Defined.

(** With a device present AtomicReadFile still panics when the end offset
    of the read wraps around [uint32]: after eight bytes have been written
    to the log file, a read of [0xFFFFFFFF] bytes at offset 1 computes the
    end offset 0 and slices [f.FileData[1:0]]. *)
Example handleAtomicReadFile_wrapped_end_offset :
  let fileID := {| Type_ := ObjectTypeFile; Instance_ := 2 |} in
  let s :=
    (handleAtomicWriteFile sampleServer
       (atomicWriteFileRequest fileID 0 [1; 2; 3; 4; 5; 6; 7; 8]) 7 10).1.1 in
  handleAtomicReadFile s (atomicReadFileRequest fileID 1 4294967295) 8
  = Panicked.
Proof. vm_compute. reflexivity. Qed.
